(** * autojsonrpc: request dispatch and type-directed marshalling

    A shallow embedding of [autojsonrpc/types.py] (the converter:
    [CustomJSONEncoder.default], [to_dict], [to_json], [convert_arg]) and of
    [autojsonrpc/__init__.py] ([MethodDefinition], [JsonRpcRegistry] with
    [_make_error], [_execute_request], [handle_request]), followed by the
    properties of the dispatch core.

    Python objects are an inductive type [pyval]; a Python exception is a
    value of [exn] and a computation that may raise returns [result].  The
    parts of the Python standard library the code calls ([datetime],
    [decimal], [json], tracebacks) are taken as parameters, in the classes
    [PyCarriers] and [PyLib]; the module [Sample] gives a small runtime on
    which the scenarios run.

    The definitions come first: the embedding of the two source files, the
    envelopes, the scenario services and the vocabulary of the properties;
    then the rest of the registry ([get], [set], [generate_client], the
    decorator [jsonrpc_service]) and [autojsonrpc/wsgi.py], and a second
    scenario service.

    The properties follow, each section with its lemmas and its main
    theorems: validation, execution, binding, records, framing and the round
    trip (C3 to C10); registration, the encoder's output, responses, named
    parameters, decoding and streams (X1 to X17); calls by position (C1),
    batches (C2) and the WSGI application (X19, X20).  The modules
    [Scenarios] and [MoreScenarios] hold the scenarios evaluated on the
    sample runtime and close the file. *)

From stdpp Require Import base decidable option list strings gmap pretty.
From Stdlib Require Import ZArith Lia.

Set Warnings "-register-all".

Open Scope Z_scope.
Open Scope string_scope.

(** ** Exceptions and the error monad *)

Inductive exn_kind : Type :=
| AssertionError
| TypeError
| ValueError
| KeyError
| AttributeError
| OverflowError
| InvalidOperation
| JSONDecodeError
| UserException (name : string)
| SystemExit
| KeyboardInterrupt.

(** [isinstance(e, Exception)]: what an [except Exception] clause catches.
    [SystemExit] and [KeyboardInterrupt] derive from [BaseException] only. *)
Definition is_Exception (k : exn_kind) : bool :=
  match k with
  | SystemExit | KeyboardInterrupt => false
  | _ => true
  end.

Definition is_AssertionError (k : exn_kind) : bool :=
  match k with
  | AssertionError => true
  | _ => false
  end.

(** An exception object: its class and [str(e)]. *)
Record exn : Type := Exn { exn_class : exn_kind; exn_str : string }.

Inductive result (A : Type) : Type :=
| Ok (a : A)
| Raise (e : exn).
Arguments Ok {A} a.
Arguments Raise {A} e.

Declare Scope py_scope.
Delimit Scope py_scope with py.
Open Scope py_scope.

Notation "x <- c1 ;; c2" :=
  (match c1 with
   | Ok x => c2
   | Raise e => Raise e
   end)
  (at level 60, c1 at next level, right associativity) : py_scope.

Notation "'raise' k 'with' msg" := (Raise (Exn k msg))
  (at level 10, k at level 9, msg at level 9) : py_scope.


(** ** Python values *)

(** The carriers of the library types the converter has adapters for, and of
    [float]; the code never computes with them, it only passes them to the
    library. *)
Class PyCarriers : Type := {
  pyfloat : Type;
  datetime : Type;
  timedelta : Type;
  Decimal : Type;
  pyfloat_eq_dec :: EqDecision pyfloat;
  datetime_eq_dec :: EqDecision datetime;
  timedelta_eq_dec :: EqDecision timedelta;
  Decimal_eq_dec :: EqDecision Decimal
}.

Section Values.
Context `{PyCarriers}.

(** Lists, tuples and sets hold their elements in iteration order; a dict
    holds its items in insertion order.  [VData] is an instance of a
    dataclass (class name, fields in declaration order); [VObject] is an
    object exposing a [to_dict()] method, with the value that call returns.
    [VOther] is an object of any other class, of which the code knows
    nothing (a date, bytes, a frozenset, an Enum member, an instance of a
    plain class): its class name, whether it is hashable, and a number that
    tells two such objects apart.  The encoder returns such an object as it
    is and never looks inside, so what it holds is not kept.  It has none
    of the attributes [to_dict], [get] and [items]; the decoder and the
    dispatcher work on what [json.loads] returns and are never handed one,
    and on one they raise as on an object that is no container. *)
Inductive pyval : Type :=
| VNone
| VBool (b : bool)
| VInt (n : Z)
| VFloat (x : pyfloat)
| VStr (s : string)
| VList (xs : list pyval)
| VTuple (xs : list pyval)
| VSet (xs : list pyval)
| VDict (items : list (pyval * pyval))
| VData (cls : string) (fields : list (string * pyval))
| VDatetime (d : datetime)
| VTimedelta (t : timedelta)
| VDecimal (q : Decimal)
| VObject (cls : string) (to_dict_result : pyval)
| VOther (cls : string) (hash : bool) (ident : Z).

Definition pyval_eq_dec : forall x y : pyval, {x = y} + {x <> y}.
Proof.
  fix IH 1.
  assert (Hl : forall xs ys : list pyval, {xs = ys} + {xs <> ys})
    by (decide equality).
  assert (Hp : forall xs ys : list (pyval * pyval), {xs = ys} + {xs <> ys})
    by (do 2 decide equality).
  assert (Hf : forall xs ys : list (string * pyval), {xs = ys} + {xs <> ys})
    by (do 2 decide equality; apply String.eq_dec).
  decide equality;
    first [ apply String.eq_dec | apply Z.eq_dec | apply bool_eq_dec
          | apply pyfloat_eq_dec | apply datetime_eq_dec
          | apply timedelta_eq_dec | apply Decimal_eq_dec ].
Defined.

#[global] Instance pyval_eq_decision : EqDecision pyval := pyval_eq_dec.

End Values.

(** ** Type annotations *)

Inductive seq_origin : Type := OList | OTuple | OSet.

Inductive scalar_kind : Type := SInt | SFloat | SStr | SBool.

(** What [convert_arg] can tell apart in an annotation: [None], [typing.Any],
    [list[T]] / [tuple[T]] / [set[T]] (by [typing.get_origin], with the first
    type argument), [dict[K, V]], a dataclass (class name and fields in
    declaration order), the three classes of [type_mappings], and anything
    else: the scalar classes and [inspect.Signature.empty], the annotation
    of a parameter that has none. *)
Inductive pytype : Type :=
| TNone
| TAny
| TSeq (origin : seq_origin) (component_type : pytype)
| TDict (key_type value_type : pytype)
| TData (cls : string) (fields : list (string * pytype))
| TDatetime
| TTimedelta
| TDecimal
| TScalar (k : scalar_kind)
| TEmpty.

(** ** The Python library, as far as the code calls it *)

(** A library call returns a value or fails with the text of the exception
    it raises; the class of the exception is fixed where the call is made. *)
Class PyLib `{PyCarriers} : Type := {
  (** [datetime.isoformat()], [datetime.fromisoformat(s)] *)
  isoformat : datetime -> string;
  fromisoformat : string -> string + datetime;
  (** [timedelta.total_seconds()], [timedelta(seconds=x)] for an int and for
      a float *)
  total_seconds : timedelta -> pyfloat;
  timedelta_of_int : Z -> string + timedelta;
  timedelta_of_float : pyfloat -> string + timedelta;
  (** [float(d)] and [Decimal(x)] for an int, a float, a str, and a list or
      tuple (sign, digits, exponent) *)
  float_of_Decimal : Decimal -> string + pyfloat;
  Decimal_of_int : Z -> Decimal;
  Decimal_of_float : pyfloat -> Decimal;
  Decimal_of_str : string -> string + Decimal;
  Decimal_of_sequence : list pyval -> string + Decimal;
  (** [json.loads(s)], [json.dumps(v)] *)
  json_loads : string -> string + pyval;
  json_dumps : pyval -> string + string;
  (** [inspect.getinnerframes(e.__traceback__)[-1]]: file name and line of
      the innermost frame, [None] when the exception has no traceback *)
  innermost_frame : exn -> option (string * nat)
}.

Definition lib {A} (k : exn_kind) (r : string + A) : result A :=
  match r with
  | inr a => Ok a
  | inl msg => raise k with msg
  end.

Section Python.
Context `{PyLib}.

(** *** Built-in operations *)

Definition type_name (v : pyval) : string :=
  match v with
  | VNone => "NoneType"
  | VBool _ => "bool"
  | VInt _ => "int"
  | VFloat _ => "float"
  | VStr _ => "str"
  | VList _ => "list"
  | VTuple _ => "tuple"
  | VSet _ => "set"
  | VDict _ => "dict"
  | VData cls _ => cls
  | VDatetime _ => "datetime.datetime"
  | VTimedelta _ => "datetime.timedelta"
  | VDecimal _ => "decimal.Decimal"
  | VObject cls _ => cls
  | VOther cls _ _ => cls
  end.

(** [hash(v)] succeeds.  A dataclass instance is unhashable (the default
    [eq=True] sets [__hash__] to [None]). *)
Fixpoint hashable (v : pyval) : bool :=
  match v with
  | VList _ | VSet _ | VDict _ | VData _ _ => false
  | VTuple xs => forallb hashable xs
  | VOther _ h _ => h
  | _ => true
  end.

(** The items of a dict, in insertion order.  Keys are compared as values
    of [pyval]; Python also takes [True], [1] and [1.0] for the same key,
    which is not modelled. *)
Definition pydict : Type := list (pyval * pyval).

Fixpoint dict_lookup (d : pydict) (key : pyval) : option pyval :=
  match d with
  | [] => None
  | (k, v) :: rest => if decide (k = key) then Some v else dict_lookup rest key
  end.

Fixpoint dict_replace (d : pydict) (key value : pyval) : pydict :=
  match d with
  | [] => [(key, value)]
  | (k, v) :: rest =>
      if decide (k = key) then (k, value) :: rest
      else (k, v) :: dict_replace rest key value
  end.

(** [d[key] = value] *)
Definition dict_setitem (d : pydict) (key value : pyval) : result pydict :=
  if hashable key then Ok (dict_replace d key value)
  else raise TypeError with ("unhashable type: '" ++ type_name key ++ "'").

(** [[f(x) for x in xs]] *)
Definition list_comprehension {A B} (f : A -> result B) : list A -> result (list B) :=
  fix go xs :=
    match xs with
    | [] => Ok []
    | x :: rest => y <- f x;; ys <- go rest;; Ok (y :: ys)
    end.

(** [{fk(x): fv(x) for x in xs}], the dict under construction in [acc]: the
    key is evaluated before the value, then the item is stored. *)
Definition dict_comprehension {A} (fk fv : A -> result pyval)
  : list A -> pydict -> result pydict :=
  fix go xs acc :=
    match xs with
    | [] => Ok acc
    | x :: rest =>
        k <- fk x;; v <- fv x;; acc' <- dict_setitem acc k v;; go rest acc'
    end.

(** A str is held as its UTF-8 bytes.  A byte from 128 to 191 continues the
    character begun before it. *)
Definition is_continuation (c : Ascii.ascii) : bool :=
  let n := Ascii.nat_of_ascii c in ((128 <=? n) && (n <=? 191))%nat.

(** The characters (code points) of a str, each with all its bytes. *)
Fixpoint code_points (s : string) : list string :=
  match s with
  | EmptyString => []
  | String c rest =>
      match rest with
      | String d _ =>
          if is_continuation d then
            match code_points rest with
            | p :: ps => String c p :: ps
            | [] => [String c ""]
            end
          else String c "" :: code_points rest
      | EmptyString => [String c ""]
      end
  end.

(** [list(s)]: the one-character strs of [s]. *)
Definition chars (s : string) : list pyval := VStr <$> code_points s.

(** [for value in arg] *)
Definition py_iter (arg : pyval) : result (list pyval) :=
  match arg with
  | VList xs | VTuple xs | VSet xs => Ok xs
  | VStr s => Ok (chars s)
  | VDict items => Ok (fst <$> items)
  | _ => raise TypeError with ("'" ++ type_name arg ++ "' object is not iterable")
  end.

Definition no_attribute {A} (obj : pyval) (attr : string) : result A :=
  raise AttributeError with
    ("'" ++ type_name obj ++ "' object has no attribute '" ++ attr ++ "'").

(** [arg.items()] *)
Definition py_items (arg : pyval) : result pydict :=
  match arg with
  | VDict items => Ok items
  | _ => no_attribute arg "items"
  end.

(** [arg.get(key)] *)
Definition py_get (arg : pyval) (key : pyval) : result pyval :=
  match arg with
  | VDict items =>
      match dict_lookup items key with
      | Some v => Ok v
      | None => Ok VNone
      end
  | _ => no_attribute arg "get"
  end.

Fixpoint is_substring (needle hay : string) : bool :=
  String.prefix needle hay
  || match hay with
     | EmptyString => false
     | String _ rest => is_substring needle rest
     end.

(** [key in obj] *)
Definition py_contains (obj key : pyval) : result bool :=
  match obj with
  | VDict items =>
      if hashable key then Ok (bool_decide (is_Some (dict_lookup items key)))
      else raise TypeError with ("unhashable type: '" ++ type_name key ++ "'")
  | VList xs | VTuple xs => Ok (bool_decide (key ∈ xs))
  | VSet xs =>
      if hashable key then Ok (bool_decide (key ∈ xs))
      else raise TypeError with ("unhashable type: '" ++ type_name key ++ "'")
  | VStr s =>
      match key with
      | VStr sub => Ok (is_substring sub s)
      | _ => raise TypeError with
               ("'in <string>' requires string as left operand, not "
                ++ type_name key)
      end
  | _ => raise TypeError with
           ("argument of type '" ++ type_name obj ++ "' is not iterable")
  end.

(** [obj[key]] for a string key *)
Definition py_getitem (obj : pyval) (key : string) : result pyval :=
  match obj with
  | VDict items =>
      match dict_lookup items (VStr key) with
      | Some v => Ok v
      | None => raise KeyError with ("'" ++ key ++ "'")
      end
  | VList _ | VTuple _ | VStr _ =>
      raise TypeError with
        (type_name obj ++ " indices must be integers or slices, not str")
  | _ => raise TypeError with
           ("'" ++ type_name obj ++ "' object is not subscriptable")
  end.

End Python.

(** ** [types.py]: the converter *)

Section Types.
Context `{PyLib}.

(** [type_mappings[...]["to_dict"]] *)
Definition to_dict_datetime (x : datetime) : result pyval :=
  Ok (VStr (isoformat x)).

Definition to_dict_timedelta (x : timedelta) : result pyval :=
  Ok (VFloat (total_seconds x)).

Definition to_dict_Decimal (x : Decimal) : result pyval :=
  f <- lib ValueError (float_of_Decimal x);; Ok (VFloat f).

(** [type_mappings[...]["from_dict"]] *)
Definition from_dict_datetime (x : pyval) : result pyval :=
  match x with
  | VStr s => d <- lib ValueError (fromisoformat s);; Ok (VDatetime d)
  | _ => raise TypeError with "fromisoformat: argument must be str"
  end.

Definition from_dict_timedelta (x : pyval) : result pyval :=
  match x with
  | VInt n => t <- lib OverflowError (timedelta_of_int n);; Ok (VTimedelta t)
  | VBool b =>
      t <- lib OverflowError (timedelta_of_int (if b then 1 else 0));;
      Ok (VTimedelta t)
  | VFloat f => t <- lib OverflowError (timedelta_of_float f);; Ok (VTimedelta t)
  | _ => raise TypeError with
           ("unsupported type for timedelta seconds component: " ++ type_name x)
  end.

Definition from_dict_Decimal (x : pyval) : result pyval :=
  match x with
  | VInt n => Ok (VDecimal (Decimal_of_int n))
  | VBool b => Ok (VDecimal (Decimal_of_int (if b then 1 else 0)))
  | VFloat f => Ok (VDecimal (Decimal_of_float f))
  | VStr s => q <- lib InvalidOperation (Decimal_of_str s);; Ok (VDecimal q)
  | VList xs | VTuple xs =>
      q <- lib ValueError (Decimal_of_sequence xs);; Ok (VDecimal q)
  | VDecimal q => Ok (VDecimal q)
  | _ => raise TypeError with
           ("conversion from " ++ type_name x ++ " to Decimal is not supported")
  end.

(** [CustomJSONEncoder.default].  The branches are tried in the order of the
    source: [None], an object with a [to_dict] attribute, a dataclass, the
    classes of [type_mappings], list / tuple / set, dict, anything else.
    In the [type_mappings] branch the source calls [self.default] on the
    adapter's output, a str or a float, which [default] returns as it is
    (lemmas [default_str] and [default_float]). *)
Fixpoint default (obj : pyval) : result pyval :=
  match obj with
  | VNone => Ok VNone
  | VObject _ r =>
      match r with
      | VDict items =>
          d <- dict_comprehension (fun kv => default (fst kv))
                 (fun kv => default (snd kv)) items [];;
          Ok (VDict d)
      | _ => no_attribute r "items"
      end
  | VData _ fields =>
      d <- dict_comprehension (fun fld => Ok (VStr (fst fld)))
             (fun fld => default (snd fld)) fields [];;
      Ok (VDict d)
  | VDatetime x => to_dict_datetime x
  | VTimedelta x => to_dict_timedelta x
  | VDecimal x => to_dict_Decimal x
  | VList xs | VTuple xs | VSet xs =>
      ys <- list_comprehension default xs;; Ok (VList ys)
  | VDict items =>
      d <- dict_comprehension (fun kv => default (fst kv))
             (fun kv => default (snd kv)) items [];;
      Ok (VDict d)
  | _ => Ok obj
  end.

Definition to_dict (obj : pyval) : result pyval := default obj.

Definition to_json (obj : pyval) : result string :=
  d <- to_dict obj;; lib TypeError (json_dumps d).

(** [convert_arg(arg, python_type)] *)
Fixpoint convert_arg (arg : pyval) (python_type : pytype) {struct python_type}
  : result pyval :=
  match python_type with
  | TNone | TAny => Ok arg
  | TSeq _ component_type =>
      xs <- py_iter arg;;
      ys <- list_comprehension (fun value => convert_arg value component_type) xs;;
      Ok (VList ys)
  | TDict key_type value_type =>
      items <- py_items arg;;
      d <- dict_comprehension (fun kv => convert_arg (fst kv) key_type)
             (fun kv => convert_arg (snd kv) value_type) items [];;
      Ok (VDict d)
  | TData cls fields =>
      values <-
        (fix loop (fields : list (string * pytype)) : result (list (string * pyval)) :=
           match fields with
           | [] => Ok []
           | (field_name, field_type) :: rest =>
               x <- py_get arg (VStr field_name);;
               v <- convert_arg x field_type;;
               vs <- loop rest;;
               Ok ((field_name, v) :: vs)
           end) fields;;
      Ok (VData cls values)
  | TDatetime => from_dict_datetime arg
  | TTimedelta => from_dict_timedelta arg
  | TDecimal => from_dict_Decimal arg
  | TScalar _ | TEmpty => Ok arg
  end.

End Types.

(** ** [__init__.py]: method and service definitions *)

Section Registry.
Context `{PyLib}.

(** The kind of a parameter, [inspect.Parameter.kind]. *)
Inductive parameter_kind : Type :=
| POSITIONAL_ONLY
| POSITIONAL_OR_KEYWORD
| VAR_POSITIONAL
| KEYWORD_ONLY
| VAR_KEYWORD.

(** A parameter as [inspect.signature] reports it: name, annotation
    ([TEmpty] when there is none), kind and default value if any. *)
Record parameter : Type := {
  param_name : string;
  annotation : pytype;
  kind : parameter_kind;
  default_value : option pyval
}.

(** A parameter written [name: annotation], before any star and with no
    default. *)
Definition param (name : string) (ann : pytype) : parameter :=
  {| param_name := name; annotation := ann; kind := POSITIONAL_OR_KEYWORD;
     default_value := None |}.

(** A bound method of a service object together with what
    [inspect.signature] reports for it: the parameters ([self] excluded), in
    declaration order, and the return annotation.  [body] is the function
    body, run on the values of the parameters in declaration order: a tuple
    for a [*args] parameter, a dict for a [**kwargs] parameter. *)
Record bound_method : Type := {
  parameters : list parameter;
  return_annotation : pytype;
  body : list pyval -> result pyval
}.

Definition py_repr (v : pyval) : string :=
  match v with
  | VNone => "None"
  | VBool true => "True"
  | VBool false => "False"
  | VInt n => pretty n
  | VStr s => "'" ++ s ++ "'"
  | _ => "<" ++ type_name v ++ " object>"
  end.

(** The keyword arguments of a call must have str keys. *)
Fixpoint keywords (kwargs : pydict) : result (list (string * pyval)) :=
  match kwargs with
  | [] => Ok []
  | (VStr k, v) :: rest => kws <- keywords rest;; Ok ((k, v) :: kws)
  | _ => raise TypeError with "keywords must be strings"
  end.

Fixpoint assoc {A} (l : list (string * A)) (key : string) : option A :=
  match l with
  | [] => None
  | (k, a) :: rest => if decide (k = key) then Some a else assoc rest key
  end.

(** A parameter that takes positional arguments, and one that can be given
    by keyword. *)
Definition is_positional (p : parameter) : bool :=
  match kind p with
  | POSITIONAL_ONLY | POSITIONAL_OR_KEYWORD => true
  | _ => false
  end.

Definition by_keyword (p : parameter) : bool :=
  match kind p with
  | POSITIONAL_OR_KEYWORD | KEYWORD_ONLY => true
  | _ => false
  end.

Definition is_var_positional (p : parameter) : bool :=
  match kind p with VAR_POSITIONAL => true | _ => false end.

Definition is_var_keyword (p : parameter) : bool :=
  match kind p with VAR_KEYWORD => true | _ => false end.

Definition is_positional_only (p : parameter) : bool :=
  match kind p with POSITIONAL_ONLY => true | _ => false end.

(** The parameter a keyword argument named [k] is bound to. *)
Definition keyword_parameter (ps : list parameter) (k : string) : option parameter :=
  List.find (fun p => by_keyword p && bool_decide (param_name p = k)) ps.

(** The keyword arguments are matched against the parameters, in the order
    they are given.  [given] holds the names of the parameters bound by
    position.  A keyword that matches no parameter goes to the [**kwargs]
    parameter when there is one. *)
Fixpoint check_keywords (ps : list parameter) (given : list string)
    (kws : list (string * pyval)) : result unit :=
  match kws with
  | [] => Ok tt
  | (k, _) :: rest =>
      match keyword_parameter ps k with
      | Some _ =>
          if bool_decide (k ∈ given) then
            raise TypeError with ("got multiple values for argument '" ++ k ++ "'")
          else check_keywords ps given rest
      | None =>
          if existsb is_var_keyword ps then check_keywords ps given rest
          else if existsb (fun p => is_positional_only p
                                    && bool_decide (param_name p = k)) ps then
            raise TypeError with
              ("got some positional-only arguments passed as keyword arguments: '"
               ++ k ++ "'")
          else raise TypeError with ("got an unexpected keyword argument '" ++ k ++ "'")
      end
  end.

(** The value of a parameter that no positional argument is left for: the
    keyword argument of its name if it can be given by keyword, else its
    default. *)
Definition keyword_or_default (p : parameter) (kws : list (string * pyval))
  : result pyval :=
  match (if by_keyword p then assoc kws (param_name p) else None) with
  | Some v => Ok v
  | None =>
      match default_value p with
      | Some d => Ok d
      | None =>
          raise TypeError with
            (match kind p with
             | KEYWORD_ONLY => "missing 1 required keyword-only argument: '"
             | _ => "missing 1 required positional argument: '"
             end ++ param_name p ++ "'")
      end
  end.

(** The values of the parameters, in declaration order.  [args] holds the
    positional arguments not yet bound; [extra] the keyword arguments that
    match no parameter. *)
Fixpoint bind_parameters (ps : list parameter) (args : list pyval)
    (kws : list (string * pyval)) (extra : pydict) : result (list pyval) :=
  match ps with
  | [] => Ok []
  | p :: rest =>
      match kind p with
      | POSITIONAL_ONLY | POSITIONAL_OR_KEYWORD =>
          match args with
          | a :: args' =>
              vs <- bind_parameters rest args' kws extra;; Ok (a :: vs)
          | [] =>
              v <- keyword_or_default p kws;;
              vs <- bind_parameters rest [] kws extra;; Ok (v :: vs)
          end
      | VAR_POSITIONAL =>
          vs <- bind_parameters rest [] kws extra;; Ok (VTuple args :: vs)
      | KEYWORD_ONLY =>
          v <- keyword_or_default p kws;;
          vs <- bind_parameters rest args kws extra;; Ok (v :: vs)
      | VAR_KEYWORD =>
          vs <- bind_parameters rest args kws extra;; Ok (VDict extra :: vs)
      end
  end.

(** The call of [f] with positional arguments [args] and keyword arguments
    [kwargs]: the arguments are bound to the parameters, then the body runs.
    The positional arguments go to the positional parameters in order, what
    is left of them to [*args]; the keyword arguments go to the parameters
    of their names, the others to [**kwargs]; a parameter left without a
    value takes its default.  A keyword that matches nothing or a parameter
    already bound, too many positional arguments, and a parameter without
    value and default each raise [TypeError] before the body starts, and
    are found in this order.  The messages are those of CPython without the
    name of the function; when several parameters are left without value
    the first one is named. *)
Definition call (f : bound_method) (args : list pyval) (kwargs : pydict)
  : result pyval :=
  kws <- keywords kwargs;;
  let ps := parameters f in
  let positional := List.filter is_positional ps in
  _ <- check_keywords ps (param_name <$> take (length args) positional) kws;;
  if (length positional <? length args)%nat && negb (existsb is_var_positional ps)
  then
    raise TypeError with
      ("takes " ++ pretty (length positional) ++ " positional arguments but "
       ++ pretty (length args) ++ " were given")
  else
    let extra :=
      (fun kw => (VStr (fst kw), snd kw))
        <$> List.filter (fun kw => negb (bool_decide
                                           (is_Some (keyword_parameter ps (fst kw)))))
              kws in
    vs <- bind_parameters ps args kws extra;;
    body f vs.

Record MethodDefinition : Type := {
  method_name : string;
  func : bound_method
}.

(** [self.signature.parameters]: the names with their annotations *)
Definition signature (m : MethodDefinition) : list (string * pytype) :=
  (fun p => (param_name p, annotation p)) <$> parameters (func m).

(** [MethodDefinition.return_type] *)
Definition return_type (m : MethodDefinition) : pytype :=
  match return_annotation (func m) with
  | TEmpty => TNone
  | ann => ann
  end.

(** [MethodDefinition.arg_types] *)
Definition arg_types (m : MethodDefinition) : list pytype :=
  (fun param => match snd param with TEmpty => TAny | ann => ann end)
    <$> signature m.

(** [MethodDefinition.arg_names] *)
Definition arg_names (m : MethodDefinition) : list string :=
  fst <$> signature m.

(** [self.signature.parameters[name].annotation] *)
Definition parameter_annotation (m : MethodDefinition) (name : pyval)
  : result pytype :=
  if hashable name then
    match name with
    | VStr s =>
        match assoc (signature m) s with
        | Some ann => Ok ann
        | None => raise KeyError with (py_repr name)
        end
    | _ => raise KeyError with (py_repr name)
    end
  else raise TypeError with ("unhashable type: '" ++ type_name name ++ "'").

(** [MethodDefinition.parse_args_dict] *)
Definition parse_args_dict (m : MethodDefinition) (args : pydict) : result pydict :=
  (fix loop (items : pydict) (typed_args : pydict) : result pydict :=
     match items with
     | [] => Ok typed_args
     | (name, value) :: rest =>
         param_type <- parameter_annotation m name;;
         v <- convert_arg value param_type;;
         typed_args' <- dict_setitem typed_args name v;;
         loop rest typed_args'
     end) args [].

(** [zip(args, types)] followed by the conversion of each pair *)
Fixpoint convert_zip (args : list pyval) (types : list pytype)
  : result (list pyval) :=
  match args, types with
  | value :: args', t :: types' =>
      v <- convert_arg value t;; vs <- convert_zip args' types';; Ok (v :: vs)
  | _, _ => Ok []
  end.

(** [MethodDefinition.parse_args_list] *)
Definition parse_args_list (m : MethodDefinition) (args : list pyval)
  : result (list pyval) :=
  if decide (length args ≠ length (arg_types m)) then
    raise ValueError with
      ("Error parsing arguments for method " ++ method_name m ++ " : expected "
       ++ pretty (length (arg_types m)) ++ " arguments, got "
       ++ pretty (length args))
  else convert_zip args (arg_types m).

(** [MethodDefinition.get_invoker] *)
Definition get_invoker (m : MethodDefinition)
  : list pyval -> pydict -> result pyval :=
  fun args kwargs => call (func m) args kwargs.

(** An attribute of a service object, as [getattr] returns it. *)
Inductive attribute : Type :=
| Method (f : bound_method)
| Field (v : pyval).

(** A service object: the names [dir] lists for it, with their values. *)
Definition service_object : Type := list (string * attribute).

Record ServiceDefinition : Type := {
  service_name : string;
  service_instance : service_object;
  methods : list (string * MethodDefinition)
}.

(** [ServiceDefinition.__init__]: the public callables of the instance. *)
Definition new_ServiceDefinition (name : string) (service_instancier : unit -> service_object)
  : ServiceDefinition :=
  let instance := service_instancier tt in
  {| service_name := name;
     service_instance := instance;
     methods :=
       omap (fun entry =>
               if String.prefix "_" (fst entry) then None
               else match snd entry with
                    | Method f =>
                        Some (fst entry, {| method_name := fst entry; func := f |})
                    | Field _ => None
                    end) instance |}.

(** ** [JsonRpcRegistry] *)

Record JsonRpcRegistry : Type := {
  _method_definitions : gmap string MethodDefinition;
  _service_definitions : gmap string ServiceDefinition
}.

(** [JsonRpcRegistry.__init__] *)
Definition new_JsonRpcRegistry : JsonRpcRegistry :=
  {| _method_definitions := ∅; _service_definitions := ∅ |}.

(** [JsonRpcRegistry.register_service] *)
Definition register_service (self : JsonRpcRegistry) (name : string)
    (service_instancier : unit -> service_object) : JsonRpcRegistry :=
  let definition := new_ServiceDefinition name service_instancier in
  {| _service_definitions := <[name := definition]> (_service_definitions self);
     _method_definitions :=
       foldl (fun defs entry => <[name ++ "." ++ fst entry := snd entry]> defs)
         (_method_definitions self) (methods definition) |}.

End Registry.

(** ** The protocol: errors, request execution, framing *)

Section Dispatch.
Context `{PyLib}.

(** [os.path.basename] *)
Fixpoint basename_from (current path : string) : string :=
  match path with
  | EmptyString => current
  | String c rest =>
      if Ascii.eqb c (Ascii.ascii_of_nat 47) then basename_from "" rest
      else basename_from (current ++ String c "") rest
  end.

Definition basename (path : string) : string := basename_from "" path.

Definition truthy (message : option string) : bool :=
  match message with
  | Some (String _ _) => true
  | _ => false
  end.

Definition opt_str (message : option string) : pyval :=
  match message with
  | Some s => VStr s
  | None => VNone
  end.

(** [JsonRpcRegistry._make_error(code, message, exception, id)]; an argument
    left out is [None]. *)
Definition _make_error (code : Z) (message : option string)
    (exception : option exn) (id : pyval) : result pyval :=
  if negb (truthy message || bool_decide (is_Some exception)) then
    raise AssertionError with "Either message or exception must be provided"
  else
    let message :=
      match exception with
      | Some e =>
          match innermost_frame e with
          | Some (filename, lineno) =>
              match filename with
              | String _ _ =>
                  Some ("[" ++ basename filename ++ ":" ++ pretty lineno ++ "] "
                        ++ exn_str e)
              | EmptyString => Some (exn_str e)
              end
          | None => Some (exn_str e)
          end
      | None => message
      end in
    let err : pydict :=
      [ (VStr "jsonrpc", VStr "2.0");
        (VStr "error",
         VDict [ (VStr "code", VInt code); (VStr "message", opt_str message) ]) ] in
    match id with
    | VNone => Ok (VDict err)
    | _ => Ok (VDict (err ++ [ (VStr "id", id) ]))
    end.

(** The four assertions at the head of [_execute_request]. *)
Definition check_request (payload : pyval) : result unit :=
  has_version <- py_contains payload (VStr "jsonrpc");;
  version_ok <-
    (if has_version : bool then
       version <- py_getitem payload "jsonrpc";;
       Ok (bool_decide (version = VStr "2.0"))
     else Ok false);;
  if negb version_ok then raise AssertionError with "Invalid JSON-RPC version"
  else
    has_method <- py_contains payload (VStr "method");;
    if negb has_method then raise AssertionError with "Method not specified"
    else
      has_params <- py_contains payload (VStr "params");;
      if negb has_params then raise AssertionError with "Params not specified"
      else
        has_id <- py_contains payload (VStr "id");;
        if negb has_id then raise AssertionError with "ID not specified"
        else Ok tt.

(** [self._method_definitions.get(key)] *)
Definition method_definitions_get (self : JsonRpcRegistry) (key : pyval)
  : result (option MethodDefinition) :=
  if hashable key then
    match key with
    | VStr s => Ok (_method_definitions self !! s)
    | _ => Ok None
    end
  else raise TypeError with ("unhashable type: '" ++ type_name key ++ "'").

(** The first [try] block after the method is resolved: either a
    [result_maker] is built, or the block returns a response itself. *)
Definition bind_params (method_def : MethodDefinition) (payload : pyval)
  : result ((unit -> result pyval) + pyval) :=
  params <- py_getitem payload "params";;
  match params with
  | VDict items =>
      kwparams <- parse_args_dict method_def items;;
      Ok (inl (fun _ : unit => get_invoker method_def [] kwparams))
  | VList xs =>
      params <- parse_args_list method_def xs;;
      Ok (inl (fun _ : unit => get_invoker method_def params []))
  | _ =>
      id <- py_getitem payload "id";;
      response <- _make_error (-32602) (Some "Invalid params") None id;;
      Ok (inr response)
  end.

(** [JsonRpcRegistry._execute_request] *)
Definition _execute_request (self : JsonRpcRegistry) (payload : pyval)
  : result pyval :=
  match check_request payload with
  | Raise e =>
      if is_AssertionError (exn_class e)
      then _make_error (-32600) (Some (exn_str e)) None VNone
      else Raise e
  | Ok _ =>
      method <- py_getitem payload "method";;
      found <- method_definitions_get self method;;
      match found with
      | None =>
          id <- py_getitem payload "id";;
          _make_error (-32601) (Some "Method not found") None id
      | Some method_def =>
          match bind_params method_def payload with
          | Raise e =>
              if is_Exception (exn_class e) then
                id <- py_getitem payload "id";;
                _make_error (-32602) None (Some e) id
              else Raise e
          | Ok (inr response) => Ok response
          | Ok (inl result_maker) =>
              match
                (result <- result_maker tt;;
                 encoded <- to_dict result;;
                 id <- py_getitem payload "id";;
                 Ok (VDict [ (VStr "jsonrpc", VStr "2.0");
                             (VStr "result", encoded);
                             (VStr "id", id) ]))
              with
              | Raise e =>
                  if is_Exception (exn_class e) then
                    id <- py_getitem payload "id";;
                    _make_error (-32000) None (Some e) id
                  else Raise e
              | Ok response => Ok response
              end
          end
      end
  end.

(** *** [handle_request] *)

(** The input stream is the list of its text lines, each with its line end;
    [read()] returns them joined.  An output is the list of chunks an
    iterator yields, and the exception that ends the iteration if one is
    raised.  A str stands for its UTF-8 bytes, so [encode()] changes
    nothing. *)
Definition stream : Type := list string.

Definition read (input_stream : stream) : string :=
  foldr String.append "" input_stream.

Definition output : Type := (list string * option exn)%type.

Definition encode (s : string) : string := s.

(** [c.isspace()] for an ASCII character: tab to carriage return, the four
    separators 28 to 31, and the space *)
Definition is_space (c : Ascii.ascii) : bool :=
  let n := Ascii.nat_of_ascii c in
  ((9 <=? n) && (n <=? 13) || (28 <=? n) && (n <=? 32))%nat.

(** The characters outside ASCII that [str.isspace] takes for white space,
    by their UTF-8 bytes: U+0085 and U+00A0 on two bytes; U+1680, U+2000 to
    U+200A, U+2028, U+2029, U+202F, U+205F and U+3000 on three. *)
Definition is_space2 (b c : Ascii.ascii) : bool :=
  let '(m, n) := (Ascii.nat_of_ascii b, Ascii.nat_of_ascii c) in
  ((m =? 194) && ((n =? 133) || (n =? 160)))%nat.

Definition is_space3 (b c d : Ascii.ascii) : bool :=
  let '(m, n, o) :=
    (Ascii.nat_of_ascii b, Ascii.nat_of_ascii c, Ascii.nat_of_ascii d) in
  ((m =? 225) && (n =? 154) && (o =? 128)
   || (m =? 226) && (n =? 128)
      && ((128 <=? o) && (o <=? 138) || (o =? 168) || (o =? 169) || (o =? 175))
   || (m =? 226) && (n =? 129) && (o =? 159)
   || (m =? 227) && (n =? 128) && (o =? 128))%nat.

(** Every character of the str is white space. *)
Fixpoint all_space (s : string) : bool :=
  match s with
  | EmptyString => true
  | String b rest =>
      if is_space b then all_space rest
      else
        match rest with
        | String c rest1 =>
            if is_space2 b c then all_space rest1
            else
              match rest1 with
              | String d rest2 => is_space3 b c d && all_space rest2
              | EmptyString => false
              end
        | EmptyString => false
        end
  end.

(** [not line.strip()] *)
Definition is_blank (line : string) : bool := all_space line.

(** One round of the loop body of [generate_response], for a line that is
    not blank. *)
Definition respond (self : JsonRpcRegistry) (line : string) : result string :=
  payload <- lib JSONDecodeError (json_loads line);;
  response <- _execute_request self payload;;
  s <- to_json response;;
  Ok (encode s).

(** The generator [generate_response] inside [handle_request], run to its end. *)
Fixpoint generate_response (self : JsonRpcRegistry) (reader : stream) : output :=
  match reader with
  | [] => ([], None)
  | line :: rest =>
      if is_blank line then generate_response self rest
      else
        match respond self line with
        | Raise e => ([], Some e)
        | Ok chunk =>
            let '(more, stop) := generate_response self rest in
            (chunk :: more, stop)
        end
  end.

(** [JsonRpcRegistry.handle_request] *)
Definition handle_request (self : JsonRpcRegistry) (input_stream : stream)
    (mimetype : string) : result (output * string) :=
  if decide (mimetype = "application/json") then
    payload <- lib JSONDecodeError (json_loads (read input_stream));;
    response <- _execute_request self payload;;
    has_error <- py_contains response (VStr "error");;
    let status_code :=
      if has_error : bool then "500 Internal Server Error" else "200 OK" in
    s <- to_json response;;
    Ok (([encode s], None), status_code)
  else if decide (mimetype = "application/x-ndjson") then
    Ok (generate_response self input_stream, "200 OK")
  else
    Ok (([], None), "415 Unsupported Media Type").

End Dispatch.

(** ** Reading envelopes *)

Section Envelopes.
Context `{PyCarriers}.

(** The value stored under a string key of a JSON object. *)
Definition envelope_get (envelope : pyval) (key : string) : option pyval :=
  match envelope with
  | VDict items => dict_lookup items (VStr key)
  | _ => None
  end.

(** [{"jsonrpc": "2.0", "id": id, "method": method, "params": params}] *)
Definition request (id : pyval) (method : string) (params : pyval) : pyval :=
  VDict [ (VStr "jsonrpc", VStr "2.0"); (VStr "id", id);
          (VStr "method", VStr method); (VStr "params", params) ].

(** [{"jsonrpc": "2.0", "result": result, "id": id}] *)
Definition Result_envelope (result id : pyval) : pyval :=
  VDict [ (VStr "jsonrpc", VStr "2.0"); (VStr "result", result); (VStr "id", id) ].

(** [{"jsonrpc": "2.0", "error": {"code": code, "message": message}}], with
    an ["id"] member when [id] is given. *)
Definition Error_envelope (code : Z) (message : string) (id : option pyval) : pyval :=
  VDict ([ (VStr "jsonrpc", VStr "2.0");
           (VStr "error", VDict [ (VStr "code", VInt code);
                                  (VStr "message", VStr message) ]) ]
         ++ match id with
            | Some i => [ (VStr "id", i) ]
            | None => []
            end).

Definition is_Error (envelope : pyval) : bool :=
  bool_decide (is_Some (envelope_get envelope "error")).

Definition error_code (envelope : pyval) : option pyval :=
  match envelope_get envelope "error" with
  | Some e => envelope_get e "code"
  | None => None
  end.

(** A request object in which the four members are present and the version
    is ["2.0"]. *)
Definition well_formed (payload : pyval) : Prop :=
  envelope_get payload "jsonrpc" = Some (VStr "2.0")
  ∧ is_Some (envelope_get payload "method")
  ∧ is_Some (envelope_get payload "params")
  ∧ is_Some (envelope_get payload "id").

(** The id an error response carries for a request with the given id. *)
Definition error_id (id : pyval) : option pyval :=
  match id with
  | VNone => None
  | _ => Some id
  end.

End Envelopes.

(** ** The scenario service *)

Section MathService.
Context `{PyLib}.

(** [a + b] on ints and bools, and on two strs, two lists or two tuples.
    Arithmetic on floats and on the adapter classes is not modelled: such
    operands are treated like the unsupported ones. *)
Definition py_add (a b : pyval) : result pyval :=
  match a, b with
  | VInt x, VInt y => Ok (VInt (x + y))
  | VInt x, VBool y => Ok (VInt (x + Z.b2z y))
  | VBool x, VInt y => Ok (VInt (Z.b2z x + y))
  | VBool x, VBool y => Ok (VInt (Z.b2z x + Z.b2z y))
  | VStr x, VStr y => Ok (VStr (x ++ y))
  | VList x, VList y => Ok (VList (x ++ y))
  | VTuple x, VTuple y => Ok (VTuple (x ++ y))
  | _, _ =>
      raise TypeError with
        ("unsupported operand type(s) for +: '" ++ type_name a ++ "' and '"
         ++ type_name b ++ "'")
  end.

(** [def add(self, a: int, b: int) -> int: return a + b] *)
Definition add : bound_method :=
  {| parameters := [ param "a" (TScalar SInt); param "b" (TScalar SInt) ];
     return_annotation := TScalar SInt;
     body := fun args =>
       match args with
       | [a; b] => py_add a b
       | _ => raise TypeError with "add() takes 2 positional arguments"
       end |}.

Definition mathService : service_object := [ ("add", Method add) ].

Definition math_registry : JsonRpcRegistry :=
  register_service new_JsonRpcRegistry "mathService" (fun _ => mathService).

(** A service on a dataclass, [@dataclass class Point: x: int; y: int]. *)
Definition Point : pytype :=
  TData "Point" [ ("x", TScalar SInt); ("y", TScalar SInt) ].

(** [obj.name] for a field of a dataclass instance *)
Definition py_getattr (obj : pyval) (name : string) : result pyval :=
  match obj with
  | VData _ fields =>
      match assoc fields name with
      | Some v => Ok v
      | None => no_attribute obj name
      end
  | _ => no_attribute obj name
  end.

(** [def mirror(self, p: Point) -> Point: return Point(p.y, p.x)] *)
Definition mirror : bound_method :=
  {| parameters := [ param "p" Point ];
     return_annotation := Point;
     body := fun args =>
       match args with
       | [p] =>
           x <- py_getattr p "x";;
           y <- py_getattr p "y";;
           Ok (VData "Point" [ ("x", y); ("y", x) ])
       | _ => raise TypeError with "mirror() takes 1 positional argument"
       end |}.

(** [def shift(self, p: Point, *, by: int) -> Point:
        return Point(p.x + by, p.y + by)] *)
Definition shift : bound_method :=
  {| parameters :=
       [ param "p" Point;
         {| param_name := "by"; annotation := TScalar SInt; kind := KEYWORD_ONLY;
            default_value := None |} ];
     return_annotation := Point;
     body := fun args =>
       match args with
       | [p; by_] =>
           x <- py_getattr p "x";;
           y <- py_getattr p "y";;
           x' <- py_add x by_;;
           y' <- py_add y by_;;
           Ok (VData "Point" [ ("x", x'); ("y", y') ])
       | _ => raise TypeError with "shift() takes 1 positional argument"
       end |}.

Definition geometryService : service_object :=
  [ ("mirror", Method mirror); ("shift", Method shift) ].

Definition geometry_registry : JsonRpcRegistry :=
  register_service new_JsonRpcRegistry "geometryService" (fun _ => geometryService).

End MathService.

(** ** A runtime to run the scenarios on *)

Module Sample.

(** Fixed-point numbers with six decimals stand for floats and with nine
    decimals for decimals, a count of microseconds for a duration, and its
    ISO 8601 text for a timestamp.  A decimal goes to a float by dropping
    its last three decimals. *)
#[export] Instance carriers : PyCarriers := {|
  pyfloat := Z;
  datetime := string;
  timedelta := Z;
  Decimal := Z
|}.

Definition quote : string := String (Ascii.ascii_of_nat 34) "".

(** [json.dumps] on null, booleans, ints, strings that need no escape, arrays
    and objects with string keys. *)
Fixpoint dumps (v : pyval) : string + string :=
  match v with
  | VNone => inr "null"
  | VBool true => inr "true"
  | VBool false => inr "false"
  | VInt n => inr (pretty n)
  | VStr s => inr (quote ++ s ++ quote)
  | VList xs =>
      match
        (fix join (xs : list pyval) : string + string :=
           match xs with
           | [] => inr ""
           | x :: rest =>
               match dumps x, join rest with
               | inr a, inr b =>
                   inr (a ++ match rest with [] => "" | _ => ", " end ++ b)
               | inl msg, _ | _, inl msg => inl msg
               end
           end) xs
      with
      | inr body => inr ("[" ++ body ++ "]")
      | inl msg => inl msg
      end
  | VDict items =>
      match
        (fix join (items : pydict) : string + string :=
           match items with
           | [] => inr ""
           | (VStr k, x) :: rest =>
               match dumps x, join rest with
               | inr a, inr b =>
                   inr (quote ++ k ++ quote ++ ": " ++ a
                        ++ match rest with [] => "" | _ => ", " end ++ b)
               | inl msg, _ | _, inl msg => inl msg
               end
           | _ => inl "keys must be str, int, float, bool or None"
           end) items
      with
      | inr body => inr ("{" ++ body ++ "}")
      | inl msg => inl msg
      end
  | _ => inl "Object is not JSON serializable"
  end.

(** The JSON values the scenarios send. *)
Definition corpus : list pyval :=
  [ request (VInt 1) "mathService.add" (VList [VInt 2; VInt 3]);
    request (VInt 2) "mathService.add" (VList [VInt 20; VInt 22]);
    request (VInt 1) "mathService.add" (VDict [ (VStr "a", VInt 2) ]);
    request (VInt 1) "mathService.add" (VList [VInt 2]);
    request (VInt 1) "mathService.add" (VStr "2, 3");
    request (VInt 1) "mathService.subtract" (VList [VInt 2; VInt 3]);
    request VNone "mathService.add" (VList [VInt 2; VInt 3]);
    request VNone "mathService.add" (VList [VInt 2]);
    request VNone "mathService.subtract" (VList [VInt 2; VInt 3]);
    VDict [ (VStr "jsonrpc", VStr "2.0"); (VStr "id", VInt 7) ];
    VInt 5;
    VList [VInt 1; VInt 2] ].

(** The text of a JSON value, and that text as one line of an NDJSON
    stream. *)
Definition text_of (v : pyval) : string :=
  match dumps v with
  | inr s => s
  | inl _ => ""
  end.

Definition nl : string := String (Ascii.ascii_of_nat 10) "".

Definition line_of (v : pyval) : string := text_of v ++ nl.

(** [json.loads] on the texts of the corpus, with or without a line end; any
    other text is taken not to be JSON. *)
Definition loads (s : string) : string + pyval :=
  match
    List.find (fun v => bool_decide (dumps v = inr s) || bool_decide (line_of v = s))
      corpus
  with
  | Some v => inr v
  | None => inl "Expecting value: line 1 column 1 (char 0)"
  end.

#[export] Instance runtime : PyLib := {|
  isoformat d := d;
  fromisoformat s := inr s;
  total_seconds t := t;
  timedelta_of_int n := inr (n * 1000000);
  timedelta_of_float x := inr x;
  float_of_Decimal q := inr (q / 1000);
  Decimal_of_int n := n * 1000000000;
  Decimal_of_float x := x * 1000;
  Decimal_of_str s := inl "[<class 'decimal.ConversionSyntax'>]";
  Decimal_of_sequence xs := inl "argument must be a sequence of length 3";
  json_loads := loads;
  json_dumps := dumps;
  innermost_frame e := None
|}.

(** *** The scenario data *)

Definition add_method : MethodDefinition :=
  {| method_name := "add"; func := add |}.

(** The record of the module's example: a user name and a timestamp. *)
Definition UserData : pytype :=
  TData "UserData" [ ("username", TScalar SStr); ("lastlogin", TDatetime) ].





Definition shift_method : MethodDefinition :=
  {| method_name := "shift"; func := shift |}.


(** Alice, who logged in on new year's day. *)
Definition alice : pyval :=
  VData "UserData" [ ("username", VStr "Alice");
                     ("lastlogin", VDatetime "2024-01-01T00:00:00") ].


(** A batch of three requests and a blank line; the second request lacks
    method and params. *)
Definition batch : stream :=
  [ line_of (request (VInt 1) "mathService.add" (VList [VInt 2; VInt 3]));
    nl;
    line_of (VDict [ (VStr "jsonrpc", VStr "2.0"); (VStr "id", VInt 7) ]);
    line_of (request (VInt 2) "mathService.add" (VList [VInt 20; VInt 22])) ].


End Sample.

(** ** Induction over nested values and types *)

Section Induction.
Context `{PyCarriers}.

Section pytype_nested.
Variable P : pytype → Prop.
Hypothesis HNone : P TNone.
Hypothesis HAny : P TAny.
Hypothesis HSeq : ∀ o c, P c → P (TSeq o c).
Hypothesis HDict : ∀ k v, P k → P v → P (TDict k v).
Hypothesis HData : ∀ cls fields, Forall (fun f => P (snd f)) fields → P (TData cls fields).
Hypothesis HDatetime : P TDatetime.
Hypothesis HTimedelta : P TTimedelta.
Hypothesis HDecimal : P TDecimal.
Hypothesis HScalar : ∀ k, P (TScalar k).
Hypothesis HEmpty : P TEmpty.

Fixpoint pytype_nested_ind (T : pytype) : P T :=
  match T with
  | TNone => HNone
  | TAny => HAny
  | TSeq o c => HSeq o c (pytype_nested_ind c)
  | TDict k v => HDict k v (pytype_nested_ind k) (pytype_nested_ind v)
  | TData cls fields =>
      HData cls fields
        ((fix all (fs : list (string * pytype)) : Forall (fun f => P (snd f)) fs :=
            match fs with
            | [] => @List.Forall_nil _ _
            | f :: rest => @List.Forall_cons _ _ f rest (pytype_nested_ind (snd f)) (all rest)
            end) fields)
  | TDatetime => HDatetime
  | TTimedelta => HTimedelta
  | TDecimal => HDecimal
  | TScalar k => HScalar k
  | TEmpty => HEmpty
  end.
End pytype_nested.

Section pyval_nested.
Variable P : pyval → Prop.
Hypothesis HNone : P VNone.
Hypothesis HBool : ∀ b, P (VBool b).
Hypothesis HInt : ∀ n, P (VInt n).
Hypothesis HFloat : ∀ x, P (VFloat x).
Hypothesis HStr : ∀ s, P (VStr s).
Hypothesis HList : ∀ xs, Forall P xs → P (VList xs).
Hypothesis HTuple : ∀ xs, Forall P xs → P (VTuple xs).
Hypothesis HSet : ∀ xs, Forall P xs → P (VSet xs).
Hypothesis HDict : ∀ items, Forall (fun kv => P (fst kv) ∧ P (snd kv)) items → P (VDict items).
Hypothesis HData : ∀ cls fields, Forall (fun f => P (snd f)) fields → P (VData cls fields).
Hypothesis HDatetime : ∀ d, P (VDatetime d).
Hypothesis HTimedelta : ∀ t, P (VTimedelta t).
Hypothesis HDecimal : ∀ q, P (VDecimal q).
Hypothesis HObject : ∀ cls r, P r → P (VObject cls r).
Hypothesis HOther : ∀ cls h i, P (VOther cls h i).

Fixpoint pyval_nested_ind (v : pyval) : P v :=
  let all :=
    fix all (xs : list pyval) : Forall P xs :=
      match xs with
      | [] => @List.Forall_nil _ _
      | x :: rest => @List.Forall_cons _ _ x rest (pyval_nested_ind x) (all rest)
      end in
  match v with
  | VNone => HNone
  | VBool b => HBool b
  | VInt n => HInt n
  | VFloat x => HFloat x
  | VStr s => HStr s
  | VList xs => HList xs (all xs)
  | VTuple xs => HTuple xs (all xs)
  | VSet xs => HSet xs (all xs)
  | VDict items =>
      HDict items
        ((fix both (kvs : pydict) : Forall (fun kv => P (fst kv) ∧ P (snd kv)) kvs :=
            match kvs with
            | [] => @List.Forall_nil _ _
            | kv :: rest =>
                @List.Forall_cons _ _ kv rest
                  (conj (pyval_nested_ind (fst kv)) (pyval_nested_ind (snd kv)))
                  (both rest)
            end) items)
  | VData cls fields =>
      HData cls fields
        ((fix each (fs : list (string * pyval)) : Forall (fun f => P (snd f)) fs :=
            match fs with
            | [] => @List.Forall_nil _ _
            | f :: rest => @List.Forall_cons _ _ f rest (pyval_nested_ind (snd f)) (each rest)
            end) fields)
  | VDatetime d => HDatetime d
  | VTimedelta t => HTimedelta t
  | VDecimal q => HDecimal q
  | VObject cls r => HObject cls r (pyval_nested_ind r)
  | VOther cls h i => HOther cls h i
  end.
End pyval_nested.

End Induction.

(** ** Vocabulary of the properties *)

Section Vocabulary.
Context `{PyLib}.

(** A computation whose exceptions, if any, an [except Exception] clause
    catches. *)
Definition catchable {A} (r : result A) : Prop :=
  ∀ e, r = Raise e → is_Exception (exn_class e) = true.

(** A method whose body raises nothing but [Exception]s. *)
Definition well_behaved (f : bound_method) : Prop :=
  ∀ args, catchable (body f args).

(** A registry all of whose methods raise nothing but [Exception]s. *)
Definition well_behaved_registry (self : JsonRpcRegistry) : Prop :=
  ∀ key m, _method_definitions self !! key = Some m → well_behaved (func m).

(** A method every parameter of which takes a positional argument: no
    keyword-only parameter, no [*args], no [**kwargs]. *)
Definition all_positional (f : bound_method) : bool :=
  forallb is_positional (parameters f).

(** The loop over [__dataclass_fields__] in [convert_arg]. *)
Fixpoint convert_fields (arg : pyval) (fields : list (string * pytype))
  : result (list (string * pyval)) :=
  match fields with
  | [] => Ok []
  | (field_name, field_type) :: rest =>
      x <- py_get arg (VStr field_name);;
      v <- convert_arg x field_type;;
      vs <- convert_fields arg rest;;
      Ok ((field_name, v) :: vs)
  end.


(** The lines [generate_response] answers. *)
Definition requests (reader : stream) : list string :=
  List.filter (fun line => negb (is_blank line)) reader.










(** A key type whose values encode to hashable wire values. *)
Definition plain_key (T : pytype) : bool :=
  match T with
  | TScalar _ | TDatetime | TTimedelta | TDecimal => true
  | _ => false
  end.

(** The types on which decoding inverts encoding: scalars, the three
    adapter classes, [list[T]], dicts with scalar or adapter keys, and
    dataclasses with distinct field names. *)
Fixpoint exact (T : pytype) : Prop :=
  match T with
  | TScalar _ | TDatetime | TTimedelta | TDecimal => True
  | TSeq OList c => exact c
  | TDict k t => plain_key k = true ∧ exact k ∧ exact t
  | TData _ fields =>
      NoDup (fst <$> fields)
      ∧ (fix all (fields : list (string * pytype)) : Prop :=
           match fields with
           | [] => True
           | f :: rest => exact (snd f) ∧ all rest
           end) fields
  | _ => False
  end.




End Vocabulary.

(** * The rest of the registry and its callers *)

(** ** [JsonRpcRegistry.get], [JsonRpcRegistry.set] and the decorator *)

(** What [str.lower] does outside ASCII, where it follows the Unicode
    tables: the lower case of one character, which can be more than one
    character. *)
Class PyStr : Type := {
  lower_char : string -> string
}.

Section Services.
Context `{PyLib} `{PyStr}.

(** [JsonRpcRegistry.get]: the service object registered under [name], or
    [None]. *)
Definition get (self : JsonRpcRegistry) (name : string) : option service_object :=
  match _service_definitions self !! name with
  | Some definition => Some (service_instance definition)
  | None => None
  end.

(** [JsonRpcRegistry.set]: the instance of a registered service is replaced
    in its definition, whose methods stay as they are; a name not yet
    registered is registered. *)
Definition set (self : JsonRpcRegistry) (name : string) (service : service_object)
  : JsonRpcRegistry :=
  match _service_definitions self !! name with
  | Some definition =>
      {| _method_definitions := _method_definitions self;
         _service_definitions :=
           <[name := {| service_name := service_name definition;
                        service_instance := service;
                        methods := methods definition |}]>
             (_service_definitions self) |}
  | None => register_service self name (fun _ => service)
  end.

(** A class to decorate: its [__name__], and what calling it with no
    argument returns. *)
Record pyclass : Type := {
  class_name : string;
  instantiate : unit -> service_object
}.

(** The first argument of [jsonrpc_service(...)]: left out, a str, or a class
    (the decorator written without parentheses). *)
Inductive decorator_name : Type :=
| NameNone
| NameStr (s : string)
| NameClass (cls : pyclass).

(** The state of a [jsonrpc_service] object. *)
Record jsonrpc_service : Type := {
  name : option string;
  instancier : option (unit -> service_object)
}.

(** [jsonrpc_service.__init__] *)
Definition new_jsonrpc_service (name : decorator_name)
    (instancier : option (unit -> service_object)) : jsonrpc_service :=
  match name with
  | NameClass _ => {| name := None; instancier := None |}
  | NameStr s => {| name := Some s; instancier := instancier |}
  | NameNone => {| name := None; instancier := instancier |}
  end.

(** [c.lower()] for an ASCII character *)
Definition lower (c : Ascii.ascii) : Ascii.ascii :=
  let n := Ascii.nat_of_ascii c in
  if ((65 <=? n) && (n <=? 90))%nat then Ascii.ascii_of_nat (n + 32) else c.

(** [ch.lower()] for a str of one character *)
Definition lower_character (ch : string) : string :=
  match ch with
  | String c EmptyString =>
      if (Ascii.nat_of_ascii c <? 128)%nat then String (lower c) "" else lower_char ch
  | _ => lower_char ch
  end.

(** [cls.__name__[0].lower() + cls.__name__[1:]]; the name of a class is
    taken not to be empty. *)
Definition lower_first (class_name : string) : string :=
  match code_points class_name with
  | ch :: rest => lower_character ch ++ foldr String.append "" rest
  | [] => EmptyString
  end.

(** [jsonrpc_service.__call__], on the registry it registers in: the new
    registry and the class it returns. *)
Definition decorate (self : jsonrpc_service) (cls : pyclass)
    (registry : JsonRpcRegistry) : JsonRpcRegistry * pyclass :=
  let name :=
    match name self with
    | Some (String c rest) => String c rest
    | _ => lower_first (class_name cls)
    end in
  let instancier :=
    match instancier self with
    | Some f => f
    | None => fun _ => instantiate cls tt
    end in
  (register_service registry name instancier, cls).

(** The loop of [register_service] over the methods of the definition. *)
Definition index_methods (name : string) (defs : gmap string MethodDefinition)
    (entries : list (string * MethodDefinition)) : gmap string MethodDefinition :=
  foldl (fun defs entry => <[name ++ "." ++ fst entry := snd entry]> defs)
    defs entries.

End Services.

(** ** Wire values *)

Section Wire.
Context `{PyCarriers}.

(** What a key of an encoded dict can be: a scalar, or, where objects of
    other classes are let through, a hashable one of them. *)
Definition key_shaped (others : bool) (k : pyval) : bool :=
  match k with
  | VNone | VBool _ | VInt _ | VFloat _ | VStr _ => true
  | VOther _ h _ => others && h
  | _ => false
  end.

(** The values made of [None], bools, ints, floats, strs, lists, and dicts
    with distinct keys; with [others], also of objects of other classes. *)
Fixpoint shaped (others : bool) (v : pyval) : bool :=
  match v with
  | VNone | VBool _ | VInt _ | VFloat _ | VStr _ => true
  | VOther _ _ _ => others
  | VList xs => forallb (shaped others) xs
  | VDict items =>
      forallb (fun kv => key_shaped others (fst kv) && shaped others (snd kv)) items
      && bool_decide (NoDup (fst <$> items))
  | _ => false
  end.

(** The items of an encoded dict: keys of the right shape, each once, and
    encoded values. *)
Definition shaped_items (others : bool) (d : pydict) : Prop :=
  Forall (fun kv => key_shaped others (fst kv) = true
                    ∧ shaped others (snd kv) = true) d
  ∧ NoDup (fst <$> d).

(** A JSON value, as [json.loads] returns them. *)
Definition is_wire (v : pyval) : bool := shaped false v.

(** A value the encoder has nothing to do on: a JSON value but for the
    objects of other classes in it. *)
Definition is_encoded (v : pyval) : bool := shaped true v.

(** A value that holds no object of another class. *)
Fixpoint plain (v : pyval) : bool :=
  match v with
  | VOther _ _ _ => false
  | VList xs | VTuple xs | VSet xs => forallb plain xs
  | VDict items => forallb (fun kv => plain (fst kv) && plain (snd kv)) items
  | VData _ fields => forallb (fun f => plain (snd f)) fields
  | VObject _ r => plain r
  | _ => true
  end.

End Wire.

(** ** Vocabulary of the further properties *)

Section MoreVocabulary.
Context `{PyLib}.

(** The loop of [parse_args_dict], with the dict under construction. *)
Fixpoint parse_items (m : MethodDefinition) (items typed_args : pydict)
  : result pydict :=
  match items with
  | [] => Ok typed_args
  | (name, value) :: rest =>
      param_type <- parameter_annotation m name;;
      v <- convert_arg value param_type;;
      typed_args' <- dict_setitem typed_args name v;;
      parse_items m rest typed_args'
  end.

(** A member of a params object names a parameter of the method and its
    value decodes against the annotation of that parameter. *)
Definition decodes (m : MethodDefinition) (member typed : pyval * pyval) : Prop :=
  ∃ n T, fst member = VStr n ∧ fst typed = VStr n
         ∧ assoc (signature m) n = Some T
         ∧ convert_arg (snd member) T = Ok (snd typed).

(** A member of a params object whose name can be given by keyword: it is
    the name of a parameter that is neither positional-only nor starred. *)
Definition names_keyword (m : MethodDefinition) (member : pyval * pyval) : Prop :=
  ∃ n, fst member = VStr n
       ∧ is_Some (keyword_parameter (parameters (func m)) n).

(** The value the parameter [p] takes in a call that passes the dict
    [typed] as keyword arguments, each of which names a parameter, and no
    positional argument: the argument of its name, else its default; the
    empty tuple for [*args] and the empty dict for [**kwargs]. *)
Definition keyword_value (typed : pydict) (p : parameter) (v : pyval) : Prop :=
  match kind p with
  | POSITIONAL_OR_KEYWORD | KEYWORD_ONLY =>
      dict_lookup typed (VStr (param_name p)) = Some v
      ∨ (dict_lookup typed (VStr (param_name p)) = None
         ∧ default_value p = Some v)
  | POSITIONAL_ONLY => default_value p = Some v
  | VAR_POSITIONAL => v = VTuple []
  | VAR_KEYWORD => v = VDict []
  end.

(** A parameter a call must give a value to: it has no default and is
    neither [*args] nor [**kwargs]. *)
Definition required (p : parameter) : bool :=
  match kind p, default_value p with
  | (VAR_POSITIONAL | VAR_KEYWORD), _ => false
  | _, None => true
  | _, Some _ => false
  end.

(** The bytes of one character: a first byte, then continuation bytes
    only. *)
Definition one_character (p : string) : bool :=
  match p with
  | String _ rest => forallb is_continuation (String.list_ascii_of_string rest)
  | EmptyString => false
  end.


(** The component types against which every value decodes to itself. *)
Definition unchecked (T : pytype) : bool :=
  match T with
  | TNone | TAny | TScalar _ | TEmpty => true
  | _ => false
  end.

End MoreVocabulary.

(** ** [generate_client] and [wsgi.py] *)

(** The four generators of [autojsonrpc/clients], which build the text of a
    client from the service definitions.  The properties below hold for any
    text they return and do not look into it. *)
Class Clients `{PyLib} : Type := {
  generate_js : gmap string ServiceDefinition -> string -> bool -> result string;
  generate_ts : gmap string ServiceDefinition -> string -> result string;
  generate_php : gmap string ServiceDefinition -> string -> result string;
  generate_python : gmap string ServiceDefinition -> result string
}.

Section Wsgi.
Context `{Clients}.

(** [s.endswith(suffix)] *)
Definition endswith (s suffix : string) : bool :=
  bool_decide (String.length suffix ≤ String.length s)%nat
  && bool_decide
       (String.substring (String.length s - String.length suffix)
          (String.length suffix) s = suffix).

(** [JsonRpcRegistry.generate_client]: the text and its content type, or
    [None] when the file name has none of the four extensions. *)
Definition generate_client (self : JsonRpcRegistry) (filename jsonrpc_url : string)
  : result (option (string * string)) :=
  if endswith filename ".js" then
    let minified := endswith filename ".min.js" in
    code <- generate_js (_service_definitions self) jsonrpc_url minified;;
    Ok (Some (code, "application/javascript"))
  else if endswith filename ".ts" then
    code <- generate_ts (_service_definitions self) jsonrpc_url;;
    Ok (Some (code, "application/javascript"))
  else if endswith filename ".php" then
    code <- generate_php (_service_definitions self) jsonrpc_url;;
    Ok (Some (code, "text/plain"))
  else if endswith filename ".py" then
    code <- generate_python (_service_definitions self);;
    Ok (Some (code, "text/plain"))
  else Ok None.

(** The entries of the WSGI environment the function reads; an entry that
    is absent is [None]. *)
Record environ : Type := {
  REQUEST_METHOD : option string;
  PATH_INFO : option string;
  CONTENT_TYPE : option string;
  wsgi_input : option stream
}.

(** [environ.get("CONTENT_TYPE", "")] *)
Definition mimetype_of (env : environ) : string :=
  match CONTENT_TYPE env with
  | Some s => s
  | None => ""
  end.

(** What the server sees of a run of the application: the calls of
    [start_response] and the chunks yielded, in order. *)
Inductive event : Type :=
| StartResponse (status : string) (headers : list (string * string))
| Yield (chunk : string).

(** [wsgi_func], iterated to its end on the given registry: the events, and
    the exception that ends the iteration if one is raised. *)
Definition wsgi_func (registry : JsonRpcRegistry) (env : environ)
  : list event * option exn :=
  match REQUEST_METHOD env with
  | None => ([], Some (Exn KeyError "'REQUEST_METHOD'"))
  | Some method =>
      match PATH_INFO env with
      | None => ([], Some (Exn KeyError "'PATH_INFO'"))
      | Some path =>
          let mimetype := mimetype_of env in
          if bool_decide (path = "/jsonrpc") && bool_decide (method = "POST") then
            match wsgi_input env with
            | None => ([], Some (Exn KeyError "'wsgi.input'"))
            | Some input =>
                match handle_request registry input mimetype with
                | Raise e => ([], Some e)
                | Ok ((chunks, stop), status) =>
                    (StartResponse status [("Content-Type", mimetype)]
                       :: (Yield <$> chunks), stop)
                end
            end
          else if bool_decide (method = "GET") then
            match generate_client registry path "/jsonrpc" with
            | Raise e => ([], Some e)
            | Ok None =>
                ([], Some (Exn TypeError "cannot unpack non-iterable NoneType object"))
            | Ok (Some (code, content_type)) =>
                ([ StartResponse "200 OK" [("Content-Type", content_type)];
                   Yield (encode code) ], None)
            end
          else
            ([ StartResponse "404 Not Found" [("Content-Type", "text/plain")] ], None)
      end
  end.

End Wsgi.

(** ** A second scenario service *)

Module Example.
Import Sample.

(** [a // b] on ints and bools; other operands are treated as unsupported. *)
Definition py_floordiv (a b : pyval) : result pyval :=
  let as_int (v : pyval) : option Z :=
    match v with
    | VInt n => Some n
    | VBool b => Some (Z.b2z b)
    | _ => None
    end in
  match as_int a, as_int b with
  | Some x, Some y =>
      if (y =? 0)%Z then
        raise (UserException "ZeroDivisionError") with
          "integer division or modulo by zero"
      else Ok (VInt (x / y))
  | _, _ =>
      raise TypeError with
        ("unsupported operand type(s) for //: '" ++ type_name a ++ "' and '"
         ++ type_name b ++ "'")
  end.

(** [def divide(self, a: int, b: int) -> int: return a // b] *)
Definition divide : bound_method :=
  {| parameters := [ param "a" (TScalar SInt); param "b" (TScalar SInt) ];
     return_annotation := TScalar SInt;
     body := fun args =>
       match args with
       | [a; b] => py_floordiv a b
       | _ => raise TypeError with "divide() takes 2 positional arguments"
       end |}.

(** [def _audit(self): return None] *)
Definition _audit : bound_method :=
  {| parameters := []; return_annotation := TEmpty; body := fun _ => Ok VNone |}.

(** A class with two public methods, a private one and an attribute that is
    not callable. *)
Definition Calculator : pyclass :=
  {| class_name := "Calculator";
     instantiate := fun _ =>
       [ ("__doc__", Field VNone);
         ("_audit", Method _audit);
         ("add", Method add);
         ("divide", Method divide);
         ("precision", Field (VInt 2)) ] |}.

(** [str.lower] on the capital letters of Latin-1, U+00C0 to U+00DE but
    U+00D7; any other character is left as it is. *)
#[export] Instance latin : PyStr := {|
  lower_char ch :=
    match ch with
    | String a (String b EmptyString) =>
        let '(m, n) := (Ascii.nat_of_ascii a, Ascii.nat_of_ascii b) in
        if ((m =? 195) && (128 <=? n) && (n <=? 158) && negb (n =? 151))%nat
        then String a (String (Ascii.ascii_of_nat (n + 32)) "")
        else ch
    | _ => ch
    end
|}.

(** The character é, U+00E9, on its two bytes. *)
Definition e_acute : string :=
  String (Ascii.ascii_of_nat 195) (String (Ascii.ascii_of_nat 169) "").

(** A class whose name starts outside ASCII: [class Élan]. *)
Definition Elan : pyclass :=
  {| class_name :=
       String (Ascii.ascii_of_nat 195) (String (Ascii.ascii_of_nat 137) "lan");
     instantiate := fun _ => [ ("add", Method add) ] |}.

(** The registry after [@jsonrpc_service()] on [Calculator]. *)
Definition calculator_registry : JsonRpcRegistry :=
  fst (decorate (new_jsonrpc_service NameNone None) Calculator math_registry).

Definition divide_method : MethodDefinition :=
  {| method_name := "divide"; func := divide |}.

(** Stand-ins for the text generators: each returns a one-line text. *)
#[export] Instance clients : Clients := {|
  generate_js services jsonrpc_url minified := Ok ("// " ++ jsonrpc_url);
  generate_ts services jsonrpc_url := Ok ("// " ++ jsonrpc_url);
  generate_php services jsonrpc_url := Ok ("<?php // " ++ jsonrpc_url);
  generate_python services := Ok "# client"
|}.

(** A POST of the batch to /jsonrpc as NDJSON, and a GET of /jsonrpc. *)
Definition post_batch : environ :=
  {| REQUEST_METHOD := Some "POST"; PATH_INFO := Some "/jsonrpc";
     CONTENT_TYPE := Some "application/x-ndjson"; wsgi_input := Some batch |}.

Definition get_endpoint : environ :=
  {| REQUEST_METHOD := Some "GET"; PATH_INFO := Some "/jsonrpc";
     CONTENT_TYPE := None; wsgi_input := None |}.

End Example.

(** * Properties *)

(** ** Envelopes and validation *)

Section Validation.
Context `{PyLib}.

Lemma contains_member (items : pydict) (key : string) :
  py_contains (VDict items) (VStr key)
  = Ok (bool_decide (is_Some (envelope_get (VDict items) key))).
Proof. reflexivity. Qed.

Lemma getitem_member (items : pydict) (key : string) (v : pyval) :
  envelope_get (VDict items) key = Some v →
  py_getitem (VDict items) key = Ok v.
Proof. simpl. intros ->. reflexivity. Qed.

Lemma check_request_ok (items : pydict) :
  well_formed (VDict items) → check_request (VDict items) = Ok tt.
Proof.
  intros (Hv & Hm & Hp & Hi). unfold check_request.
  assert (Hv' : is_Some (envelope_get (VDict items) "jsonrpc"))
    by (rewrite Hv; eauto).
  rewrite !contains_member.
  rewrite (bool_decide_eq_true_2 _ Hv'), (bool_decide_eq_true_2 _ Hm),
    (bool_decide_eq_true_2 _ Hp), (bool_decide_eq_true_2 _ Hi).
  rewrite (getitem_member _ _ _ Hv).
  rewrite bool_decide_eq_true_2 by reflexivity.
  reflexivity.
Qed.

(** Closes the branch of [check_request] in which the assertion on a member
    fails, given [H : ¬ P] for the tested [P]. *)
Ltac assertion_fails H :=
  rewrite (bool_decide_eq_false_2 _ H); cbn [negb];
  eexists; split; [|reflexivity]; discriminate.

Lemma check_request_bad (items : pydict) :
  ¬ well_formed (VDict items) →
  ∃ message, message ≠ ""
    ∧ check_request (VDict items) = raise AssertionError with message.
Proof.
  intros Hbad. unfold check_request. rewrite !contains_member.
  destruct (decide (is_Some (envelope_get (VDict items) "jsonrpc")))
    as [[version Hv]|Hout]; [|assertion_fails Hout].
  rewrite bool_decide_eq_true_2 by eauto.
  rewrite (getitem_member _ _ _ Hv).
  destruct (decide (version = VStr "2.0")) as [->|Hne]; [|assertion_fails Hne].
  rewrite bool_decide_eq_true_2 by reflexivity. cbn [negb].
  destruct (decide (is_Some (envelope_get (VDict items) "method"))) as [Hm|Hm];
    [|assertion_fails Hm].
  rewrite (bool_decide_eq_true_2 _ Hm). cbn [negb].
  destruct (decide (is_Some (envelope_get (VDict items) "params"))) as [Hp|Hp];
    [|assertion_fails Hp].
  rewrite (bool_decide_eq_true_2 _ Hp). cbn [negb].
  destruct (decide (is_Some (envelope_get (VDict items) "id"))) as [Hi|Hi];
    [|assertion_fails Hi].
  exfalso. apply Hbad. repeat split; assumption.
Qed.

Lemma make_error_message (code : Z) (message : string) (id : pyval) :
  message ≠ "" →
  _make_error code (Some message) None id
  = Ok (Error_envelope code message (error_id id)).
Proof.
  intros Hne. unfold _make_error. destruct message; [congruence|].
  destruct id; reflexivity.
Qed.

Lemma make_error_exception (code : Z) (e : exn) (id : pyval) :
  ∃ message,
    _make_error code None (Some e) id
    = Ok (Error_envelope code message (error_id id)).
Proof.
  unfold _make_error. simpl.
  destruct (innermost_frame e) as [[[|c filename] lineno]|];
    eexists; destruct id; reflexivity.
Qed.

Lemma Error_envelope_code (code : Z) (message : string) (id : option pyval) :
  error_code (Error_envelope code message id) = Some (VInt code).
Proof. reflexivity. Qed.

Lemma Error_envelope_is_Error (code : Z) (message : string) (id : option pyval) :
  is_Error (Error_envelope code message id) = true.
Proof. reflexivity. Qed.

Lemma Error_envelope_id (code : Z) (message : string) (id : option pyval) :
  envelope_get (Error_envelope code message id) "id" = id.
Proof. destruct id; reflexivity. Qed.

Lemma Result_envelope_id (result id : pyval) :
  envelope_get (Result_envelope result id) "id" = Some id.
Proof. reflexivity. Qed.

Lemma Result_envelope_is_Error (result id : pyval) :
  is_Error (Result_envelope result id) = false.
Proof. reflexivity. Qed.

(** C4. A request object that lacks one of the members jsonrpc, method,
    params, id, or whose jsonrpc member is not the string 2.0, is answered
    with an Error envelope of code -32600 that has no id member. *)
Theorem invalid_request_error (self : JsonRpcRegistry) (items : pydict) :
  envelope_get (VDict items) "jsonrpc" ≠ Some (VStr "2.0")
  ∨ envelope_get (VDict items) "method" = None
  ∨ envelope_get (VDict items) "params" = None
  ∨ envelope_get (VDict items) "id" = None →
  ∃ message,
    _execute_request self (VDict items) = Ok (Error_envelope (-32600) message None)
    ∧ error_code (Error_envelope (-32600) message None) = Some (VInt (-32600))
    ∧ envelope_get (Error_envelope (-32600) message None) "id" = None.
Proof.
  intros Hbad.
  destruct (check_request_bad items) as (message & Hne & Hcheck).
  - intros (Hv & Hm & Hp & Hi).
    destruct Hbad as [Hb|[Hb|[Hb|Hb]]]; [congruence| | |];
      rewrite Hb in *; eapply is_Some_None; eassumption.
  - exists message. unfold _execute_request. rewrite Hcheck. simpl.
    rewrite (make_error_message _ _ VNone Hne). auto.
Qed.

End Validation.

(** ** Request execution *)

Section Execution.
Context `{PyLib}.

Lemma convert_zip_length (args : list pyval) (types : list pytype)
    (decoded : list pyval) :
  length args = length types →
  convert_zip args types = Ok decoded →
  length decoded = length args.
Proof.
  revert types decoded. induction args as [|value args IH];
    intros [|t types] decoded Hlen Hconv; simpl in *; try discriminate.
  - injection Hconv as <-. reflexivity.
  - destruct (convert_arg value t); [|discriminate].
    destruct (convert_zip args types) as [vs|] eqn:Hvs; [|discriminate].
    injection Hconv as <-. simpl. f_equal. eapply IH; [|eassumption]. lia.
Qed.

Lemma bind_parameters_positional (ps : list parameter) (args : list pyval)
    (kws : list (string * pyval)) (extra : pydict) :
  forallb is_positional ps = true →
  length args = length ps →
  bind_parameters ps args kws extra = Ok args.
Proof.
  revert args. induction ps as [|p ps IH]; intros [|a args] Hpos Hlen;
    try discriminate; [reflexivity|].
  cbn [forallb] in Hpos. apply andb_prop in Hpos as [Hp Hps].
  cbn [bind_parameters]. unfold is_positional in Hp.
  destruct (kind p); try discriminate;
    (rewrite IH; [reflexivity|exact Hps|simpl in Hlen; lia]).
Qed.

Lemma filter_all {A} (f : A → bool) (l : list A) :
  forallb f l = true → List.filter f l = l.
Proof.
  induction l as [|x l IH]; [reflexivity|]. simpl.
  intros Hall. apply andb_prop in Hall as [Hx Hl]. rewrite Hx, IH by exact Hl.
  reflexivity.
Qed.

(** A call with as many positional arguments as there are parameters, and no
    keyword arguments, of a method whose parameters all take positional
    arguments, runs the body on these arguments. *)
Lemma call_positional (f : bound_method) (args : list pyval) :
  all_positional f = true →
  length args = length (parameters f) →
  call f args [] = body f args.
Proof.
  intros Hpos Hlen. unfold call. cbn [keywords check_keywords].
  rewrite (filter_all _ _ Hpos), <- Hlen, Nat.ltb_irrefl. cbn [andb].
  rewrite (bind_parameters_positional _ _ _ _ Hpos Hlen). reflexivity.
Qed.

Lemma arg_types_length (m : MethodDefinition) :
  length (arg_types m) = length (parameters (func m)).
Proof. unfold arg_types, signature. rewrite !length_fmap. reflexivity. Qed.


Lemma parse_args_list_arity (m : MethodDefinition) (args : list pyval) :
  length args ≠ length (arg_types m) →
  ∃ message, parse_args_list m args = raise ValueError with message.
Proof.
  intros Hlen. unfold parse_args_list.
  destruct (decide (length args ≠ length (arg_types m))); [|contradiction].
  eexists. reflexivity.
Qed.

Lemma resolve_str (self : JsonRpcRegistry) (key : string) :
  method_definitions_get self (VStr key) = Ok (_method_definitions self !! key).
Proof. reflexivity. Qed.

(** C5, amended. A well-formed request whose method string is no key of the
    method table is answered with an Error envelope of code -32601; the
    envelope carries the id of the request when that id is not null, and has
    no id member when it is null. *)
Theorem method_not_found_error (self : JsonRpcRegistry) (items : pydict)
    (key : string) (id : pyval) :
  well_formed (VDict items) →
  envelope_get (VDict items) "method" = Some (VStr key) →
  _method_definitions self !! key = None →
  envelope_get (VDict items) "id" = Some id →
  _execute_request self (VDict items)
  = Ok (Error_envelope (-32601) "Method not found" (error_id id))
  ∧ envelope_get (Error_envelope (-32601) "Method not found" (error_id id)) "id"
    = match id with VNone => None | _ => Some id end.
Proof.
  intros Hwf Hmethod Hnone Hid. split; [|apply Error_envelope_id].
  unfold _execute_request. rewrite (check_request_ok _ Hwf).
  rewrite (getitem_member _ _ _ Hmethod), (getitem_member _ _ _ Hid).
  rewrite resolve_str, Hnone.
  apply make_error_message. discriminate.
Qed.

End Execution.

(** ** What the converter raises *)

Section Raising.
Context `{PyLib}.

Lemma catchable_Ok {A} (a : A) : catchable (Ok a).
Proof. intros e He. discriminate. Qed.

Lemma catchable_raise {A} (k : exn_kind) (message : string) :
  is_Exception k = true → catchable (raise k with message : result A).
Proof. intros Hk e He. injection He as <-. exact Hk. Qed.

Lemma catchable_bind {A B} (r : result A) (f : A → result B) :
  catchable r → (∀ a, catchable (f a)) →
  catchable (x <- r;; f x).
Proof.
  intros Hr Hf e He. destruct r as [a|e'].
  - eapply Hf. eassumption.
  - injection He as <-. apply Hr. reflexivity.
Qed.

Lemma catchable_lib {A} (k : exn_kind) (r : string + A) :
  is_Exception k = true → catchable (lib k r).
Proof. intros Hk. destruct r; [apply catchable_raise, Hk | apply catchable_Ok]. Qed.

Lemma catchable_no_attribute {A} (obj : pyval) (attr : string) :
  catchable (no_attribute obj attr : result A).
Proof. apply catchable_raise. reflexivity. Qed.

Lemma catchable_dict_setitem (d : pydict) (k v : pyval) :
  catchable (dict_setitem d k v).
Proof.
  unfold dict_setitem. destruct (hashable k);
    [apply catchable_Ok | apply catchable_raise; reflexivity].
Qed.

Lemma catchable_list_comprehension {A B} (f : A → result B) (xs : list A) :
  Forall (fun x => catchable (f x)) xs →
  catchable (list_comprehension f xs).
Proof.
  induction 1 as [|x xs Hx _ IH]; simpl; [apply catchable_Ok|].
  apply catchable_bind; [exact Hx|]. intros y.
  apply catchable_bind; [exact IH|]. intros ys. apply catchable_Ok.
Qed.

Lemma catchable_dict_comprehension {A} (fk fv : A → result pyval) (xs : list A) :
  Forall (fun x => catchable (fk x) ∧ catchable (fv x)) xs →
  ∀ acc, catchable (dict_comprehension fk fv xs acc).
Proof.
  induction 1 as [|x xs [Hk Hv] _ IH]; intros acc; simpl; [apply catchable_Ok|].
  apply catchable_bind; [exact Hk|]. intros k.
  apply catchable_bind; [exact Hv|]. intros v.
  apply catchable_bind; [apply catchable_dict_setitem|]. intros acc'. apply IH.
Qed.

Ltac catch :=
  repeat first
    [ apply catchable_Ok
    | apply catchable_no_attribute
    | apply catchable_lib; reflexivity
    | apply catchable_raise; reflexivity
    | apply catchable_bind; [|intros ?] ].

Lemma catchable_py_iter (arg : pyval) : catchable (py_iter arg).
Proof. destruct arg; simpl; catch. Qed.

Lemma catchable_py_items (arg : pyval) : catchable (py_items arg).
Proof. destruct arg; simpl; catch. Qed.

Lemma catchable_py_get (arg key : pyval) : catchable (py_get arg key).
Proof. destruct arg; simpl; catch. destruct (dict_lookup items key); catch. Qed.

Lemma catchable_from_dict_datetime (x : pyval) : catchable (from_dict_datetime x).
Proof. destruct x; simpl; catch. Qed.

Lemma catchable_from_dict_timedelta (x : pyval) : catchable (from_dict_timedelta x).
Proof. destruct x; simpl; catch. Qed.

Lemma catchable_from_dict_Decimal (x : pyval) : catchable (from_dict_Decimal x).
Proof. destruct x; simpl; catch. Qed.

(** Whatever [convert_arg] raises is an [Exception]. *)
Lemma catchable_convert_arg (python_type : pytype) :
  ∀ arg, catchable (convert_arg arg python_type).
Proof.
  induction python_type as
    [ | | o c IHc | k v IHk IHv | cls fields IHf | | | | k | ]
    using pytype_nested_ind; intros arg; simpl.
  - catch.
  - catch.
  - apply catchable_bind; [apply catchable_py_iter|]. intros xs.
    apply catchable_bind; [|intros; catch].
    apply catchable_list_comprehension, Forall_forall. intros; apply IHc.
  - apply catchable_bind; [apply catchable_py_items|]. intros items.
    apply catchable_bind; [|intros; catch].
    apply catchable_dict_comprehension, Forall_forall. intros; split; [apply IHk|apply IHv].
  - apply catchable_bind; [|intros; catch].
    induction IHf as [|[field_name field_type] rest Hfield _ IHrest]; [catch|].
    apply catchable_bind; [apply catchable_py_get|]. intros x.
    apply catchable_bind; [apply Hfield|]. intros v.
    apply catchable_bind; [apply IHrest|]. intros vs. catch.
  - apply catchable_from_dict_datetime.
  - apply catchable_from_dict_timedelta.
  - apply catchable_from_dict_Decimal.
  - catch.
  - catch.
Qed.

(** Whatever the encoder raises is an [Exception]. *)
Lemma catchable_default (obj : pyval) : catchable (default obj).
Proof.
  induction obj as
    [ | b | n | x | s | xs IH | xs IH | xs IH | items IH | cls fields IH
      | d | t | q | cls r IH | cls h i ] using pyval_nested_ind; simpl;
    try (unfold to_dict_datetime, to_dict_timedelta, to_dict_Decimal; catch; fail).
  - apply catchable_bind; [|intros; catch]. apply catchable_list_comprehension, IH.
  - apply catchable_bind; [|intros; catch]. apply catchable_list_comprehension, IH.
  - apply catchable_bind; [|intros; catch]. apply catchable_list_comprehension, IH.
  - apply catchable_bind; [|intros; catch]. apply catchable_dict_comprehension, IH.
  - apply catchable_bind; [|intros; catch]. apply catchable_dict_comprehension.
    eapply Forall_impl; [exact IH|]. intros f Hf. split; [catch|exact Hf].
  - destruct r; try (catch; fail). exact IH.
Qed.

Lemma catchable_to_dict (obj : pyval) : catchable (to_dict obj).
Proof. apply catchable_default. Qed.

End Raising.

(** ** Parameter binding *)

Section Binding.
Context `{PyLib}.

Lemma catchable_convert_zip (args : list pyval) (types : list pytype) :
  catchable (convert_zip args types).
Proof.
  revert types. induction args as [|value args IH]; intros [|t types]; simpl;
    try apply catchable_Ok.
  apply catchable_bind; [apply catchable_convert_arg|]. intros v.
  apply catchable_bind; [apply IH|]. intros vs. apply catchable_Ok.
Qed.

Lemma catchable_parse_args_list (m : MethodDefinition) (args : list pyval) :
  catchable (parse_args_list m args).
Proof.
  unfold parse_args_list. destruct (decide _).
  - apply catchable_raise. reflexivity.
  - apply catchable_convert_zip.
Qed.

Lemma catchable_parameter_annotation (m : MethodDefinition) (name : pyval) :
  catchable (parameter_annotation m name).
Proof.
  unfold parameter_annotation. destruct (hashable name).
  - destruct name; try (apply catchable_raise; reflexivity).
    destruct (assoc (signature m) s);
      [apply catchable_Ok | apply catchable_raise; reflexivity].
  - apply catchable_raise. reflexivity.
Qed.

Lemma catchable_parse_args_dict (m : MethodDefinition) (args : pydict) :
  catchable (parse_args_dict m args).
Proof.
  unfold parse_args_dict. generalize (@nil (pyval * pyval)).
  induction args as [|[name value] rest IH]; intros typed_args;
    [apply catchable_Ok|].
  apply catchable_bind; [apply catchable_parameter_annotation|]. intros T.
  apply catchable_bind; [apply catchable_convert_arg|]. intros v.
  apply catchable_bind; [apply catchable_dict_setitem|]. intros typed_args'.
  apply IH.
Qed.

(** A first [try] block that raises is answered with code -32602. *)
Lemma bind_failure_error (self : JsonRpcRegistry) (items : pydict) (key : string)
    (m : MethodDefinition) (id : pyval) (e : exn) :
  well_formed (VDict items) →
  envelope_get (VDict items) "method" = Some (VStr key) →
  _method_definitions self !! key = Some m →
  envelope_get (VDict items) "id" = Some id →
  bind_params m (VDict items) = Raise e →
  is_Exception (exn_class e) = true →
  ∃ message,
    _execute_request self (VDict items)
    = Ok (Error_envelope (-32602) message (error_id id)).
Proof.
  intros Hwf Hmethod Hsome Hid Hbind Hexc.
  unfold _execute_request. rewrite (check_request_ok _ Hwf).
  rewrite (getitem_member _ _ _ Hmethod), (getitem_member _ _ _ Hid).
  rewrite resolve_str, Hsome, Hbind, Hexc.
  apply make_error_exception.
Qed.

Lemma bind_params_list (m : MethodDefinition) (items : pydict) (args : list pyval)
    (e : exn) :
  envelope_get (VDict items) "params" = Some (VList args) →
  parse_args_list m args = Raise e →
  bind_params m (VDict items) = Raise e.
Proof.
  intros Hparams Hparse. unfold bind_params.
  rewrite (getitem_member _ _ _ Hparams), Hparse. reflexivity.
Qed.

(** C6, amended. For a well-formed request that resolves to a registered
    method: when params is neither a list nor a dict, or is a list whose
    length differs from the number of declared parameters, or is a list one
    of whose arguments fails to decode, the answer is an Error envelope of
    code -32602; the envelope carries the id of the request when that id is
    not null, and has no id member when it is null. *)
Theorem invalid_params_error (self : JsonRpcRegistry) (items : pydict)
    (key : string) (m : MethodDefinition) (params id : pyval) :
  well_formed (VDict items) →
  envelope_get (VDict items) "method" = Some (VStr key) →
  _method_definitions self !! key = Some m →
  envelope_get (VDict items) "params" = Some params →
  envelope_get (VDict items) "id" = Some id →
  ((∀ kvs, params ≠ VDict kvs) ∧ (∀ xs, params ≠ VList xs))
  ∨ (∃ args, params = VList args
       ∧ (length args ≠ length (arg_types m)
          ∨ ∃ e, convert_zip args (arg_types m) = Raise e)) →
  ∃ message,
    _execute_request self (VDict items)
    = Ok (Error_envelope (-32602) message (error_id id))
    ∧ envelope_get (Error_envelope (-32602) message (error_id id)) "id"
      = match id with VNone => None | _ => Some id end.
Proof.
  intros Hwf Hmethod Hsome Hparams Hid Hcases.
  cut (∃ message, _execute_request self (VDict items)
                  = Ok (Error_envelope (-32602) message (error_id id))).
  { intros [message Hrun]. exists message. split; [exact Hrun|apply Error_envelope_id]. }
  destruct Hcases as [[Hnd Hnl] | (args & -> & Hfail)].
  - exists "Invalid params".
    unfold _execute_request. rewrite (check_request_ok _ Hwf).
    rewrite (getitem_member _ _ _ Hmethod), (getitem_member _ _ _ Hid).
    rewrite resolve_str, Hsome.
    unfold bind_params.
    rewrite (getitem_member _ _ _ Hparams), (getitem_member _ _ _ Hid).
    rewrite make_error_message by discriminate.
    destruct params; try reflexivity.
    + exfalso. eapply Hnl. reflexivity.
    + exfalso. eapply Hnd. reflexivity.
  - assert (∃ e, parse_args_list m args = Raise e) as [e He].
    { destruct Hfail as [Hlen | [e He]].
      - destruct (parse_args_list_arity m args Hlen) as [message Hm]. eauto.
      - unfold parse_args_list. destruct (decide _); eauto. }
    eapply bind_failure_error; try eassumption.
    + eapply bind_params_list; eassumption.
    + eapply catchable_parse_args_list. eassumption.
Qed.

(** C7, amended. For the service mathService with add(a: int, b: int) -> int,
    the request with id 1 whose params is the dict holding only a = 2 is
    answered with an Error envelope of code -32000 and id 1: binding
    succeeds, and the call of add without b raises. *)
Theorem missing_named_argument_error :
  parse_args_dict {| method_name := "add"; func := add |} [ (VStr "a", VInt 2) ]
  = Ok [ (VStr "a", VInt 2) ]
  ∧ ∃ message,
      _execute_request math_registry
        (request (VInt 1) "mathService.add" (VDict [ (VStr "a", VInt 2) ]))
      = Ok (Error_envelope (-32000) message (Some (VInt 1)))
      ∧ error_code (Error_envelope (-32000) message (Some (VInt 1)))
        = Some (VInt (-32000))
      ∧ envelope_get (Error_envelope (-32000) message (Some (VInt 1))) "id"
        = Some (VInt 1).
Proof.
  split; [reflexivity|].
  destruct (make_error_exception (-32000)
              (Exn TypeError "missing 1 required positional argument: 'b'")
              (VInt 1)) as [message Hm].
  exists message. split; [|split; reflexivity].
  cbn [error_id] in Hm. rewrite <- Hm. reflexivity.
Qed.

End Binding.

(** ** Records with absent fields *)

Section Records.
Context `{PyLib}.

Lemma convert_arg_record (arg : pyval) (cls : string) (fields : list (string * pytype)) :
  convert_arg arg (TData cls fields)
  = (values <- convert_fields arg fields;; Ok (VData cls values)).
Proof.
  simpl.
  match goal with
  | |- match ?loop fields with _ => _ end = _ =>
      assert (Hloop : ∀ fs, loop fs = convert_fields arg fs)
  end.
  { induction fs as [|[n t] rest IH]; [reflexivity|].
    cbn [convert_fields]. rewrite <- IH. reflexivity. }
  rewrite Hloop. reflexivity.
Qed.







End Records.

(** ** The shape of every answer *)

Section Outcomes.
Context `{PyLib}.

Lemma catchable_keywords (kwargs : pydict) : catchable (keywords kwargs).
Proof.
  induction kwargs as [|[k v] rest IH]; simpl; [apply catchable_Ok|].
  destruct k; try (apply catchable_raise; reflexivity).
  apply catchable_bind; [exact IH|]. intros kws. apply catchable_Ok.
Qed.

Lemma catchable_check_keywords (ps : list parameter) (given : list string)
    (kws : list (string * pyval)) :
  catchable (check_keywords ps given kws).
Proof.
  induction kws as [|[k v] rest IH]; cbn [check_keywords]; [apply catchable_Ok|].
  destruct (keyword_parameter ps k).
  - destruct (bool_decide _); [apply catchable_raise; reflexivity|exact IH].
  - destruct (existsb is_var_keyword ps); [exact IH|].
    destruct (existsb _ ps); apply catchable_raise; reflexivity.
Qed.

Lemma catchable_keyword_or_default (p : parameter) (kws : list (string * pyval)) :
  catchable (keyword_or_default p kws).
Proof.
  unfold keyword_or_default.
  destruct (if by_keyword p then assoc kws (param_name p) else None);
    [apply catchable_Ok|].
  destruct (default_value p); [apply catchable_Ok|apply catchable_raise; reflexivity].
Qed.

Lemma catchable_bind_parameters (ps : list parameter) (args : list pyval)
    (kws : list (string * pyval)) (extra : pydict) :
  catchable (bind_parameters ps args kws extra).
Proof.
  revert args. induction ps as [|p ps IH]; intros args; cbn [bind_parameters];
    [apply catchable_Ok|].
  destruct (kind p); try destruct args as [|a args];
    repeat first
      [ apply catchable_Ok
      | apply IH
      | apply catchable_keyword_or_default
      | apply catchable_bind; [|intros ?] ].
Qed.

Lemma catchable_call (f : bound_method) (args : list pyval) (kwargs : pydict) :
  well_behaved f → catchable (call f args kwargs).
Proof.
  intros Hbody. unfold call.
  apply catchable_bind; [apply catchable_keywords|]. intros kws.
  apply catchable_bind; [apply catchable_check_keywords|]. intros _.
  destruct (_ && _); [apply catchable_raise; reflexivity|].
  apply catchable_bind; [apply catchable_bind_parameters|]. intros vs. apply Hbody.
Qed.

(** What the first [try] block can produce. *)
Lemma bind_params_cases (m : MethodDefinition) (items : pydict) (params id : pyval) :
  envelope_get (VDict items) "params" = Some params →
  envelope_get (VDict items) "id" = Some id →
  match bind_params m (VDict items) with
  | Ok (inl result_maker) =>
      (∃ kwparams, result_maker tt = get_invoker m [] kwparams)
      ∨ (∃ decoded, result_maker tt = get_invoker m decoded [])
  | Ok (inr response) =>
      response = Error_envelope (-32602) "Invalid params" (error_id id)
  | Raise e => is_Exception (exn_class e) = true
  end.
Proof.
  intros Hparams Hid. unfold bind_params.
  rewrite (getitem_member _ _ _ Hparams), (getitem_member _ _ _ Hid).
  rewrite make_error_message by discriminate.
  destruct params; try reflexivity.
  - destruct (parse_args_list m xs) as [decoded|e] eqn:Hparse; [eauto|].
    eapply catchable_parse_args_list. eassumption.
  - destruct (parse_args_dict m items0) as [kwparams|e] eqn:Hparse; [eauto|].
    eapply catchable_parse_args_dict. eassumption.
Qed.

(** Every answer to a well-formed request is a Result envelope with the id
    of the request, or an Error envelope with one of the three codes, which
    carries the id unless it is null. *)
Lemma execute_cases (self : JsonRpcRegistry) (items : pydict) (id r : pyval) :
  well_formed (VDict items) →
  envelope_get (VDict items) "id" = Some id →
  _execute_request self (VDict items) = Ok r →
  (∃ w, r = Result_envelope w id)
  ∨ (∃ code message,
       (code = -32601 ∨ code = -32602 ∨ code = -32000)
       ∧ r = Error_envelope code message (error_id id)).
Proof.
  intros Hwf Hid. pose proof Hwf as (_ & [method Hmethod] & [params Hparams] & _).
  unfold _execute_request. rewrite (check_request_ok _ Hwf).
  rewrite (getitem_member _ _ _ Hmethod), (getitem_member _ _ _ Hid).
  destruct (method_definitions_get self method) as [[m|]|e]; [| |discriminate].
  - pose proof (bind_params_cases m items params id Hparams Hid) as Hbind.
    destruct (bind_params m (VDict items)) as [[result_maker|response]|e].
    + destruct (result_maker tt) as [result|e].
      * destruct (to_dict result) as [encoded|e].
        -- intros Hr. injection Hr as <-. left. eauto.
        -- destruct (is_Exception (exn_class e)); [|discriminate].
           destruct (make_error_exception (-32000) e id) as [message ->].
           intros Hr. injection Hr as <-. right. eauto 6.
      * destruct (is_Exception (exn_class e)); [|discriminate].
        destruct (make_error_exception (-32000) e id) as [message ->].
        intros Hr. injection Hr as <-. right. eauto 6.
    + intros Hr. injection Hr as <-. right. eauto 6.
    + rewrite Hbind.
      destruct (make_error_exception (-32602) e id) as [message ->].
      intros Hr. injection Hr as <-. right. eauto 6.
  - rewrite make_error_message by discriminate.
    intros Hr. injection Hr as <-. right. eauto 6.
Qed.

(** Any answer at all is a JSON object. *)
Lemma execute_dict (self : JsonRpcRegistry) (payload r : pyval) :
  _execute_request self payload = Ok r → ∃ members, r = VDict members.
Proof.
  unfold _execute_request.
  destruct (check_request payload) as [u|e] eqn:Hcheck.
  - destruct (py_getitem payload "method") as [method|]; [|discriminate].
    destruct (method_definitions_get self method) as [[m|]|]; [| |discriminate].
    + destruct (bind_params m payload) as [[result_maker|response]|e] eqn:Hbind.
      * destruct (result_maker tt) as [result|e];
          [destruct (to_dict result) as [encoded|e]|].
        -- destruct (py_getitem payload "id"); [|simpl].
           ++ intros Hr. injection Hr as <-. eauto.
           ++ destruct (is_Exception _); discriminate.
        -- destruct (is_Exception _); [|discriminate].
           destruct (py_getitem payload "id") as [id|]; [|discriminate].
           destruct (make_error_exception (-32000) e id) as [message ->].
           intros Hr. injection Hr as <-. unfold Error_envelope. eauto.
        -- destruct (is_Exception _); [|discriminate].
           destruct (py_getitem payload "id") as [id|]; [|discriminate].
           destruct (make_error_exception (-32000) e id) as [message ->].
           intros Hr. injection Hr as <-. unfold Error_envelope. eauto.
      * intros Hr. injection Hr as <-.
        unfold bind_params in Hbind.
        destruct (py_getitem payload "params") as [params|]; [|discriminate].
        assert (Hmk : ∃ id, _make_error (-32602) (Some "Invalid params") None id
                            = Ok response).
        { destruct params;
            repeat match type of Hbind with
                   | context [match ?c with _ => _ end] => destruct c eqn:?
                   end; try discriminate; injection Hbind as <-; eauto. }
        destruct Hmk as [id Hmk]. rewrite make_error_message in Hmk by discriminate.
        injection Hmk as <-. unfold Error_envelope. eauto.
      * destruct (is_Exception _); [|discriminate].
        destruct (py_getitem payload "id") as [id|]; [|discriminate].
        destruct (make_error_exception (-32602) e id) as [message ->].
        intros Hr. injection Hr as <-. unfold Error_envelope. eauto.
    + destruct (py_getitem payload "id") as [id|]; [|discriminate].
      rewrite make_error_message by discriminate.
      intros Hr. injection Hr as <-. unfold Error_envelope. eauto.
  - destruct (is_AssertionError _); [|discriminate].
    unfold _make_error. destruct (negb _); [discriminate|].
    intros Hr. injection Hr as <-. eauto.
Qed.

End Outcomes.

(** ** Every JSON object gets an answer *)

Section Totality.
Context `{PyLib}.

#[local] Instance well_formed_dec (payload : pyval) : Decision (well_formed payload).
Proof. unfold well_formed. apply _. Defined.

(** [_execute_request] returns an envelope for every JSON object whose
    method member, if any, is hashable: no failure inside escapes it. *)
Lemma execute_total (self : JsonRpcRegistry) (items : pydict) :
  well_behaved_registry self →
  (∀ method, envelope_get (VDict items) "method" = Some method →
             hashable method = true) →
  ∃ r, _execute_request self (VDict items) = Ok r.
Proof.
  intros Hreg Hhash.
  destruct (decide (well_formed (VDict items))) as [Hwf|Hbad].
  2:{ destruct (check_request_bad items Hbad) as (message & Hne & Hcheck).
      unfold _execute_request. rewrite Hcheck. simpl.
      rewrite (make_error_message _ _ VNone Hne). eauto. }
  pose proof Hwf as (_ & [method Hmethod] & [params Hparams] & [id Hid]).
  unfold _execute_request. rewrite (check_request_ok _ Hwf).
  rewrite (getitem_member _ _ _ Hmethod), (getitem_member _ _ _ Hid).
  unfold method_definitions_get. rewrite (Hhash _ Hmethod).
  assert (Hnone : ∃ r, _make_error (-32601) (Some "Method not found") None id = Ok r)
    by (rewrite make_error_message by discriminate; eauto).
  destruct method; try exact Hnone.
  destruct (_method_definitions self !! s) as [m|] eqn:Hm; [|exact Hnone].
  pose proof (bind_params_cases m items params id Hparams Hid) as Hbind.
  destruct (bind_params m (VDict items)) as [[result_maker|response]|e].
  - assert (Hcall : catchable (result_maker tt)).
    { destruct Hbind as [[kw ->]|[decoded ->]]; apply catchable_call; eapply Hreg; eassumption. }
    destruct (result_maker tt) as [result|e].
    + pose proof (catchable_to_dict result) as Henc.
      destruct (to_dict result) as [encoded|e]; [eauto|].
      rewrite (Henc e eq_refl).
      destruct (make_error_exception (-32000) e id) as [message ->]. eauto.
    + rewrite (Hcall e eq_refl).
      destruct (make_error_exception (-32000) e id) as [message ->]. eauto.
  - eauto.
  - rewrite Hbind.
    destruct (make_error_exception (-32602) e id) as [message ->]. eauto.
Qed.

(** C10. Every JSON object is answered (its method member, if any, being
    hashable and the methods raising nothing but Exceptions).  For a
    well-formed request, an Error envelope built after validation has one of
    the codes -32601, -32602, -32000 and carries the id of the request
    exactly when that id is not null: for a null id it has no id member at
    all, while a Result envelope for such a request has the id member
    null. *)
Theorem null_id_omitted :
  (∀ (self : JsonRpcRegistry) (items : pydict),
     well_behaved_registry self →
     (∀ method, envelope_get (VDict items) "method" = Some method →
                hashable method = true) →
     ∃ r, _execute_request self (VDict items) = Ok r)
  ∧ (∀ (self : JsonRpcRegistry) (items : pydict) (id r : pyval),
       well_formed (VDict items) →
       envelope_get (VDict items) "id" = Some id →
       _execute_request self (VDict items) = Ok r →
       (is_Error r = true →
          (error_code r = Some (VInt (-32601)) ∨ error_code r = Some (VInt (-32602))
           ∨ error_code r = Some (VInt (-32000)))
          ∧ (id = VNone → envelope_get r "id" = None)
          ∧ (id ≠ VNone → envelope_get r "id" = Some id))
       ∧ (is_Error r = false → envelope_get r "id" = Some id)).
Proof.
  split; [apply execute_total|].
  intros self items id r Hwf Hid Hrun.
  destruct (execute_cases self items id r Hwf Hid Hrun)
    as [[w ->] | (code & message & Hcode & ->)].
  - split; [discriminate|]. intros _. reflexivity.
  - split; [|discriminate]. intros _.
    rewrite Error_envelope_code, Error_envelope_id.
    split; [|split].
    + destruct Hcode as [-> | [-> | ->]]; auto.
    + intros ->. reflexivity.
    + intros Hne. destruct id; try reflexivity. congruence.
Qed.

End Totality.

(** ** Framing *)

Section Framing.
Context `{PyLib}.

Lemma contains_error (members : pydict) :
  py_contains (VDict members) (VStr "error") = Ok (is_Error (VDict members)).
Proof. reflexivity. Qed.




(** A line that holds a JSON object is answered whenever its response can be
    serialized. *)
Lemma respond_object (self : JsonRpcRegistry) (line : string) (items : pydict) :
  well_behaved_registry self →
  json_loads line = inr (VDict items) →
  (∀ method, envelope_get (VDict items) "method" = Some method →
             hashable method = true) →
  ∃ response,
    _execute_request self (VDict items) = Ok response
    ∧ respond self line = (s <- to_json response;; Ok (encode s)).
Proof.
  intros Hreg Hloads Hhash.
  destruct (execute_total self items Hreg Hhash) as [response Hrun].
  exists response. split; [exact Hrun|].
  unfold respond. rewrite Hloads. cbn [lib]. rewrite Hrun. reflexivity.
Qed.

End Framing.

(** ** The round trip through the wire *)

Section RoundTrip.
Context `{PyLib}.

(** *** Facts about comprehensions and dicts *)

Lemma default_str (s : string) : default (VStr s) = Ok (VStr s).
Proof. reflexivity. Qed.

Lemma default_float (x : pyfloat) : default (VFloat x) = Ok (VFloat x).
Proof. reflexivity. Qed.

Lemma dict_replace_fresh (d : pydict) (k v : pyval) :
  k ∉ fst <$> d → dict_replace d k v = (d ++ [(k, v)])%list.
Proof.
  induction d as [|[k' v'] d IH]; simpl; intros Hk; [reflexivity|].
  destruct (decide (k' = k)) as [->|Hne].
  - exfalso. apply Hk. left.
  - f_equal. apply IH. intros Hin. apply Hk. right. exact Hin.
Qed.

Lemma dict_comprehension_fresh {A} (fk fv : A → result pyval) (xs : list A)
    (ys acc : pydict) :
  Forall2 (fun x y => fk x = Ok (fst y) ∧ fv x = Ok (snd y)
                      ∧ hashable (fst y) = true) xs ys →
  NoDup (fst <$> (acc ++ ys)%list) →
  dict_comprehension fk fv xs acc = Ok (acc ++ ys)%list.
Proof.
  intros HF. revert acc.
  induction HF as [|x [k v] xs ys (Hk & Hv & Hh) _ IH]; intros acc Hnd; simpl.
  - rewrite app_nil_r. reflexivity.
  - simpl in Hk, Hv, Hh. rewrite Hk, Hv. unfold dict_setitem. rewrite Hh.
    assert (Hacc : (acc ++ (k, v) :: ys = (acc ++ [(k, v)]) ++ ys)%list)
      by (rewrite <- app_assoc; reflexivity).
    rewrite dict_replace_fresh.
    + rewrite Hacc. apply IH. rewrite <- Hacc. exact Hnd.
    + rewrite fmap_app in Hnd. apply NoDup_app in Hnd as (_ & Hdisj & _).
      intros Hin. apply (Hdisj _ Hin). left.
Qed.

Lemma dict_lookup_elem (d : pydict) (k v : pyval) :
  NoDup (fst <$> d) → (k, v) ∈ d → dict_lookup d k = Some v.
Proof.
  induction d as [|[k' v'] d IH]; simpl; intros Hnd Hin; [inversion Hin|].
  apply NoDup_cons in Hnd as [Hfresh Hnd].
  apply elem_of_cons in Hin as [Heq|Hin].
  - injection Heq as <- <-. destruct (decide (k = k)); [reflexivity|contradiction].
  - destruct (decide (k' = k)) as [->|Hne]; [|apply IH; assumption].
    exfalso. apply Hfresh. apply list_elem_of_fmap. exists (k, v). auto.
Qed.

Lemma list_comprehension_fmap {A B} (f : A → result B) (g : A → B) (xs : list A) :
  Forall (fun x => f x = Ok (g x)) xs →
  list_comprehension f xs = Ok (g <$> xs).
Proof.
  induction 1 as [|x xs Hx _ IH]; simpl; [reflexivity|].
  rewrite Hx, IH. reflexivity.
Qed.







(** *** Sequences *)


(** *** Mappings *)


(** *** Records *)




#[local] Instance VStr_inj : Inj (=) (=) VStr.
Proof. intros s1 s2 Heq. injection Heq as ->. reflexivity. Qed.







(** *** The law *)



End RoundTrip.

(** * Further properties *)

(** ** Registration *)

Section Registration.
Context `{PyLib} `{PyStr}.

(** The methods [ServiceDefinition.__init__] keeps: the attributes that are
    public and callable. *)
Lemma methods_public_callable (name : string) (instance : service_object)
    (mn : string) (m : MethodDefinition) :
  (mn, m) ∈ methods (new_ServiceDefinition name (fun _ => instance))
  ↔ ∃ f, (mn, Method f) ∈ instance ∧ String.prefix "_" mn = false
         ∧ m = {| method_name := mn; func := f |}.
Proof.
  unfold new_ServiceDefinition. cbn [methods].
  rewrite list_elem_of_omap. split.
  - intros ([n a] & Hin & Hsome). cbn [fst snd] in Hsome.
    destruct (String.prefix "_" n) eqn:Hpub; [discriminate|].
    destruct a as [f|v]; [|discriminate]. injection Hsome as <- <-. eauto.
  - intros (f & Hin & Hpub & ->). exists (mn, Method f). split; [exact Hin|].
    cbn [fst snd]. rewrite Hpub. reflexivity.
Qed.

Lemma methods_names (name : string) (instance : service_object) :
  NoDup (fst <$> instance) →
  NoDup (fst <$> methods (new_ServiceDefinition name (fun _ => instance))).
Proof.
  unfold new_ServiceDefinition. cbn [methods].
  induction instance as [|[n a] instance IH]; [constructor|].
  rewrite fmap_cons, NoDup_cons. cbn [fst]. intros [Hfresh Hnd]. simpl.
  destruct (String.prefix "_" n); [apply IH, Hnd|].
  destruct a as [f|v]; [|apply IH, Hnd].
  simpl. apply NoDup_cons. split; [|apply IH, Hnd].
  intros Hin. apply Hfresh. apply list_elem_of_fmap in Hin as ([n' m] & -> & Hin).
  apply list_elem_of_omap in Hin as ([n'' a] & Hin & Hsome). cbn [fst snd] in Hsome.
  destruct (String.prefix "_" n''); [discriminate|].
  destruct a; [|discriminate]. injection Hsome as <- <-.
  apply list_elem_of_fmap. exists (n'', Method f0). auto.
Qed.

Lemma index_methods_cons (name : string) (defs : gmap string MethodDefinition)
    (entry : string * MethodDefinition) (entries : list (string * MethodDefinition)) :
  index_methods name defs (entry :: entries)
  = index_methods name (<[name ++ "." ++ fst entry := snd entry]> defs) entries.
Proof. reflexivity. Qed.

Lemma index_methods_other (name : string) (entries : list (string * MethodDefinition))
    (defs : gmap string MethodDefinition) (key : string) :
  (∀ mn m, (mn, m) ∈ entries → key ≠ name ++ "." ++ mn) →
  index_methods name defs entries !! key = defs !! key.
Proof.
  revert defs. induction entries as [|[mn m] entries IH]; intros defs Hne;
    [reflexivity|].
  rewrite index_methods_cons, IH. cbn [fst snd].
  - apply lookup_insert_ne. intros Heq. apply (Hne mn m); [left|auto].
  - intros mn' m' Hin. apply (Hne mn' m'). right. exact Hin.
Qed.

Lemma index_methods_lookup (name : string) (entries : list (string * MethodDefinition))
    (defs : gmap string MethodDefinition) (mn : string) (m : MethodDefinition) :
  NoDup (fst <$> entries) →
  (mn, m) ∈ entries →
  index_methods name defs entries !! (name ++ "." ++ mn) = Some m.
Proof.
  revert defs. induction entries as [|[mn' m'] entries IH]; intros defs Hnd Hin;
    [inversion Hin|].
  rewrite fmap_cons, NoDup_cons in Hnd. destruct Hnd as [Hfresh Hnd].
  rewrite index_methods_cons. cbn [fst snd].
  apply elem_of_cons in Hin as [Heq|Hin].
  - injection Heq as <- <-. rewrite index_methods_other.
    + apply lookup_insert_eq.
    + intros mn'' m'' Hin Heq. apply Hfresh.
      apply String.app_inj in Heq. apply String.app_inj in Heq. subst mn''.
      apply list_elem_of_fmap. exists (mn, m''). auto.
  - apply IH; assumption.
Qed.

Lemma register_service_index (self : JsonRpcRegistry) (name : string)
    (service_instancier : unit → service_object) :
  _method_definitions (register_service self name service_instancier)
  = index_methods name (_method_definitions self)
      (methods (new_ServiceDefinition name (fun _ => service_instancier tt))).
Proof. reflexivity. Qed.

Lemma register_service_key_other (self : JsonRpcRegistry) (name : string)
    (service_instancier : unit → service_object) (key : string) :
  (∀ mn f, (mn, Method f) ∈ service_instancier tt →
           String.prefix "_" mn = false → key ≠ name ++ "." ++ mn) →
  _method_definitions (register_service self name service_instancier) !! key
  = _method_definitions self !! key.
Proof.
  intros Hne. rewrite register_service_index. apply index_methods_other.
  intros mn m Hin. apply methods_public_callable in Hin as (f & Hin & Hpub & _).
  eapply Hne; eassumption.
Qed.

Lemma register_service_key (self : JsonRpcRegistry) (name : string)
    (service_instancier : unit → service_object) (mn : string) (f : bound_method) :
  NoDup (fst <$> service_instancier tt) →
  (mn, Method f) ∈ service_instancier tt →
  String.prefix "_" mn = false →
  _method_definitions (register_service self name service_instancier)
    !! (name ++ "." ++ mn)
  = Some {| method_name := mn; func := f |}.
Proof.
  intros Hnd Hin Hpub. rewrite register_service_index.
  apply index_methods_lookup; [apply methods_names, Hnd|].
  apply methods_public_callable. eauto.
Qed.

(** X1. After [register_service], every public callable of the service
    object (names as [dir] lists them, each once) is found in the method
    table under service name, dot, method name, with the callable itself,
    and [get] returns the service object. *)
Theorem register_service_lookup (self : JsonRpcRegistry) (name : string)
    (service_instancier : unit → service_object) (mn : string) (f : bound_method) :
  NoDup (fst <$> service_instancier tt) →
  (mn, Method f) ∈ service_instancier tt →
  String.prefix "_" mn = false →
  _method_definitions (register_service self name service_instancier)
    !! (name ++ "." ++ mn)
  = Some {| method_name := mn; func := f |}
  ∧ get (register_service self name service_instancier) name
    = Some (service_instancier tt).
Proof.
  intros Hnd Hin Hpub. split; [apply register_service_key; assumption|].
  unfold get, register_service. cbn [_service_definitions].
  rewrite lookup_insert_eq. reflexivity.
Qed.

(** X2. [register_service] changes the method table only at the keys of the
    public callables of the new service object: every other key resolves as
    before, among them the keys of its private names (a leading underscore),
    of its attributes that are not callable, and of methods a service
    registered earlier under the same name had and the new one lacks; the
    services registered under other names stay as they are. *)
Theorem register_service_elsewhere :
  (∀ (self : JsonRpcRegistry) (name : string)
     (service_instancier : unit → service_object) (key : string),
     (∀ mn f, (mn, Method f) ∈ service_instancier tt →
              String.prefix "_" mn = false → key ≠ name ++ "." ++ mn) →
     _method_definitions (register_service self name service_instancier) !! key
     = _method_definitions self !! key)
  ∧ (∀ (self : JsonRpcRegistry) (name : string)
       (service_instancier : unit → service_object) (mn : string),
       String.prefix "_" mn = true
       ∨ (∀ f, (mn, Method f) ∉ service_instancier tt) →
       _method_definitions (register_service self name service_instancier)
         !! (name ++ "." ++ mn)
       = _method_definitions self !! (name ++ "." ++ mn))
  ∧ (∀ (self : JsonRpcRegistry) (name other : string)
       (service_instancier : unit → service_object),
       other ≠ name →
       get (register_service self name service_instancier) other = get self other).
Proof.
  split; [exact register_service_key_other|]. split.
  - intros self name service_instancier mn Hcase.
    apply register_service_key_other. intros mn' f Hin Hpub Heq.
    apply String.app_inj in Heq. apply String.app_inj in Heq. subst mn'.
    destruct Hcase as [Hpriv|Hnone]; [congruence|]. exact (Hnone f Hin).
  - intros self name other service_instancier Hne.
    unfold get, register_service. cbn [_service_definitions].
    rewrite lookup_insert_ne by congruence. reflexivity.
Qed.

(** X3. [get] after [set] returns the service object just set, whether the
    name was registered before or not, and [set] leaves the services under
    other names as they are. *)
Theorem get_set :
  (∀ (self : JsonRpcRegistry) (name : string) (service : service_object),
     get (set self name service) name = Some service)
  ∧ (∀ (self : JsonRpcRegistry) (name other : string) (service : service_object),
       other ≠ name →
       get (set self name service) other = get self other).
Proof.
  split.
  - intros self name service. unfold get, set.
    destruct (_service_definitions self !! name) as [definition|];
      cbn [_service_definitions register_service]; rewrite lookup_insert_eq;
      reflexivity.
  - intros self name other service Hne. unfold get, set.
    destruct (_service_definitions self !! name) as [definition|];
      cbn [_service_definitions register_service];
      rewrite lookup_insert_ne by congruence; reflexivity.
Qed.

(** X4. [set] on a name that is already registered replaces the service
    object only: the method table keeps the callables of the object
    registered first, so every request is answered as before. *)
Theorem set_keeps_methods (self : JsonRpcRegistry) (name : string)
    (service : service_object) :
  is_Some (_service_definitions self !! name) →
  _method_definitions (set self name service) = _method_definitions self
  ∧ (∀ payload,
       _execute_request (set self name service) payload
       = _execute_request self payload)
  ∧ (∀ definition,
       _service_definitions self !! name = Some definition →
       ∃ definition',
         _service_definitions (set self name service) !! name = Some definition'
         ∧ methods definition' = methods definition
         ∧ service_instance definition' = service).
Proof.
  intros [definition Hdef].
  assert (Hsame : _method_definitions (set self name service)
                  = _method_definitions self)
    by (unfold set; rewrite Hdef; reflexivity).
  split; [exact Hsame|]. split.
  - intros payload. unfold _execute_request, method_definitions_get.
    rewrite Hsame. reflexivity.
  - intros definition0 Hdef0. rewrite Hdef in Hdef0. injection Hdef0 as <-.
    unfold set. rewrite Hdef. cbn [_service_definitions].
    rewrite lookup_insert_eq. eexists. split; [reflexivity|]. split; reflexivity.
Qed.

(** X5. A class decorated with [jsonrpc_service] with no name, or with the
    empty name, is registered under its class name with the first letter in
    lower case, and its public methods are found under that name; with a
    name that is not empty it is registered under that name; the service
    object is what the instancier returns, or an instance of the class when
    no instancier is given; the decorator returns the class. *)
Theorem decorated_service :
  (∀ (registry : JsonRpcRegistry) (cls : pyclass) (given : decorator_name)
     (mn : string) (f : bound_method),
     given = NameNone ∨ given = NameStr "" →
     NoDup (fst <$> instantiate cls tt) →
     (mn, Method f) ∈ instantiate cls tt →
     String.prefix "_" mn = false →
     _method_definitions (fst (decorate (new_jsonrpc_service given None) cls registry))
       !! (lower_first (class_name cls) ++ "." ++ mn)
     = Some {| method_name := mn; func := f |}
     ∧ get (fst (decorate (new_jsonrpc_service given None) cls registry))
         (lower_first (class_name cls))
       = Some (instantiate cls tt)
     ∧ snd (decorate (new_jsonrpc_service given None) cls registry) = cls)
  ∧ (∀ (registry : JsonRpcRegistry) (cls : pyclass) (name : string)
       (service_instancier : unit → service_object) (mn : string) (f : bound_method),
       name ≠ "" →
       NoDup (fst <$> service_instancier tt) →
       (mn, Method f) ∈ service_instancier tt →
       String.prefix "_" mn = false →
       _method_definitions
         (fst (decorate (new_jsonrpc_service (NameStr name) (Some service_instancier))
                 cls registry))
         !! (name ++ "." ++ mn)
       = Some {| method_name := mn; func := f |}
       ∧ get (fst (decorate
                     (new_jsonrpc_service (NameStr name) (Some service_instancier))
                     cls registry)) name
         = Some (service_instancier tt)).
Proof.
  split.
  - intros registry cls given mn f Hgiven Hnd Hin Hpub.
    assert (Hreg : fst (decorate (new_jsonrpc_service given None) cls registry)
                   = register_service registry (lower_first (class_name cls))
                       (fun _ => instantiate cls tt))
      by (destruct Hgiven as [->| ->]; reflexivity).
    rewrite Hreg. split; [apply register_service_key; assumption|].
    split; [|destruct Hgiven as [->| ->]; reflexivity].
    unfold get, register_service. cbn [_service_definitions].
    rewrite lookup_insert_eq. reflexivity.
  - intros registry cls name service_instancier mn f Hname Hnd Hin Hpub.
    assert (Hreg : fst (decorate (new_jsonrpc_service (NameStr name)
                                    (Some service_instancier)) cls registry)
                   = register_service registry name service_instancier)
      by (destruct name; [congruence|reflexivity]).
    rewrite Hreg. split; [apply register_service_key; assumption|].
    unfold get, register_service. cbn [_service_definitions].
    rewrite lookup_insert_eq. reflexivity.
Qed.

End Registration.

(** ** The encoder's output *)

Section Encoder.
Context `{PyLib}.

Lemma shaped_dict (others : bool) (d : pydict) :
  shaped others (VDict d) = true ↔ shaped_items others d.
Proof.
  unfold shaped_items. simpl. rewrite andb_true_iff, bool_decide_eq_true.
  apply and_iff_compat_r. rewrite forallb_forall, Forall_forall.
  split; intros Hall kv Hin.
  - apply andb_true_iff. apply Hall, list_elem_of_In, Hin.
  - apply andb_true_iff. apply Hall, list_elem_of_In, Hin.
Qed.

Lemma shaped_list (others : bool) (xs : list pyval) :
  shaped others (VList xs) = true ↔ Forall (fun x => shaped others x = true) xs.
Proof.
  simpl. rewrite forallb_forall, Forall_forall.
  split; intros Hall x Hin; apply Hall, list_elem_of_In, Hin.
Qed.

Lemma key_shaped_of_hashable (others : bool) (k : pyval) :
  shaped others k = true → hashable k = true → key_shaped others k = true.
Proof. destruct k; simpl; try congruence. intros -> ->. reflexivity. Qed.

Lemma key_shaped_hashable (others : bool) (k : pyval) :
  key_shaped others k = true → hashable k = true.
Proof.
  destruct k; simpl; try congruence. intros Hk. apply andb_prop in Hk as [_ Hk].
  exact Hk.
Qed.

Lemma key_shaped_shaped (others : bool) (k : pyval) :
  key_shaped others k = true → shaped others k = true.
Proof.
  destruct k; simpl; try congruence. intros Hk. apply andb_prop in Hk as [Hk _].
  exact Hk.
Qed.

(** A JSON value is an encoded value. *)
Lemma wire_encoded (v : pyval) : is_wire v = true → is_encoded v = true.
Proof.
  unfold is_wire, is_encoded.
  induction v as
    [ | b | n | x | s | xs IH | xs IH | xs IH | items IH | cls fields IH
      | d | t | q | cls r IH | cls h i ] using pyval_nested_ind;
    try discriminate; try reflexivity.
  - rewrite !shaped_list. intros Hall. rewrite Forall_forall in IH, Hall |- *.
    intros x Hx. apply IH; auto.
  - rewrite !shaped_dict. intros [Hall Hnd]. split; [|exact Hnd].
    rewrite Forall_forall in IH, Hall |- *. intros [k v] Hin.
    destruct (IH _ Hin) as [_ IHv]. destruct (Hall _ Hin) as [Hk Hv].
    cbn [fst snd] in *. split; [|apply IHv, Hv].
    destruct k; try discriminate; reflexivity.
Qed.

Lemma dict_replace_keys (d : pydict) (k v : pyval) :
  fst <$> dict_replace d k v
  = if bool_decide (k ∈ fst <$> d) then fst <$> d else ((fst <$> d) ++ [k])%list.
Proof.
  induction d as [|[k' v'] d IH]; [reflexivity|].
  cbn [dict_replace]. destruct (decide (k' = k)) as [->|Hne].
  - rewrite bool_decide_eq_true_2 by (rewrite fmap_cons; left). reflexivity.
  - rewrite !fmap_cons, IH. cbn [fst].
    destruct (decide (k ∈ fst <$> d)) as [Hin|Hout].
    + rewrite !bool_decide_eq_true_2; [reflexivity|right; exact Hin|exact Hin].
    + rewrite !bool_decide_eq_false_2; [reflexivity| |exact Hout].
      intros Hin. apply elem_of_cons in Hin as [->|Hin]; contradiction.
Qed.

Lemma dict_replace_shaped (others : bool) (d : pydict) (k v : pyval) :
  shaped_items others d → key_shaped others k = true → shaped others v = true →
  shaped_items others (dict_replace d k v).
Proof.
  intros [Hall Hnd] Hk Hv. split.
  - clear Hnd. induction Hall as [|[k' v'] d [Hk' Hv'] Hd IH]; cbn [dict_replace].
    + constructor; [split; assumption|constructor].
    + destruct (decide (k' = k)); constructor; cbn [fst snd] in *; auto.
  - rewrite dict_replace_keys. destruct (decide (k ∈ fst <$> d)) as [Hin|Hout].
    + rewrite bool_decide_eq_true_2 by exact Hin. exact Hnd.
    + rewrite bool_decide_eq_false_2 by exact Hout.
      apply NoDup_app. split; [exact Hnd|]. split; [|apply NoDup_singleton].
      intros x Hx Hx'. apply list_elem_of_singleton in Hx'. subst x. contradiction.
Qed.

Lemma dict_comprehension_shaped {A} (others : bool) (fk fv : A → result pyval)
    (xs : list A) :
  Forall (fun x => (∀ k, fk x = Ok k → shaped others k = true)
                   ∧ (∀ v, fv x = Ok v → shaped others v = true)) xs →
  ∀ acc d, shaped_items others acc →
           dict_comprehension fk fv xs acc = Ok d → shaped_items others d.
Proof.
  induction 1 as [|x xs [Hk Hv] _ IH]; intros acc d Hacc; simpl.
  - intros Hd. injection Hd as <-. exact Hacc.
  - destruct (fk x) as [k|] eqn:Hfk; [|discriminate].
    destruct (fv x) as [v|] eqn:Hfv; [|discriminate].
    unfold dict_setitem. destruct (hashable k) eqn:Hh; [|discriminate].
    apply IH. apply dict_replace_shaped; [exact Hacc| |auto].
    apply key_shaped_of_hashable; auto.
Qed.

Lemma list_comprehension_all {A B} (f : A → result B) (P : B → Prop) (xs : list A) :
  Forall (fun x => ∀ y, f x = Ok y → P y) xs →
  ∀ ys, list_comprehension f xs = Ok ys → Forall P ys.
Proof.
  induction 1 as [|x xs Hx _ IH]; intros ys; simpl.
  - intros Hys. injection Hys as <-. constructor.
  - destruct (f x) as [y|] eqn:Hfx; [|discriminate].
    destruct (list_comprehension f xs) as [ys'|]; [|discriminate].
    intros Hys. injection Hys as <-. constructor; auto.
Qed.

Lemma shaped_items_nil (others : bool) : shaped_items others [].
Proof. split; constructor. Qed.

(** What the encoder returns is encoded; it is a JSON value when the value
    holds no object of another class. *)
Lemma default_shaped (others : bool) (obj : pyval) :
  others || plain obj = true →
  ∀ w, default obj = Ok w → shaped others w = true.
Proof.
  induction obj as
    [ | b | n | x | s | xs IH | xs IH | xs IH | items IH | cls fields IH
      | d | t | q | cls r IH | cls h i ] using pyval_nested_ind;
    intros Hadm w; simpl;
    try (intros Hw; injection Hw as <-; reflexivity).
  - destruct (list_comprehension default xs) as [ys|] eqn:Hys; [|discriminate].
    intros Hw. injection Hw as <-. apply shaped_list.
    eapply list_comprehension_all; [|exact Hys].
    rewrite Forall_forall in IH |- *. intros x Hx. apply IH; [exact Hx|].
    destruct others; [reflexivity|]. simpl in Hadm |- *.
    rewrite forallb_forall in Hadm. apply Hadm, list_elem_of_In, Hx.
  - destruct (list_comprehension default xs) as [ys|] eqn:Hys; [|discriminate].
    intros Hw. injection Hw as <-. apply shaped_list.
    eapply list_comprehension_all; [|exact Hys].
    rewrite Forall_forall in IH |- *. intros x Hx. apply IH; [exact Hx|].
    destruct others; [reflexivity|]. simpl in Hadm |- *.
    rewrite forallb_forall in Hadm. apply Hadm, list_elem_of_In, Hx.
  - destruct (list_comprehension default xs) as [ys|] eqn:Hys; [|discriminate].
    intros Hw. injection Hw as <-. apply shaped_list.
    eapply list_comprehension_all; [|exact Hys].
    rewrite Forall_forall in IH |- *. intros x Hx. apply IH; [exact Hx|].
    destruct others; [reflexivity|]. simpl in Hadm |- *.
    rewrite forallb_forall in Hadm. apply Hadm, list_elem_of_In, Hx.
  - destruct (dict_comprehension _ _ items []) as [d|] eqn:Hd; [|discriminate].
    intros Hw. injection Hw as <-. apply shaped_dict.
    eapply dict_comprehension_shaped; [|apply shaped_items_nil|exact Hd].
    rewrite Forall_forall in IH |- *. intros kv Hin.
    destruct (IH _ Hin) as [IHk IHv].
    assert (Hkv : others || plain (fst kv) = true ∧ others || plain (snd kv) = true).
    { destruct others; [split; reflexivity|]. simpl in Hadm |- *.
      rewrite forallb_forall in Hadm.
      apply andb_prop. apply Hadm, list_elem_of_In, Hin. }
    destruct Hkv as [Hk Hv]. split; [apply IHk, Hk|apply IHv, Hv].
  - destruct (dict_comprehension _ _ fields []) as [d|] eqn:Hd; [|discriminate].
    intros Hw. injection Hw as <-. apply shaped_dict.
    eapply dict_comprehension_shaped; [|apply shaped_items_nil|exact Hd].
    rewrite Forall_forall in IH |- *. intros f Hin. split.
    + intros k Hk. injection Hk as <-. reflexivity.
    + apply IH; [exact Hin|]. destruct others; [reflexivity|]. simpl in Hadm |- *.
      rewrite forallb_forall in Hadm. apply Hadm, list_elem_of_In, Hin.
  - unfold to_dict_Decimal. destruct (float_of_Decimal q); [discriminate|].
    intros Hw. injection Hw as <-. reflexivity.
  - destruct r; try discriminate. apply IH. exact Hadm.
  - intros Hw. injection Hw as <-. simpl in Hadm |- *.
    rewrite orb_false_r in Hadm. exact Hadm.
Qed.

(** The encoder returns an encoded value as it is. *)
Lemma shaped_default (others : bool) (w : pyval) :
  shaped others w = true → default w = Ok w.
Proof.
  induction w as
    [ | b | n | x | s | xs IH | xs IH | xs IH | items IH | cls fields IH
      | d | t | q | cls r IH | cls h i ] using pyval_nested_ind;
    try discriminate; try reflexivity.
  - intros Hw. apply shaped_list in Hw. simpl.
    rewrite (list_comprehension_fmap default id xs).
    + rewrite list_fmap_id. reflexivity.
    + rewrite Forall_forall in IH, Hw |- *. intros x Hx. apply IH; auto.
  - intros Hw. apply shaped_dict in Hw as [Hall Hnd]. simpl.
    rewrite (dict_comprehension_fresh _ _ items items []); [reflexivity| |exact Hnd].
    apply Forall_Forall2_diag. rewrite Forall_forall in IH, Hall |- *.
    intros [k v] Hin. destruct (IH _ Hin) as [IHk IHv].
    destruct (Hall _ Hin) as [Hk Hv]. cbn [fst snd] in *.
    split; [apply IHk, (key_shaped_shaped _ _ Hk)|].
    split; [apply IHv, Hv|apply (key_shaped_hashable _ _ Hk)].
Qed.

Lemma default_is_encoded (obj w : pyval) :
  default obj = Ok w → is_encoded w = true.
Proof. apply (default_shaped true). reflexivity. Qed.

Lemma encoded_default (w : pyval) : is_encoded w = true → default w = Ok w.
Proof. apply shaped_default. Qed.

(** X6. Whatever [to_dict] returns holds no tuple, set, dataclass instance,
    datetime, timedelta, Decimal or object with a to_dict method: it is made
    of None, bools, ints, floats, strs, lists, dicts with distinct keys, and
    those objects of other classes (a date, an Enum member, a plain
    instance) that the encoder returns as they are.  When the value encoded
    holds no object of another class, the result is a JSON value. *)
Theorem to_dict_wire :
  (∀ obj w : pyval, to_dict obj = Ok w → is_encoded w = true)
  ∧ (∀ obj w : pyval, plain obj = true → to_dict obj = Ok w → is_wire w = true).
Proof.
  split.
  - apply default_is_encoded.
  - intros obj w Hplain. apply (default_shaped false). exact Hplain.
Qed.

(** X7. Encoding is idempotent, and the values [to_dict] returns unchanged
    are exactly the encoded values: [to_dict] applied to its own result
    returns that result, and [to_dict w] is [w] if and only if [w] is made
    of None, bools, ints, floats, strs, objects of other classes, lists, and
    dicts with distinct keys that are scalars or hashable objects of other
    classes. *)
Theorem to_dict_idempotent :
  (∀ obj w : pyval, to_dict obj = Ok w → to_dict w = Ok w)
  ∧ (∀ w : pyval, to_dict w = Ok w ↔ is_encoded w = true).
Proof.
  split.
  - intros obj w Hw. apply encoded_default. eapply default_is_encoded. exact Hw.
  - intros w. split; [apply default_is_encoded|apply encoded_default].
Qed.

End Encoder.

(** ** What a response is made of *)

Section Responses.
Context `{PyLib}.

#[local] Instance well_formed_decision (payload : pyval) : Decision (well_formed payload).
Proof. unfold well_formed. apply _. Defined.

Lemma append_nil_r (s : string) : s ++ "" = s.
Proof.
  induction s as [|c s IH]; [reflexivity|].
  change (String c (s ++ "") = String c s). rewrite IH. reflexivity.
Qed.

Lemma append_assoc (s1 s2 s3 : string) : (s1 ++ s2) ++ s3 = s1 ++ s2 ++ s3.
Proof.
  induction s1 as [|c s1 IH]; [reflexivity|].
  change (String c ((s1 ++ s2) ++ s3) = String c (s1 ++ s2 ++ s3)).
  rewrite IH. reflexivity.
Qed.

(** The message of an error built from an exception ends with [str(e)]; it
    starts with the place of the innermost frame when there is a traceback. *)
Lemma make_error_exception_text (code : Z) (e : exn) (id : pyval) :
  ∃ place,
    _make_error code None (Some e) id
    = Ok (Error_envelope code (place ++ exn_str e) (error_id id)).
Proof.
  unfold _make_error. simpl.
  destruct (innermost_frame e) as [[[|c filename] lineno]|].
  - exists "". destruct id; reflexivity.
  - exists ("[" ++ basename (String c filename) ++ ":" ++ pretty lineno ++ "] ").
    rewrite !append_assoc. destruct id; reflexivity.
  - exists "". destruct id; reflexivity.
Qed.

Lemma dict_lookup_Some (d : pydict) (k v : pyval) :
  dict_lookup d k = Some v → (k, v) ∈ d.
Proof.
  induction d as [|[k' v'] d IH]; simpl; [discriminate|].
  destruct (decide (k' = k)) as [->|Hne].
  - intros Hv. injection Hv as <-. left.
  - intros Hv. right. apply IH, Hv.
Qed.

Lemma wire_member (items : pydict) (key : string) (v : pyval) :
  is_wire (VDict items) = true →
  envelope_get (VDict items) key = Some v →
  is_wire v = true.
Proof.
  intros Hw Hv. apply shaped_dict in Hw as [Hall _].
  apply dict_lookup_Some in Hv. rewrite Forall_forall in Hall.
  destruct (Hall _ Hv) as [_ Hwire]. exact Hwire.
Qed.

Lemma error_id_wire (id : pyval) :
  is_wire id = true → ∀ i, error_id id = Some i → is_wire i = true.
Proof. intros Hid i Hi. destruct id; try discriminate; injection Hi as <-; exact Hid. Qed.

Lemma Error_envelope_wire (code : Z) (message : string) (id : option pyval) :
  (∀ i, id = Some i → is_wire i = true) →
  is_wire (Error_envelope code message id) = true.
Proof.
  intros Hid. unfold is_wire in *. destruct id as [i|].
  - unfold Error_envelope. cbn. rewrite (Hid i eq_refl). vm_compute. reflexivity.
  - vm_compute. reflexivity.
Qed.

Lemma Result_envelope_shaped (others : bool) (w id : pyval) :
  shaped others w = true → shaped others id = true →
  shaped others (Result_envelope w id) = true.
Proof.
  intros Hw Hid. unfold Result_envelope. cbn. rewrite Hw, Hid.
  vm_compute. reflexivity.
Qed.

(** What a well-formed request is answered with: the encoding of a result,
    or an error. *)
Lemma execute_outcome (self : JsonRpcRegistry) (items : pydict) (id r : pyval) :
  well_formed (VDict items) →
  envelope_get (VDict items) "id" = Some id →
  _execute_request self (VDict items) = Ok r →
  (∃ result w, to_dict result = Ok w ∧ r = Result_envelope w id)
  ∨ (∃ code message, r = Error_envelope code message (error_id id)).
Proof.
  intros Hwf Hid. pose proof Hwf as (_ & [method Hmethod] & [params Hparams] & _).
  unfold _execute_request. rewrite (check_request_ok _ Hwf).
  rewrite (getitem_member _ _ _ Hmethod), (getitem_member _ _ _ Hid).
  destruct (method_definitions_get self method) as [[m|]|e]; [| |discriminate].
  - pose proof (bind_params_cases m items params id Hparams Hid) as Hbind.
    destruct (bind_params m (VDict items)) as [[result_maker|response]|e].
    + destruct (result_maker tt) as [result|e].
      * destruct (to_dict result) as [encoded|e] eqn:Henc.
        -- intros Hr. injection Hr as <-. left. eauto.
        -- destruct (is_Exception (exn_class e)); [|discriminate].
           destruct (make_error_exception (-32000) e id) as [message ->].
           intros Hr. injection Hr as <-. right. eauto.
      * destruct (is_Exception (exn_class e)); [|discriminate].
        destruct (make_error_exception (-32000) e id) as [message ->].
        intros Hr. injection Hr as <-. right. eauto.
    + intros Hr. injection Hr as <-. right. eauto.
    + rewrite Hbind.
      destruct (make_error_exception (-32602) e id) as [message ->].
      intros Hr. injection Hr as <-. right. eauto.
  - rewrite make_error_message by discriminate.
    intros Hr. injection Hr as <-. right. eauto.
Qed.

(** The response to a JSON object is encoded, and an Error envelope is a
    JSON value. *)
Lemma response_shape (self : JsonRpcRegistry) (items : pydict) (r : pyval) :
  is_wire (VDict items) = true →
  _execute_request self (VDict items) = Ok r →
  is_encoded r = true ∧ (is_Error r = true → is_wire r = true).
Proof.
  intros Hw Hrun.
  destruct (decide (well_formed (VDict items))) as [Hwf|Hbad].
  - pose proof Hwf as (_ & _ & _ & [id Hid]).
    pose proof (wire_member _ _ _ Hw Hid) as Hidw.
    destruct (execute_outcome self items id r Hwf Hid Hrun)
      as [(result & w & Henc & ->) | (code & message & ->)].
    + split; [|discriminate].
      apply Result_envelope_shaped; [|apply wire_encoded, Hidw].
      eapply default_is_encoded, Henc.
    + assert (Hr : is_wire (Error_envelope code message (error_id id)) = true)
        by apply Error_envelope_wire, error_id_wire, Hidw.
      split; [apply wire_encoded, Hr|intros _; exact Hr].
  - destruct (check_request_bad items Hbad) as (message & Hne & Hcheck).
    unfold _execute_request in Hrun. rewrite Hcheck in Hrun. simpl in Hrun.
    rewrite (make_error_message _ _ VNone Hne) in Hrun. injection Hrun as <-.
    assert (Hr : is_wire (Error_envelope (-32600) message None) = true)
      by (apply Error_envelope_wire; discriminate).
    split; [apply wire_encoded, Hr|intros _; exact Hr].
Qed.

(** [to_json] of an encoded value is [json.dumps] of that value. *)
Lemma to_json_encoded (r : pyval) :
  is_encoded r = true → to_json r = lib TypeError (json_dumps r).
Proof.
  intros Hr. unfold to_json, to_dict. rewrite (encoded_default _ Hr). reflexivity.
Qed.

(** X8. The response to a JSON object needs no encoding: its result member
    is encoded already, its id is the one of the request, the rest is strs
    and an int.  So the encoding pass of [to_json] over a response changes
    nothing, and [to_json] hands the response itself to [json.dumps].  An
    Error envelope is made of JSON values only; a Result envelope is, but
    for the objects of other classes that the method returned and the
    encoder let through. *)
Theorem response_wire (self : JsonRpcRegistry) (items : pydict) (r : pyval) :
  is_wire (VDict items) = true →
  _execute_request self (VDict items) = Ok r →
  is_encoded r = true
  ∧ (is_Error r = true → is_wire r = true)
  ∧ to_dict r = Ok r
  ∧ to_json r = lib TypeError (json_dumps r).
Proof.
  intros Hw Hrun. destruct (response_shape self items r Hw Hrun) as [Hr Herr].
  split; [exact Hr|]. split; [exact Herr|].
  split; [apply encoded_default, Hr|apply to_json_encoded, Hr].
Qed.

Lemma parse_args_list_inv (m : MethodDefinition) (args decoded : list pyval) :
  parse_args_list m args = Ok decoded →
  length decoded = length (parameters (func m))
  ∧ convert_zip args (arg_types m) = Ok decoded.
Proof.
  unfold parse_args_list. destruct (decide _) as [|Hlen]; [discriminate|].
  intros Hconv. split; [|exact Hconv].
  assert (Hlen' : length args = length (arg_types m))
    by (destruct (decide (length args = length (arg_types m))); [assumption|contradiction]).
  rewrite (convert_zip_length _ _ _ Hlen' Hconv), Hlen'. apply arg_types_length.
Qed.

(** The second [try] block, for a [result_maker] that fails with [e]. *)
Lemma execute_failure (self : JsonRpcRegistry) (items : pydict) (key : string)
    (m : MethodDefinition) (id : pyval) (result_maker : unit → result pyval)
    (e : exn) :
  well_formed (VDict items) →
  envelope_get (VDict items) "method" = Some (VStr key) →
  _method_definitions self !! key = Some m →
  envelope_get (VDict items) "id" = Some id →
  bind_params m (VDict items) = Ok (inl result_maker) →
  (r <- result_maker tt;; to_dict r) = Raise e →
  if is_Exception (exn_class e)
  then ∃ place,
         _execute_request self (VDict items)
         = Ok (Error_envelope (-32000) (place ++ exn_str e) (error_id id))
  else _execute_request self (VDict items) = Raise e.
Proof.
  intros Hwf Hmethod Hsome Hid Hbind Hfail.
  unfold _execute_request. rewrite (check_request_ok _ Hwf).
  rewrite (getitem_member _ _ _ Hmethod), (getitem_member _ _ _ Hid).
  rewrite resolve_str, Hsome, Hbind.
  destruct (result_maker tt) as [r|e'].
  - rewrite Hfail. destruct (is_Exception (exn_class e)); [|reflexivity].
    apply make_error_exception_text.
  - injection Hfail as ->. destruct (is_Exception (exn_class e)); [|reflexivity].
    apply make_error_exception_text.
Qed.

(** X9. When the arguments of a positional call decode and the call of the
    method then raises [e], or returns a value whose encoding raises [e]: if
    [e] is an [Exception], the answer is an Error envelope of code -32000
    whose message ends with [str(e)] and which carries the id of the request
    unless it is null; if it is not (SystemExit, KeyboardInterrupt), no
    answer is built and [e] leaves [_execute_request].  For a method every
    parameter of which takes a positional argument, the call raises what
    the body raises on the decoded arguments. *)
Theorem method_failure :
  (∀ (self : JsonRpcRegistry) (items : pydict) (key : string)
     (m : MethodDefinition) (args decoded : list pyval) (id : pyval) (e : exn),
     well_formed (VDict items) →
     envelope_get (VDict items) "method" = Some (VStr key) →
     _method_definitions self !! key = Some m →
     envelope_get (VDict items) "params" = Some (VList args) →
     envelope_get (VDict items) "id" = Some id →
     parse_args_list m args = Ok decoded →
     get_invoker m decoded [] = Raise e
     ∨ (∃ r, get_invoker m decoded [] = Ok r ∧ to_dict r = Raise e) →
     if is_Exception (exn_class e)
     then ∃ place,
            _execute_request self (VDict items)
            = Ok (Error_envelope (-32000) (place ++ exn_str e) (error_id id))
     else _execute_request self (VDict items) = Raise e)
  ∧ (∀ (self : JsonRpcRegistry) (items : pydict) (key : string)
       (m : MethodDefinition) (args decoded : list pyval) (id : pyval) (e : exn),
       well_formed (VDict items) →
       envelope_get (VDict items) "method" = Some (VStr key) →
       _method_definitions self !! key = Some m →
       envelope_get (VDict items) "params" = Some (VList args) →
       envelope_get (VDict items) "id" = Some id →
       parse_args_list m args = Ok decoded →
       all_positional (func m) = true →
       body (func m) decoded = Raise e
       ∨ (∃ r, body (func m) decoded = Ok r ∧ to_dict r = Raise e) →
       if is_Exception (exn_class e)
       then ∃ place,
              _execute_request self (VDict items)
              = Ok (Error_envelope (-32000) (place ++ exn_str e) (error_id id))
       else _execute_request self (VDict items) = Raise e).
Proof.
  assert (Hcall : ∀ self items key m args decoded id e,
            well_formed (VDict items) →
            envelope_get (VDict items) "method" = Some (VStr key) →
            _method_definitions self !! key = Some m →
            envelope_get (VDict items) "params" = Some (VList args) →
            envelope_get (VDict items) "id" = Some id →
            parse_args_list m args = Ok decoded →
            get_invoker m decoded [] = Raise e
            ∨ (∃ r, get_invoker m decoded [] = Ok r ∧ to_dict r = Raise e) →
            if is_Exception (exn_class e)
            then ∃ place,
                   _execute_request self (VDict items)
                   = Ok (Error_envelope (-32000) (place ++ exn_str e) (error_id id))
            else _execute_request self (VDict items) = Raise e).
  { intros self items key m args decoded id e
      Hwf Hmethod Hsome Hparams Hid Hparse Hfail.
    eapply (execute_failure self items key m id
              (fun _ => get_invoker m decoded [])); try eassumption.
    - unfold bind_params. rewrite (getitem_member _ _ _ Hparams), Hparse.
      reflexivity.
    - destruct Hfail as [-> | (r & -> & ->)]; reflexivity. }
  split; [exact Hcall|].
  intros self items key m args decoded id e
    Hwf Hmethod Hsome Hparams Hid Hparse Hpos Hfail.
  destruct (parse_args_list_inv _ _ _ Hparse) as [Hlen _].
  apply (Hcall self items key m args decoded id e); try assumption.
  unfold get_invoker. rewrite (call_positional _ _ Hpos Hlen). exact Hfail.
Qed.

(** X10. A payload that is not a JSON object.  For null, a bool or a number
    the first membership test raises TypeError, which no clause catches: no
    response is built, and [handle_request] raises as well.  A JSON array
    (a batch, in JSON-RPC) is answered with the Error envelope of code
    -32600 for an invalid version, without id, unless the str jsonrpc is
    one of its elements, in which case indexing it raises TypeError.  A JSON
    string is answered likewise unless it contains jsonrpc. *)
Theorem non_object_payload :
  (∀ (self : JsonRpcRegistry) (payload : pyval),
     payload = VNone ∨ (∃ b, payload = VBool b) ∨ (∃ n, payload = VInt n)
     ∨ (∃ x, payload = VFloat x) →
     ∃ message,
       _execute_request self payload = raise TypeError with message
       ∧ ∀ input_stream,
           json_loads (read input_stream) = inr payload →
           handle_request self input_stream "application/json"
           = raise TypeError with message)
  ∧ (∀ (self : JsonRpcRegistry) (xs : list pyval),
       if bool_decide (VStr "jsonrpc" ∈ xs)
       then ∃ message, _execute_request self (VList xs) = raise TypeError with message
       else _execute_request self (VList xs)
            = Ok (Error_envelope (-32600) "Invalid JSON-RPC version" None))
  ∧ (∀ (self : JsonRpcRegistry) (s : string),
       if is_substring "jsonrpc" s
       then ∃ message, _execute_request self (VStr s) = raise TypeError with message
       else _execute_request self (VStr s)
            = Ok (Error_envelope (-32600) "Invalid JSON-RPC version" None)).
Proof.
  split; [|split].
  - intros self payload Hcase.
    assert (Hrun : ∃ message, _execute_request self payload = raise TypeError with message).
    { destruct Hcase as [-> | [[b ->] | [[n ->] | [x ->]]]]; eexists; reflexivity. }
    destruct Hrun as [message Hrun]. exists message. split; [exact Hrun|].
    intros input_stream Hloads. unfold handle_request.
    destruct (decide _) as [_|Hne]; [|congruence].
    rewrite Hloads. cbn [lib]. rewrite Hrun. reflexivity.
  - intros self xs. unfold _execute_request, check_request. cbn [py_contains].
    destruct (bool_decide (VStr "jsonrpc" ∈ xs)); [eexists|]; reflexivity.
  - intros self s. unfold _execute_request, check_request. cbn [py_contains].
    destruct (is_substring "jsonrpc" s); [eexists|]; reflexivity.
Qed.

(** X11. A well-formed request whose method member is not a str: when it is
    hashable (null, a bool, a number) it is no key of the method table and
    the answer is the Error envelope of code -32601; when it is a list or an
    object, looking it up raises TypeError, which no clause catches, so no
    response is built. *)
Theorem method_not_a_string (self : JsonRpcRegistry) (items : pydict)
    (method id : pyval) :
  well_formed (VDict items) →
  envelope_get (VDict items) "method" = Some method →
  envelope_get (VDict items) "id" = Some id →
  (∀ s, method ≠ VStr s) →
  if hashable method
  then _execute_request self (VDict items)
       = Ok (Error_envelope (-32601) "Method not found" (error_id id))
  else ∃ message, _execute_request self (VDict items) = raise TypeError with message.
Proof.
  intros Hwf Hmethod Hid Hstr.
  unfold _execute_request. rewrite (check_request_ok _ Hwf).
  rewrite (getitem_member _ _ _ Hmethod), (getitem_member _ _ _ Hid).
  unfold method_definitions_get.
  destruct (hashable method) eqn:Hh; [|eexists; reflexivity].
  destruct method; try (apply make_error_message; discriminate).
  exfalso. eapply Hstr. reflexivity.
Qed.

End Responses.

(** ** Named parameters *)

Section Named.
Context `{PyLib}.

Lemma parse_args_dict_items (m : MethodDefinition) (args : pydict) :
  parse_args_dict m args = parse_items m args [].
Proof.
  unfold parse_args_dict. generalize (@nil (pyval * pyval)).
  induction args as [|[name value] rest IH]; intros typed_args; [reflexivity|].
  cbn [parse_items].
  destruct (parameter_annotation m name) as [T|]; [|reflexivity].
  destruct (convert_arg value T) as [v|]; [|reflexivity].
  destruct (dict_setitem typed_args name v) as [typed_args'|]; [|reflexivity].
  apply IH.
Qed.

Lemma annotation_str (m : MethodDefinition) (n : string) :
  parameter_annotation m (VStr n)
  = match assoc (signature m) n with
    | Some ann => Ok ann
    | None => raise KeyError with (py_repr (VStr n))
    end.
Proof. reflexivity. Qed.

Lemma annotation_unknown (m : MethodDefinition) (k : pyval) :
  (∀ n, k = VStr n → assoc (signature m) n = None) →
  ∃ e, parameter_annotation m k = Raise e.
Proof.
  intros Hk. unfold parameter_annotation.
  destruct (hashable k); [|eauto].
  destruct k; eauto. rewrite (Hk s eq_refl). eauto.
Qed.

(** One member that names no parameter, or whose value does not decode,
    makes the whole loop raise. *)
Lemma parse_items_raises (m : MethodDefinition) (items : pydict) (k x : pyval) :
  (k, x) ∈ items →
  (∀ n, k = VStr n →
        assoc (signature m) n = None
        ∨ ∃ T e, assoc (signature m) n = Some T ∧ convert_arg x T = Raise e) →
  ∀ typed_args, ∃ e, parse_items m items typed_args = Raise e.
Proof.
  intros Hin Hbad. induction items as [|[name value] rest IH]; [inversion Hin|].
  intros typed_args. cbn [parse_items].
  apply elem_of_cons in Hin as [Heq|Hin].
  - injection Heq as <- <-.
    destruct (parameter_annotation m k) as [T|e] eqn:Hann; [|eauto].
    assert (∃ e, convert_arg x T = Raise e) as [e ->]; [|eauto].
    unfold parameter_annotation in Hann. destruct (hashable k); [|discriminate].
    destruct k; try discriminate.
    destruct (Hbad s eq_refl) as [Hnone | (T' & e & Hsome & Hconv)].
    + rewrite Hnone in Hann. discriminate.
    + rewrite Hsome in Hann. injection Hann as <-. eauto.
  - destruct (parameter_annotation m name) as [T|]; [|eauto].
    destruct (convert_arg value T) as [v|]; [|eauto].
    destruct (dict_setitem typed_args name v) as [typed_args'|]; [|eauto].
    apply (IH Hin).
Qed.

Lemma decodes_keys (m : MethodDefinition) (items typed : pydict) :
  Forall2 (decodes m) items typed → fst <$> typed = fst <$> items.
Proof.
  induction 1 as [|kv kv' items typed (n & T & Hk & Hk' & _) _ IH]; [reflexivity|].
  rewrite !fmap_cons, IH, Hk, Hk'. reflexivity.
Qed.

(** Members with distinct names that all decode are stored one after the
    other. *)
Lemma parse_items_fresh (m : MethodDefinition) (items typed : pydict) :
  Forall2 (decodes m) items typed →
  ∀ acc, NoDup (fst <$> (acc ++ items)%list) →
         parse_items m items acc = Ok (acc ++ typed)%list.
Proof.
  induction 1 as [|[k x] [k' v] items typed (n & T & Hk & Hk' & Hann & Hconv) _ IH];
    intros acc Hnd.
  - rewrite app_nil_r. reflexivity.
  - cbn [fst snd] in Hk, Hk', Hconv. subst k k'. cbn [parse_items].
    rewrite annotation_str, Hann, Hconv. cbn [dict_setitem hashable].
    assert (Hacc : ∀ l : pydict,
              (acc ++ (VStr n, v) :: l = (acc ++ [(VStr n, v)]) ++ l)%list)
      by (intros l; rewrite <- app_assoc; reflexivity).
    rewrite dict_replace_fresh.
    + rewrite (Hacc typed). apply IH. rewrite fmap_app in Hnd |- *.
      rewrite fmap_app, <- app_assoc. exact Hnd.
    + rewrite fmap_app in Hnd. apply NoDup_app in Hnd as (_ & Hdisj & _).
      intros Hin. apply (Hdisj _ Hin). left.
Qed.

Lemma assoc_Some_elem {A} (l : list (string * A)) (key : string) (a : A) :
  assoc l key = Some a → key ∈ fst <$> l.
Proof.
  induction l as [|[k b] l IH]; simpl; [discriminate|].
  destruct (decide (k = key)) as [->|Hne]; [left|].
  intros Ha. right. apply IH, Ha.
Qed.

(** The keyword arguments made of a typed dict with str keys. *)
Lemma keywords_typed (m : MethodDefinition) (items typed : pydict) :
  Forall2 (decodes m) items typed →
  ∃ kws, keywords typed = Ok kws
         ∧ (∀ n, assoc kws n = dict_lookup typed (VStr n))
         ∧ (VStr ∘ fst) <$> kws = fst <$> items.
Proof.
  induction 1 as [|[k x] [k' v] items typed (n & T & Hk & Hk' & Hann & Hconv) _ IH].
  - exists []. split; [reflexivity|]. split; reflexivity.
  - destruct IH as (kws & Hkws & Hassoc & Hnames).
    cbn [fst snd] in Hk, Hk'. subst k k'. exists ((n, v) :: kws).
    cbn [keywords]. rewrite Hkws. split; [reflexivity|]. split.
    + intros n'. simpl. rewrite Hassoc.
      destruct (decide (n = n')) as [->|Hne].
      * destruct (decide (VStr n' = VStr n')); [reflexivity|contradiction].
      * destruct (decide (VStr n = VStr n')); [congruence|reflexivity].
    + rewrite !fmap_cons, Hnames. reflexivity.
Qed.

Lemma find_none_all {A} (f : A → bool) (l : list A) :
  Forall (fun x => f x = false) l → List.find f l = None.
Proof. induction 1 as [|x l Hx _ IH]; simpl; [reflexivity|]. rewrite Hx. exact IH. Qed.

(** Keywords that all name a parameter pass the check when nothing is
    bound by position, and none of them is left for [**kwargs]. *)
Lemma check_keywords_named (ps : list parameter) (kws : list (string * pyval)) :
  Forall (fun kw => is_Some (keyword_parameter ps (fst kw))) kws →
  check_keywords ps [] kws = Ok tt
  ∧ List.filter (fun kw => negb (bool_decide
                                    (is_Some (keyword_parameter ps (fst kw))))) kws
    = [].
Proof.
  induction 1 as [|[k v] kws [p Hp] _ [IHc IHf]]; [split; reflexivity|].
  cbn [fst] in Hp. split.
  - cbn [check_keywords]. rewrite Hp.
    rewrite bool_decide_eq_false_2 by (apply not_elem_of_nil). exact IHc.
  - cbn [List.filter fst]. rewrite bool_decide_eq_true_2 by eauto. exact IHf.
Qed.

(** What the call machinery raises by itself is a TypeError. *)
Lemma check_keywords_TypeError (ps : list parameter) (given : list string)
    (kws : list (string * pyval)) (e : exn) :
  check_keywords ps given kws = Raise e → ∃ message, e = Exn TypeError message.
Proof.
  induction kws as [|[k v] kws IH]; cbn [check_keywords]; [discriminate|].
  destruct (keyword_parameter ps k).
  - destruct (bool_decide _); [|exact IH]. intros He. injection He as <-. eauto.
  - destruct (existsb is_var_keyword ps); [exact IH|].
    destruct (existsb _ ps); intros He; injection He as <-; eauto.
Qed.

Lemma keyword_or_default_named (typed : pydict) (kws : list (string * pyval))
    (p : parameter) (v : pyval) :
  (∀ n, assoc kws n = dict_lookup typed (VStr n)) →
  by_keyword p = true →
  dict_lookup typed (VStr (param_name p)) = Some v
  ∨ (dict_lookup typed (VStr (param_name p)) = None ∧ default_value p = Some v) →
  keyword_or_default p kws = Ok v.
Proof.
  intros Hassoc Hkw Hv. unfold keyword_or_default. rewrite Hkw, Hassoc.
  destruct Hv as [-> | [-> ->]]; reflexivity.
Qed.

(** With no positional argument, each parameter takes its keyword value. *)
Lemma bind_parameters_keywords (typed : pydict) (kws : list (string * pyval))
    (ps : list parameter) (vs : list pyval) :
  (∀ n, assoc kws n = dict_lookup typed (VStr n)) →
  Forall2 (keyword_value typed) ps vs →
  bind_parameters ps [] kws [] = Ok vs.
Proof.
  intros Hassoc. induction 1 as [|p v ps vs Hv _ IH]; [reflexivity|].
  cbn [bind_parameters]. unfold keyword_value in Hv.
  destruct (kind p) eqn:Hkind.
  - unfold keyword_or_default, by_keyword. rewrite Hkind, Hv, IH. reflexivity.
  - rewrite (keyword_or_default_named typed kws p v Hassoc), IH;
      [reflexivity| |exact Hv].
    unfold by_keyword. rewrite Hkind. reflexivity.
  - rewrite IH, Hv. reflexivity.
  - rewrite (keyword_or_default_named typed kws p v Hassoc), IH;
      [reflexivity| |exact Hv].
    unfold by_keyword. rewrite Hkind. reflexivity.
  - rewrite IH, Hv. reflexivity.
Qed.

(** A required parameter that no keyword names makes binding raise. *)
Lemma bind_parameters_missing (ps : list parameter) (kws : list (string * pyval))
    (extra : pydict) (p : parameter) :
  p ∈ ps → required p = true → assoc kws (param_name p) = None →
  ∃ message, bind_parameters ps [] kws extra = raise TypeError with message.
Proof.
  intros Hin Hreq Hnone. induction ps as [|q ps IH]; [inversion Hin|].
  assert (Hhere : q = p →
            ∃ message, keyword_or_default q kws = raise TypeError with message).
  { intros ->. unfold keyword_or_default. rewrite Hnone.
    unfold required in Hreq.
    destruct (default_value p); [destruct (kind p); discriminate|].
    destruct (by_keyword p); eauto. }
  assert (Hvalue : ∀ r : result (list pyval),
            (∃ message, keyword_or_default q kws = raise TypeError with message)
            ∨ (∃ message, r = raise TypeError with message) →
            ∃ message,
              (v <- keyword_or_default q kws;; vs <- r;; Ok (v :: vs))
              = raise TypeError with message).
  { intros r [[message ->] | [message ->]]; [eauto|].
    destruct (keyword_or_default q kws) as [v|e] eqn:Hq; [eauto|].
    unfold keyword_or_default in Hq.
    destruct (if by_keyword q then assoc kws (param_name q) else None);
      [discriminate|].
    destruct (default_value q); [discriminate|]. injection Hq as <-. eauto. }
  apply elem_of_cons in Hin as [Heq|Hin].
  - symmetry in Heq. cbn [bind_parameters]. destruct (kind q) eqn:Hkind.
    + apply Hvalue. left. exact (Hhere Heq).
    + apply Hvalue. left. exact (Hhere Heq).
    + subst q. unfold required in Hreq. rewrite Hkind in Hreq. discriminate.
    + apply Hvalue. left. exact (Hhere Heq).
    + subst q. unfold required in Hreq. rewrite Hkind in Hreq. discriminate.
  - cbn [bind_parameters]. destruct (IH Hin) as [message Hrest].
    destruct (kind q).
    + apply Hvalue. right. eauto.
    + apply Hvalue. right. eauto.
    + rewrite Hrest. eauto.
    + apply Hvalue. right. eauto.
    + rewrite Hrest. eauto.
Qed.

Lemma bind_params_dict (m : MethodDefinition) (items kvs typed : pydict) :
  envelope_get (VDict items) "params" = Some (VDict kvs) →
  NoDup (fst <$> kvs) →
  Forall2 (decodes m) kvs typed →
  bind_params m (VDict items) = Ok (inl (fun _ => get_invoker m [] typed)).
Proof.
  intros Hparams Hnd Hdec. unfold bind_params.
  rewrite (getitem_member _ _ _ Hparams), parse_args_dict_items.
  rewrite (parse_items_fresh _ _ _ Hdec []) by exact Hnd. reflexivity.
Qed.

(** X12. A call with named parameters.  When the members of the params
    object have distinct names, each names a parameter of the method that
    can be given by keyword (not positional-only, not starred) and each
    value decodes against the annotation of its parameter, and every
    parameter either is named or has a default (a positional-only one has a
    default), the method runs on these values taken in the order of its
    declaration, whatever the order of the members: the decoded value where
    the parameter is named, its default where it is not, the empty tuple
    for [*args] and the empty dict for [**kwargs].  The answer is the Result
    envelope with the encoded return value. *)
Theorem named_call_result (self : JsonRpcRegistry) (items : pydict) (key : string)
    (m : MethodDefinition) (kvs typed : pydict) (vs : list pyval) (id r w : pyval) :
  well_formed (VDict items) →
  envelope_get (VDict items) "method" = Some (VStr key) →
  _method_definitions self !! key = Some m →
  envelope_get (VDict items) "params" = Some (VDict kvs) →
  envelope_get (VDict items) "id" = Some id →
  NoDup (fst <$> kvs) →
  Forall2 (decodes m) kvs typed →
  Forall (names_keyword m) kvs →
  Forall2 (keyword_value typed) (parameters (func m)) vs →
  body (func m) vs = Ok r →
  to_dict r = Ok w →
  _execute_request self (VDict items) = Ok (Result_envelope w id).
Proof.
  intros Hwf Hmethod Hsome Hparams Hid Hnd Hdec Hkw Hvs Hbody Henc.
  destruct (keywords_typed m kvs typed Hdec) as (kws & Hkws & Hassoc & Hnames).
  assert (Hnamed : Forall (fun kw => is_Some (keyword_parameter
                                                (parameters (func m)) (fst kw))) kws).
  { rewrite Forall_forall in Hkw. apply Forall_forall. intros [n v] Hin.
    assert (Hkey : VStr n ∈ fst <$> kvs).
    { rewrite <- Hnames. apply list_elem_of_fmap. exists (n, v). auto. }
    apply list_elem_of_fmap in Hkey as (kv & Hk & Hkv).
    destruct (Hkw _ Hkv) as (n' & Hn' & Hp). rewrite <- Hk in Hn'.
    injection Hn' as <-. exact Hp. }
  destruct (check_keywords_named _ _ Hnamed) as [Hcheck Hextra].
  unfold _execute_request. rewrite (check_request_ok _ Hwf).
  rewrite (getitem_member _ _ _ Hmethod), (getitem_member _ _ _ Hid).
  rewrite resolve_str, Hsome.
  rewrite (bind_params_dict m items kvs typed Hparams Hnd Hdec).
  unfold get_invoker, call. rewrite Hkws. cbn [length]. rewrite take_0, fmap_nil.
  rewrite Hcheck, Hextra, fmap_nil.
  destruct (_ <? 0)%nat eqn:Hlt; [apply Nat.ltb_lt in Hlt; lia|]. cbn [andb].
  rewrite (bind_parameters_keywords typed kws _ vs Hassoc Hvs).
  rewrite Hbody, Henc. reflexivity.
Qed.

(** X13. A call with named parameters that leaves a required parameter out.
    When the members of the params object have distinct names and all
    decode, and some parameter of the method that has no default and is
    neither [*args] nor [**kwargs] is named by no member, binding succeeds
    and the call itself raises TypeError: the answer is an Error envelope of
    code -32000, not -32602, with the id of the request unless it is
    null. *)
Theorem named_call_missing (self : JsonRpcRegistry) (items : pydict) (key : string)
    (m : MethodDefinition) (kvs typed : pydict) (p : parameter) (id : pyval) :
  well_formed (VDict items) →
  envelope_get (VDict items) "method" = Some (VStr key) →
  _method_definitions self !! key = Some m →
  envelope_get (VDict items) "params" = Some (VDict kvs) →
  envelope_get (VDict items) "id" = Some id →
  NoDup (fst <$> kvs) →
  Forall2 (decodes m) kvs typed →
  p ∈ parameters (func m) →
  required p = true →
  dict_lookup kvs (VStr (param_name p)) = None →
  ∃ message,
    _execute_request self (VDict items)
    = Ok (Error_envelope (-32000) message (error_id id)).
Proof.
  intros Hwf Hmethod Hsome Hparams Hid Hnd Hdec Hp Hreq Hnone.
  destruct (keywords_typed m kvs typed Hdec) as (kws & Hkws & Hassoc & Hnames).
  assert (Habsent : assoc kws (param_name p) = None).
  { rewrite Hassoc.
    destruct (dict_lookup typed (VStr (param_name p))) as [v|] eqn:Hv; [|reflexivity].
    apply dict_lookup_Some in Hv.
    assert (Hkey : VStr (param_name p) ∈ fst <$> kvs).
    { rewrite <- (decodes_keys _ _ _ Hdec). apply list_elem_of_fmap.
      exists (VStr (param_name p), v). auto. }
    apply list_elem_of_fmap in Hkey as ([k x] & Hk & Hin). simpl in Hk. subst k.
    rewrite (dict_lookup_elem _ _ _ Hnd Hin) in Hnone. discriminate. }
  assert (Hcall : ∃ message,
            get_invoker m [] typed = raise TypeError with message).
  { unfold get_invoker, call. rewrite Hkws. cbn [length]. rewrite take_0, fmap_nil.
    destruct (check_keywords _ _ kws) as [[]|e] eqn:Hcheck.
    - destruct (_ && _); [eauto|].
      destruct (bind_parameters_missing (parameters (func m)) kws
                  ((fun kw => (VStr (fst kw), snd kw))
                     <$> List.filter
                           (fun kw => negb (bool_decide
                              (is_Some (keyword_parameter (parameters (func m))
                                          (fst kw))))) kws)
                  p Hp Hreq Habsent) as [message ->].
      eauto.
    - destruct (check_keywords_TypeError _ _ _ _ Hcheck) as [message ->]. eauto. }
  destruct Hcall as [message Hcall].
  pose proof (execute_failure self items key m id
                (fun _ => get_invoker m [] typed)
                (Exn TypeError message) Hwf Hmethod Hsome Hid
                (bind_params_dict m items kvs typed Hparams Hnd Hdec)) as Hfail.
  cbn [exn_class is_Exception exn_str] in Hfail.
  destruct Hfail as [place Hrun]; [|eauto].
  rewrite Hcall. reflexivity.
Qed.

(** X14. A params object with a member that names no parameter of the
    method, or whose value does not decode against the annotation of the
    parameter it names, is answered with an Error envelope of code -32602,
    with the id of the request unless it is null; the method is not
    called. *)
Theorem named_params_rejected (self : JsonRpcRegistry) (items : pydict)
    (key : string) (m : MethodDefinition) (kvs : pydict) (id k x : pyval) :
  well_formed (VDict items) →
  envelope_get (VDict items) "method" = Some (VStr key) →
  _method_definitions self !! key = Some m →
  envelope_get (VDict items) "params" = Some (VDict kvs) →
  envelope_get (VDict items) "id" = Some id →
  (k, x) ∈ kvs →
  (∀ n, k = VStr n →
        assoc (signature m) n = None
        ∨ ∃ T e, assoc (signature m) n = Some T ∧ convert_arg x T = Raise e) →
  ∃ message,
    _execute_request self (VDict items)
    = Ok (Error_envelope (-32602) message (error_id id)).
Proof.
  intros Hwf Hmethod Hsome Hparams Hid Hin Hbad.
  destruct (parse_items_raises m kvs k x Hin Hbad []) as [e He].
  assert (Hparse : parse_args_dict m kvs = Raise e)
    by (rewrite parse_args_dict_items; exact He).
  eapply bind_failure_error; try eassumption.
  - unfold bind_params. rewrite (getitem_member _ _ _ Hparams), Hparse. reflexivity.
  - eapply catchable_parse_args_dict. exact Hparse.
Qed.

End Named.

(** ** What the decoder accepts *)

Section Decoding.
Context `{PyLib}.

Lemma convert_unchecked (T : pytype) (arg : pyval) :
  unchecked T = true → convert_arg arg T = Ok arg.
Proof. destruct T; try discriminate; reflexivity. Qed.

Lemma convert_elements_unchecked (T : pytype) (xs : list pyval) :
  unchecked T = true →
  list_comprehension (fun value => convert_arg value T) xs = Ok xs.
Proof.
  intros HT. rewrite (list_comprehension_fmap _ id).
  - rewrite list_fmap_id. reflexivity.
  - apply Forall_forall. intros x _. apply convert_unchecked, HT.
Qed.

Lemma code_points_cons (c : Ascii.ascii) (rest : string) :
  code_points (String c rest)
  = match rest with
    | String d _ =>
        if is_continuation d then
          match code_points rest with
          | p :: ps => String c p :: ps
          | [] => [String c ""]
          end
        else String c "" :: code_points rest
    | EmptyString => [String c ""]
    end.
Proof. reflexivity. Qed.

Lemma code_points_head (d : Ascii.ascii) (rest p : string) (ps : list string) :
  code_points (String d rest) = p :: ps → ∃ q, p = String d q.
Proof.
  rewrite code_points_cons. destruct rest as [|d' rest'].
  - intros Hp. injection Hp as <- <-. eauto.
  - destruct (is_continuation d').
    + destruct (code_points (String d' rest')) as [|p' ps'];
        intros Hp; injection Hp as <- <-; eauto.
    + intros Hp. injection Hp as <- <-. eauto.
Qed.

(** The characters of a str, put together again, are the str. *)
Lemma code_points_concat (s : string) :
  foldr String.append "" (code_points s) = s.
Proof.
  induction s as [|c rest IH]; [reflexivity|].
  rewrite code_points_cons. destruct rest as [|d rest']; [reflexivity|].
  destruct (is_continuation d).
  - destruct (code_points (String d rest')) as [|p ps]; [discriminate IH|].
    cbn [foldr] in IH |- *.
    change (String c (p ++ foldr String.append "" ps) = String c (String d rest')).
    rewrite IH. reflexivity.
  - cbn [foldr].
    change (String c (foldr String.append "" (code_points (String d rest')))
            = String c (String d rest')).
    rewrite IH. reflexivity.
Qed.

(** Each of them is one character. *)
Lemma code_points_one (s : string) :
  Forall (fun p => one_character p = true) (code_points s).
Proof.
  induction s as [|c rest IH]; [constructor|].
  rewrite code_points_cons. destruct rest as [|d rest'].
  - constructor; [reflexivity|constructor].
  - destruct (is_continuation d) eqn:Hd.
    + destruct (code_points (String d rest')) as [|p ps] eqn:Hps.
      * constructor; [reflexivity|constructor].
      * apply Forall_cons in IH as [Hp Hrest]. constructor; [|exact Hrest].
        destruct (code_points_head _ _ _ _ Hps) as [q ->].
        cbn [one_character String.list_ascii_of_string forallb] in Hp |- *.
        rewrite Hd, Hp. reflexivity.
    + constructor; [reflexivity|exact IH].
Qed.

(** X15. Decoding against [list[T]], [tuple[T]] or [set[T]] iterates over
    the argument without looking at its class.  For a component type that
    is a scalar class, Any or absent: a JSON array decodes to the list of
    its elements, a JSON string to the list of its characters (each one a
    str of one character, all bytes of the character together, and
    together they make up the string) and a JSON object to the list of its
    keys; null, a bool and a number raise TypeError. *)
Theorem sequence_of_iterable (o : seq_origin) (T : pytype) :
  unchecked T = true →
  (∀ xs, convert_arg (VList xs) (TSeq o T) = Ok (VList xs))
  ∧ (∀ s, convert_arg (VStr s) (TSeq o T) = Ok (VList (VStr <$> code_points s))
          ∧ foldr String.append "" (code_points s) = s
          ∧ Forall (fun p => one_character p = true) (code_points s))
  ∧ (∀ items, convert_arg (VDict items) (TSeq o T) = Ok (VList (fst <$> items)))
  ∧ (∀ arg, arg = VNone ∨ (∃ b, arg = VBool b) ∨ (∃ n, arg = VInt n)
            ∨ (∃ x, arg = VFloat x) →
            ∃ message, convert_arg arg (TSeq o T) = raise TypeError with message).
Proof.
  intros HT. split; [|split; [|split]].
  - intros xs. cbn [convert_arg py_iter].
    rewrite (convert_elements_unchecked _ _ HT). reflexivity.
  - intros s. split; [|split].
    + cbn [convert_arg py_iter].
      rewrite (convert_elements_unchecked _ _ HT). reflexivity.
    + apply code_points_concat.
    + apply code_points_one.
  - intros items. cbn [convert_arg py_iter].
    rewrite (convert_elements_unchecked _ _ HT). reflexivity.
  - intros arg [-> | [[b ->] | [[n ->] | [x ->]]]]; eexists; reflexivity.
Qed.

Lemma convert_fields_names (arg : pyval) (fields : list (string * pytype))
    (values : list (string * pyval)) :
  convert_fields arg fields = Ok values → fst <$> values = fst <$> fields.
Proof.
  revert values. induction fields as [|[n t] fields IH]; intros values; simpl.
  - intros Hv. injection Hv as <-. reflexivity.
  - destruct (py_get arg (VStr n)) as [x|]; [|discriminate].
    destruct (convert_arg x t) as [v|]; [|discriminate].
    destruct (convert_fields arg fields) as [vs|]; [|discriminate].
    intros Hv. injection Hv as <-. rewrite fmap_cons, (IH vs eq_refl). reflexivity.
Qed.

Lemma convert_fields_agree (items items' : pydict) (fields : list (string * pytype)) :
  (∀ n, n ∈ fst <$> fields →
        envelope_get (VDict items) n = envelope_get (VDict items') n) →
  convert_fields (VDict items) fields = convert_fields (VDict items') fields.
Proof.
  induction fields as [|[n t] fields IH]; intros Hsame; [reflexivity|].
  cbn [convert_fields py_get].
  pose proof (Hsame n) as Hn. cbn [envelope_get] in Hn.
  rewrite Hn by (rewrite fmap_cons; left). rewrite IH; [reflexivity|].
  intros n' Hn'. apply Hsame. rewrite fmap_cons. right. exact Hn'.
Qed.

(** X16. Decoding against a dataclass.  A value that decodes is an instance
    of that class with exactly the declared fields, in declaration order.
    Only the members named like a field are read: two JSON objects that
    agree on them decode alike, and any further member is ignored.  An
    argument that is not a JSON object raises AttributeError when the class
    has a field. *)
Theorem record_decoding :
  (∀ (arg : pyval) (cls : string) (fields : list (string * pytype)) (v : pyval),
     convert_arg arg (TData cls fields) = Ok v →
     ∃ values, v = VData cls values ∧ fst <$> values = fst <$> fields)
  ∧ (∀ (cls : string) (fields : list (string * pytype)) (items items' : pydict),
       (∀ n, n ∈ fst <$> fields →
             envelope_get (VDict items) n = envelope_get (VDict items') n) →
       convert_arg (VDict items) (TData cls fields)
       = convert_arg (VDict items') (TData cls fields))
  ∧ (∀ (cls : string) (fields : list (string * pytype)) (arg : pyval),
       fields ≠ [] →
       (∀ items, arg ≠ VDict items) →
       ∃ message,
         convert_arg arg (TData cls fields) = raise AttributeError with message).
Proof.
  split; [|split].
  - intros arg cls fields v. rewrite convert_arg_record.
    destruct (convert_fields arg fields) as [values|] eqn:Hvalues; [|discriminate].
    intros Hv. injection Hv as <-. exists values. split; [reflexivity|].
    eapply convert_fields_names, Hvalues.
  - intros cls fields items items' Hsame. rewrite !convert_arg_record.
    rewrite (convert_fields_agree _ _ _ Hsame). reflexivity.
  - intros cls [|[n t] fields] arg Hne Hobj; [contradiction|].
    rewrite convert_arg_record. cbn [convert_fields].
    destruct arg; try (eexists; reflexivity).
    exfalso. eapply Hobj. reflexivity.
Qed.

End Decoding.

(** ** Streams of requests *)

Section Streaming.
Context `{PyLib}.

Lemma generate_response_cons (self : JsonRpcRegistry) (line : string) (rest : stream) :
  generate_response self (line :: rest)
  = if is_blank line then generate_response self rest
    else match respond self line with
         | Raise e => ([], Some e)
         | Ok chunk =>
             let '(more, stop) := generate_response self rest in
             (chunk :: more, stop)
         end.
Proof. reflexivity. Qed.

(** X17. The NDJSON output is built line by line.  The output for a stream
    followed by another is the output for the first, followed, when the
    first ends without exception, by the output for the second: what comes
    later in the stream never changes a response already yielded.  Blank
    lines can be dropped from the input without changing the output, and
    there are at most as many chunks as lines that are not blank. *)
Theorem generate_response_app (self : JsonRpcRegistry) :
  (∀ first second : stream,
     generate_response self (first ++ second)%list
     = match generate_response self first with
       | (chunks, None) =>
           let '(more, stop) := generate_response self second in
           ((chunks ++ more)%list, stop)
       | (chunks, Some e) => (chunks, Some e)
       end)
  ∧ (∀ reader : stream,
       generate_response self (requests reader) = generate_response self reader)
  ∧ (∀ reader : stream,
       (length (fst (generate_response self reader)) ≤ length (requests reader))%nat).
Proof.
  split; [|split].
  - intros first second. induction first as [|line rest IH].
    + cbn [app generate_response]. destruct (generate_response self second).
      reflexivity.
    + change ((line :: rest) ++ second)%list with (line :: (rest ++ second)%list).
      rewrite !generate_response_cons. destruct (is_blank line); [exact IH|].
      destruct (respond self line) as [chunk|e]; [|reflexivity].
      rewrite IH. destruct (generate_response self rest) as [chunks [e|]].
      * reflexivity.
      * destruct (generate_response self second). reflexivity.
  - intros reader. unfold requests. induction reader as [|line rest IH]; [reflexivity|].
    rewrite generate_response_cons. cbn [List.filter].
    destruct (is_blank line) eqn:Hblank; cbn [negb]; [exact IH|].
    rewrite generate_response_cons, Hblank, IH. reflexivity.
  - intros reader. unfold requests. induction reader as [|line rest IH]; [simpl; lia|].
    rewrite generate_response_cons. cbn [List.filter].
    destruct (is_blank line); cbn [negb]; [exact IH|].
    destruct (respond self line) as [chunk|e]; [|simpl; lia].
    destruct (generate_response self rest). simpl in *. lia.
Qed.

End Streaming.

(** ** Calls by position *)

Section Calls.
Context `{PyLib}.




End Calls.

(** ** Batches *)

Section Batches.
Context `{PyLib}.




End Batches.

(** ** The WSGI application *)

Section WsgiApplication.
Context `{Clients}.

(** X19. A POST to /jsonrpc.  With content type application/json the run is
    either one call of [start_response], with status 200 OK or 500 Internal
    Server Error and the request's content type echoed, followed by one
    chunk, or an exception raised before [start_response] is called at all.
    With application/x-ndjson, [start_response] is called with 200 OK before
    any line is read, the chunks of the generator follow, and an exception
    from a line comes after the status has been sent.  With any other
    content type, also a missing one, the run is the single call of
    [start_response] with 415 Unsupported Media Type, and the body is not
    read. *)
Theorem wsgi_post (registry : JsonRpcRegistry) (env : environ) (input : stream) :
  REQUEST_METHOD env = Some "POST" →
  PATH_INFO env = Some "/jsonrpc" →
  wsgi_input env = Some input →
  (mimetype_of env = "application/json" →
     match wsgi_func registry env with
     | (events, None) =>
         ∃ status chunk,
           events = [ StartResponse status [("Content-Type", "application/json")];
                      Yield chunk ]
           ∧ (status = "200 OK" ∨ status = "500 Internal Server Error")
     | (events, Some e) => events = []
     end)
  ∧ (mimetype_of env = "application/x-ndjson" →
       wsgi_func registry env
       = (StartResponse "200 OK" [("Content-Type", "application/x-ndjson")]
            :: (Yield <$> fst (generate_response registry input)),
          snd (generate_response registry input)))
  ∧ (mimetype_of env ≠ "application/json" →
     mimetype_of env ≠ "application/x-ndjson" →
       wsgi_func registry env
       = ([ StartResponse "415 Unsupported Media Type"
              [("Content-Type", mimetype_of env)] ], None)).
Proof.
  intros Hmethod Hpath Hinput. unfold wsgi_func.
  rewrite Hmethod, Hpath, Hinput.
  rewrite !bool_decide_eq_true_2 by reflexivity. cbn [andb].
  split; [|split].
  - intros ->. unfold handle_request.
    destruct (decide _) as [_|Hne]; [|congruence].
    destruct (lib JSONDecodeError (json_loads (read input))) as [payload|e];
      [|reflexivity].
    destruct (_execute_request registry payload) as [response|e] eqn:Hrun;
      [|reflexivity].
    destruct (execute_dict _ _ _ Hrun) as [members ->]. rewrite contains_error.
    destruct (to_json (VDict members)) as [s|e]; [|reflexivity].
    eexists _, _. split; [reflexivity|].
    destruct (is_Error (VDict members)); auto.
  - intros ->. unfold handle_request.
    destruct (decide _) as [Heq|_]; [discriminate|].
    destruct (decide _) as [_|Hne]; [|congruence].
    destruct (generate_response registry input). reflexivity.
  - intros Hjson Hnd. unfold handle_request.
    destruct (decide _); [contradiction|].
    destruct (decide _); [contradiction|]. reflexivity.
Qed.

(** X20. The other routes.  A request that is neither a POST to /jsonrpc nor
    a GET is answered with 404 Not Found and no body.  A GET is never
    answered with 404: when the path has none of the extensions .js, .ts,
    .php, .py (the path /jsonrpc for one), [generate_client] returns None,
    unpacking it raises TypeError and [start_response] is never called;
    otherwise the run is an exception of the generator with no event, or
    200 OK with content type application/javascript (.js and .ts) or
    text/plain (.php and .py) followed by one chunk. *)
Theorem wsgi_routes (registry : JsonRpcRegistry) (env : environ)
    (method path : string) :
  REQUEST_METHOD env = Some method →
  PATH_INFO env = Some path →
  ¬ (path = "/jsonrpc" ∧ method = "POST") →
  (method ≠ "GET" →
     wsgi_func registry env
     = ([ StartResponse "404 Not Found" [("Content-Type", "text/plain")] ], None))
  ∧ (method = "GET" →
     endswith path ".js" = false → endswith path ".ts" = false →
     endswith path ".php" = false → endswith path ".py" = false →
       wsgi_func registry env
       = ([], Some (Exn TypeError "cannot unpack non-iterable NoneType object")))
  ∧ (method = "GET" →
       (∃ e, wsgi_func registry env = ([], Some e))
       ∨ (∃ content_type chunk,
            wsgi_func registry env
            = ([ StartResponse "200 OK" [("Content-Type", content_type)];
                 Yield chunk ], None)
            ∧ content_type
              = (if endswith path ".js" || endswith path ".ts"
                 then "application/javascript" else "text/plain"))).
Proof.
  intros Hmethod Hpath Hroute. unfold wsgi_func. rewrite Hmethod, Hpath.
  assert (Hpost : bool_decide (path = "/jsonrpc") && bool_decide (method = "POST")
                  = false).
  { destruct (decide (path = "/jsonrpc")) as [Hp|Hp].
    - rewrite (bool_decide_eq_false_2 (method = "POST")); [apply andb_false_r|].
      intros Hm. apply Hroute. auto.
    - rewrite (bool_decide_eq_false_2 _ Hp). reflexivity. }
  rewrite Hpost. split; [|split].
  - intros Hget. rewrite (bool_decide_eq_false_2 _ Hget). reflexivity.
  - intros -> Hjs Hts Hphp Hpy. rewrite bool_decide_eq_true_2 by reflexivity.
    unfold generate_client. rewrite Hjs, Hts, Hphp, Hpy. reflexivity.
  - intros ->. rewrite bool_decide_eq_true_2 by reflexivity.
    unfold generate_client.
    destruct (endswith path ".js"); cbn [orb].
    { destruct (generate_js _ _ _); [right|left]; eauto. }
    destruct (endswith path ".ts"); cbn [orb].
    { destruct (generate_ts _ _); [right|left]; eauto. }
    destruct (endswith path ".php").
    { destruct (generate_php _ _); [right|left]; eauto. }
    destruct (endswith path ".py").
    { destruct (generate_python _); [right|left]; eauto. }
    left. eauto.
Qed.

End WsgiApplication.

(** * The scenarios, run on the sample runtime *)

Module Scenarios.
Import Sample.

Ltac run := vm_compute; reflexivity.

Ltac distinct :=
  match goal with |- ?P => apply (@bool_decide_unpack P _) end;
  vm_compute; exact I.

Ltac members :=
  unfold well_formed;
  repeat match goal with
         | |- _ ∧ _ => split
         | |- is_Some _ => eexists; run
         | |- _ = _ => run
         end.

(** Invalid request: the members method and params are absent. *)
Lemma invalid_request_witness :
  envelope_get (VDict [ (VStr "jsonrpc", VStr "2.0"); (VStr "id", VInt 7) ]) "method"
  = None
  ∧ ∃ message,
      _execute_request math_registry
        (VDict [ (VStr "jsonrpc", VStr "2.0"); (VStr "id", VInt 7) ])
      = Ok (Error_envelope (-32600) message None)
      ∧ error_code (Error_envelope (-32600) message None) = Some (VInt (-32600))
      ∧ envelope_get (Error_envelope (-32600) message None) "id" = None.
Proof.
  split; [reflexivity|].
  apply (invalid_request_error math_registry
           [ (VStr "jsonrpc", VStr "2.0"); (VStr "id", VInt 7) ]).
  right. left. reflexivity.
Defined.



(** An unregistered method, request id 1. *)
Lemma method_not_found_witness :
  well_formed (request (VInt 1) "mathService.subtract" (VList [VInt 2; VInt 3]))
  ∧ _method_definitions math_registry !! "mathService.subtract" = None
  ∧ _execute_request math_registry
      (request (VInt 1) "mathService.subtract" (VList [VInt 2; VInt 3]))
    = Ok (Error_envelope (-32601) "Method not found" (Some (VInt 1))).
Proof.
  split; [members|]. split; [run|].
  apply (method_not_found_error math_registry _ "mathService.subtract" (VInt 1));
    members.
Defined.

(** An unregistered method, request id null: the response does not echo
    the id, it has no id member. *)
Lemma method_not_found_null_id :
  well_formed (request VNone "mathService.subtract" (VList [VInt 2; VInt 3]))
  ∧ envelope_get (request VNone "mathService.subtract" (VList [VInt 2; VInt 3])) "method"
    = Some (VStr "mathService.subtract")
  ∧ _method_definitions math_registry !! "mathService.subtract" = None
  ∧ envelope_get (request VNone "mathService.subtract" (VList [VInt 2; VInt 3])) "id"
    = Some VNone
  ∧ ∃ response,
      _execute_request math_registry
        (request VNone "mathService.subtract" (VList [VInt 2; VInt 3]))
      = Ok response
      ∧ error_code response = Some (VInt (-32601))
      ∧ envelope_get response "id" = None.
Proof.
  repeat split; try members.
  eexists. repeat split; run.
Defined.

(** One argument for two parameters, request id 1. *)
Lemma invalid_params_witness :
  well_formed (request (VInt 1) "mathService.add" (VList [VInt 2]))
  ∧ _method_definitions math_registry !! "mathService.add" = Some add_method
  ∧ length [VInt 2] ≠ length (arg_types add_method)
  ∧ ∃ message,
      _execute_request math_registry
        (request (VInt 1) "mathService.add" (VList [VInt 2]))
      = Ok (Error_envelope (-32602) message (Some (VInt 1)))
      ∧ envelope_get (Error_envelope (-32602) message (Some (VInt 1))) "id"
        = Some (VInt 1).
Proof.
  split; [members|]. split; [run|]. split; [vm_compute; discriminate|].
  apply (invalid_params_error math_registry _ "mathService.add" add_method
           (VList [VInt 2]) (VInt 1)); try members.
  right. exists [VInt 2]. split; [reflexivity|]. left. vm_compute. discriminate.
Defined.

(** One argument for two parameters, request id null: the response has no
    id member. *)
Lemma invalid_params_null_id :
  well_formed (request VNone "mathService.add" (VList [VInt 2]))
  ∧ _method_definitions math_registry !! "mathService.add" = Some add_method
  ∧ Nat.eqb (length [VInt 2]) (length (arg_types add_method)) = false
  ∧ envelope_get (request VNone "mathService.add" (VList [VInt 2])) "id" = Some VNone
  ∧ ∃ response,
      _execute_request math_registry
        (request VNone "mathService.add" (VList [VInt 2]))
      = Ok response
      ∧ error_code response = Some (VInt (-32602))
      ∧ envelope_get response "id" = None.
Proof.
  repeat split; try members.
  eexists. repeat split; run.
Defined.

(** The named call of add without b is answered with code -32000, not
    -32602. *)
Lemma missing_named_argument_code :
  ∃ response,
    _execute_request math_registry
      (request (VInt 1) "mathService.add" (VDict [ (VStr "a", VInt 2) ]))
    = Ok response
    ∧ error_code response = Some (VInt (-32000))
    ∧ error_code response ≠ Some (VInt (-32602))
    ∧ envelope_get response "id" = Some (VInt 1).
Proof.
  eexists. repeat split; try run. vm_compute. discriminate.
Defined.

(** A request with id null for an unregistered method. *)
Lemma null_id_witness :
  well_formed (request VNone "mathService.subtract" (VList [VInt 2; VInt 3]))
  ∧ _execute_request math_registry
      (request VNone "mathService.subtract" (VList [VInt 2; VInt 3]))
    = Ok (Error_envelope (-32601) "Method not found" None)
  ∧ envelope_get (Error_envelope (-32601) "Method not found" None) "id" = None.
Proof.
  assert (Hwf : well_formed
            (request VNone "mathService.subtract" (VList [VInt 2; VInt 3])))
    by members.
  assert (Hrun : _execute_request math_registry
                   (request VNone "mathService.subtract" (VList [VInt 2; VInt 3]))
                 = Ok (Error_envelope (-32601) "Method not found" None))
    by run.
  split; [exact Hwf|]. split; [exact Hrun|].
  pose proof (proj2 null_id_omitted math_registry _ VNone _ Hwf eq_refl Hrun)
    as [Herr _].
  apply Herr; reflexivity.
Defined.








End Scenarios.

(** * Further scenarios *)

Module MoreScenarios.
Import Sample Example.

Ltac run := vm_compute; reflexivity.

Ltac distinct :=
  match goal with |- ?P => apply (@bool_decide_unpack P _) end;
  vm_compute; exact I.

Ltac members :=
  unfold well_formed;
  repeat match goal with
         | |- _ ∧ _ => split
         | |- is_Some _ => eexists; run
         | |- _ = _ => run
         end.

(** The public method divide of a Calculator. *)
Lemma register_service_lookup_witness :
  _method_definitions
    (register_service new_JsonRpcRegistry "calculator" (instantiate Calculator))
    !! ("calculator" ++ "." ++ "divide")
  = Some divide_method
  ∧ get (register_service new_JsonRpcRegistry "calculator" (instantiate Calculator))
      "calculator"
    = Some (instantiate Calculator tt).
Proof.
  apply (register_service_lookup new_JsonRpcRegistry "calculator"
           (instantiate Calculator) "divide" divide).
  - distinct.
  - do 3 right. left.
  - reflexivity.
Defined.

(** The private method _audit and the attribute precision get no key. *)
Lemma register_service_elsewhere_witness :
  String.prefix "_" "_audit" = true
  ∧ _method_definitions (register_service math_registry "calculator"
                           (instantiate Calculator))
      !! ("calculator" ++ "." ++ "_audit")
    = _method_definitions math_registry !! ("calculator" ++ "." ++ "_audit")
  ∧ _method_definitions math_registry !! ("calculator" ++ "." ++ "_audit") = None.
Proof.
  split; [reflexivity|]. split; [|run].
  apply (proj1 (proj2 register_service_elsewhere) math_registry "calculator"
           (instantiate Calculator) "_audit").
  left. reflexivity.
Defined.

Lemma get_set_witness :
  get (set math_registry "mathService" (instantiate Calculator tt)) "mathService"
  = Some (instantiate Calculator tt)
  ∧ get (set math_registry "calculator" (instantiate Calculator tt)) "mathService"
    = get math_registry "mathService".
Proof.
  split.
  - apply (proj1 get_set).
  - apply (proj2 get_set). discriminate.
Defined.

(** After the Calculator is set under the name mathService, divide is still
    not found and add is still the first one. *)
Lemma set_keeps_methods_witness :
  is_Some (_service_definitions math_registry !! "mathService")
  ∧ _method_definitions (set math_registry "mathService" (instantiate Calculator tt))
    = _method_definitions math_registry
  ∧ _execute_request (set math_registry "mathService" (instantiate Calculator tt))
      (request (VInt 1) "mathService.divide" (VList [VInt 10; VInt 2]))
    = _execute_request math_registry
        (request (VInt 1) "mathService.divide" (VList [VInt 10; VInt 2])).
Proof.
  assert (Hreg : is_Some (_service_definitions math_registry !! "mathService"))
    by (eexists; run).
  split; [exact Hreg|].
  destruct (set_keeps_methods math_registry "mathService"
              (instantiate Calculator tt) Hreg) as (Hsame & Hrun & _).
  split; [exact Hsame|apply Hrun].
Defined.

(** The class Calculator, decorated without a name; and the name under
    which the class Élan goes. *)
Lemma decorated_service_witness :
  lower_first (class_name Calculator) = "calculator"
  ∧ lower_first (class_name Elan) = e_acute ++ "lan"
  ∧ _method_definitions calculator_registry
      !! (lower_first (class_name Calculator) ++ "." ++ "divide")
    = Some divide_method
  ∧ get calculator_registry (lower_first (class_name Calculator))
    = Some (instantiate Calculator tt).
Proof.
  split; [reflexivity|]. split; [reflexivity|].
  destruct (proj1 decorated_service math_registry Calculator NameNone
              "divide" divide) as (Hkey & Hget & _).
  - left. reflexivity.
  - distinct.
  - do 3 right. left.
  - reflexivity.
  - split; [exact Hkey|exact Hget].
Defined.

(** A record with a timestamp, in a tuple; and a list that holds an object
    of another class, a date. *)
Lemma to_dict_wire_witness :
  plain (VTuple [alice]) = true
  ∧ to_dict (VTuple [alice])
    = Ok (VList [ VDict [ (VStr "username", VStr "Alice");
                          (VStr "lastlogin", VStr "2024-01-01T00:00:00") ] ])
  ∧ is_wire (VList [ VDict [ (VStr "username", VStr "Alice");
                             (VStr "lastlogin", VStr "2024-01-01T00:00:00") ] ])
    = true
  ∧ to_dict (VTuple [ VOther "date" true 20240101 ])
    = Ok (VList [ VOther "date" true 20240101 ])
  ∧ is_encoded (VList [ VOther "date" true 20240101 ]) = true
  ∧ is_wire (VList [ VOther "date" true 20240101 ]) = false.
Proof.
  assert (Hplain : plain (VTuple [alice]) = true) by run.
  assert (Henc : to_dict (VTuple [alice])
                 = Ok (VList [ VDict [ (VStr "username", VStr "Alice");
                                       (VStr "lastlogin", VStr "2024-01-01T00:00:00") ] ]))
    by run.
  assert (Hdate : to_dict (VTuple [ VOther "date" true 20240101 ])
                  = Ok (VList [ VOther "date" true 20240101 ])) by run.
  split; [exact Hplain|]. split; [exact Henc|].
  split; [exact (proj2 to_dict_wire _ _ Hplain Henc)|].
  split; [exact Hdate|]. split; [exact (proj1 to_dict_wire _ _ Hdate)|run].
Defined.

Lemma to_dict_idempotent_witness :
  to_dict (VSet [VInt 1; VInt 2]) = Ok (VList [VInt 1; VInt 2])
  ∧ to_dict (VList [VInt 1; VInt 2]) = Ok (VList [VInt 1; VInt 2]).
Proof.
  assert (Henc : to_dict (VSet [VInt 1; VInt 2]) = Ok (VList [VInt 1; VInt 2])) by run.
  split; [exact Henc|]. exact (proj1 to_dict_idempotent _ _ Henc).
Defined.

(** The answer to divide(10, 2). *)
Lemma response_wire_witness :
  is_wire (request (VInt 1) "calculator.divide" (VList [VInt 10; VInt 2])) = true
  ∧ _execute_request calculator_registry
      (request (VInt 1) "calculator.divide" (VList [VInt 10; VInt 2]))
    = Ok (Result_envelope (VInt 5) (VInt 1))
  ∧ is_encoded (Result_envelope (VInt 5) (VInt 1)) = true
  ∧ to_json (Result_envelope (VInt 5) (VInt 1))
    = lib TypeError (json_dumps (Result_envelope (VInt 5) (VInt 1))).
Proof.
  assert (Hwire : is_wire (request (VInt 1) "calculator.divide"
                             (VList [VInt 10; VInt 2])) = true) by run.
  assert (Hrun : _execute_request calculator_registry
                   (request (VInt 1) "calculator.divide" (VList [VInt 10; VInt 2]))
                 = Ok (Result_envelope (VInt 5) (VInt 1))) by run.
  split; [exact Hwire|]. split; [exact Hrun|].
  destruct (response_wire calculator_registry _ _ Hwire Hrun) as (Henc & _ & _ & Hjson).
  split; [exact Henc|exact Hjson].
Defined.

(** divide(1, 0) raises ZeroDivisionError. *)
Lemma method_failure_witness :
  parse_args_list divide_method [VInt 1; VInt 0] = Ok [VInt 1; VInt 0]
  ∧ all_positional divide = true
  ∧ body divide [VInt 1; VInt 0]
    = raise (UserException "ZeroDivisionError") with
        "integer division or modulo by zero"
  ∧ ∃ place,
      _execute_request calculator_registry
        (request (VInt 1) "calculator.divide" (VList [VInt 1; VInt 0]))
      = Ok (Error_envelope (-32000) (place ++ "integer division or modulo by zero")
              (Some (VInt 1))).
Proof.
  assert (Hparse : parse_args_list divide_method [VInt 1; VInt 0]
                   = Ok [VInt 1; VInt 0]) by run.
  assert (Hbody : body (func divide_method) [VInt 1; VInt 0]
                  = Raise (Exn (UserException "ZeroDivisionError")
                             "integer division or modulo by zero")) by run.
  assert (Hkey : _method_definitions calculator_registry !! "calculator.divide"
                 = Some divide_method) by run.
  split; [exact Hparse|]. split; [run|]. split; [exact Hbody|].
  apply (proj2 method_failure calculator_registry _ "calculator.divide"
           divide_method [VInt 1; VInt 0] [VInt 1; VInt 0] (VInt 1)
           (Exn (UserException "ZeroDivisionError")
              "integer division or modulo by zero"));
    [members|run|exact Hkey|run|run|exact Hparse|run|left; exact Hbody].
Defined.

(** The JSON number 5 as a request body. *)
Lemma non_object_payload_witness :
  json_loads (read [ line_of (VInt 5) ]) = inr (VInt 5)
  ∧ ∃ message,
      _execute_request math_registry (VInt 5) = raise TypeError with message
      ∧ handle_request math_registry [ line_of (VInt 5) ] "application/json"
        = raise TypeError with message.
Proof.
  assert (Hloads : json_loads (read [ line_of (VInt 5) ]) = inr (VInt 5)) by run.
  split; [exact Hloads|].
  destruct (proj1 non_object_payload math_registry (VInt 5)) as (message & Hrun & Hbody).
  - right. right. left. exists 5. reflexivity.
  - exists message. split; [exact Hrun|]. apply Hbody. exact Hloads.
Defined.

(** A request whose method member is the number 5. *)
Lemma method_not_a_string_witness :
  well_formed (VDict [ (VStr "jsonrpc", VStr "2.0"); (VStr "id", VInt 1);
                       (VStr "method", VInt 5); (VStr "params", VList []) ])
  ∧ _execute_request math_registry
      (VDict [ (VStr "jsonrpc", VStr "2.0"); (VStr "id", VInt 1);
               (VStr "method", VInt 5); (VStr "params", VList []) ])
    = Ok (Error_envelope (-32601) "Method not found" (Some (VInt 1))).
Proof.
  assert (Hwf : well_formed
            (VDict [ (VStr "jsonrpc", VStr "2.0"); (VStr "id", VInt 1);
                     (VStr "method", VInt 5); (VStr "params", VList []) ]))
    by members.
  split; [exact Hwf|].
  apply (method_not_a_string math_registry _ (VInt 5) (VInt 1) Hwf);
    [run|run|discriminate].
Defined.

(** shift with its keyword-only parameter named first: the point is
    decoded, and the body gets the values in declaration order. *)
Lemma named_call_result_witness :
  NoDup (fst <$> [ (VStr "by", VInt 3);
                   (VStr "p", VDict [ (VStr "x", VInt 1); (VStr "y", VInt 2) ]) ])
  ∧ Forall2 (decodes shift_method)
      [ (VStr "by", VInt 3);
        (VStr "p", VDict [ (VStr "x", VInt 1); (VStr "y", VInt 2) ]) ]
      [ (VStr "by", VInt 3);
        (VStr "p", VData "Point" [ ("x", VInt 1); ("y", VInt 2) ]) ]
  ∧ body shift [ VData "Point" [ ("x", VInt 1); ("y", VInt 2) ]; VInt 3 ]
    = Ok (VData "Point" [ ("x", VInt 4); ("y", VInt 5) ])
  ∧ _execute_request geometry_registry
      (request (VInt 1) "geometryService.shift"
         (VDict [ (VStr "by", VInt 3);
                  (VStr "p", VDict [ (VStr "x", VInt 1); (VStr "y", VInt 2) ]) ]))
    = Ok (Result_envelope (VDict [ (VStr "x", VInt 4); (VStr "y", VInt 5) ]) (VInt 1)).
Proof.
  assert (Hnd : NoDup (fst <$> [ (VStr "by", VInt 3);
                                 (VStr "p", VDict [ (VStr "x", VInt 1);
                                                    (VStr "y", VInt 2) ]) ]))
    by distinct.
  assert (Hdec : Forall2 (decodes shift_method)
                   [ (VStr "by", VInt 3);
                     (VStr "p", VDict [ (VStr "x", VInt 1); (VStr "y", VInt 2) ]) ]
                   [ (VStr "by", VInt 3);
                     (VStr "p", VData "Point" [ ("x", VInt 1); ("y", VInt 2) ]) ]).
  { constructor; [|constructor; [|constructor]].
    - exists "by", (TScalar SInt). repeat split; run.
    - exists "p", Point. repeat split; run. }
  assert (Hkw : Forall (names_keyword shift_method)
                  [ (VStr "by", VInt 3);
                    (VStr "p", VDict [ (VStr "x", VInt 1); (VStr "y", VInt 2) ]) ]).
  { constructor; [|constructor; [|constructor]].
    - exists "by". split; [reflexivity|]. eexists. run.
    - exists "p". split; [reflexivity|]. eexists. run. }
  assert (Hvs : Forall2 (keyword_value
                           [ (VStr "by", VInt 3);
                             (VStr "p", VData "Point" [ ("x", VInt 1);
                                                        ("y", VInt 2) ]) ])
                  (parameters (func shift_method))
                  [ VData "Point" [ ("x", VInt 1); ("y", VInt 2) ]; VInt 3 ]).
  { constructor; [left; run|]. constructor; [left; run|]. constructor. }
  assert (Hkey : _method_definitions geometry_registry !! "geometryService.shift"
                 = Some shift_method) by run.
  split; [exact Hnd|]. split; [exact Hdec|]. split; [run|].
  apply (named_call_result geometry_registry _ "geometryService.shift" shift_method
           [ (VStr "by", VInt 3);
             (VStr "p", VDict [ (VStr "x", VInt 1); (VStr "y", VInt 2) ]) ]
           [ (VStr "by", VInt 3);
             (VStr "p", VData "Point" [ ("x", VInt 1); ("y", VInt 2) ]) ]
           [ VData "Point" [ ("x", VInt 1); ("y", VInt 2) ]; VInt 3 ]
           (VInt 1) (VData "Point" [ ("x", VInt 4); ("y", VInt 5) ])
           (VDict [ (VStr "x", VInt 4); (VStr "y", VInt 5) ]));
    [members|run|exact Hkey|run|run|exact Hnd|exact Hdec|exact Hkw|exact Hvs|run|run].
Defined.

(** add with a only. *)
Lemma named_call_missing_witness :
  Forall2 (decodes add_method) [ (VStr "a", VInt 2) ] [ (VStr "a", VInt 2) ]
  ∧ param "b" (TScalar SInt) ∈ parameters (func add_method)
  ∧ required (param "b" (TScalar SInt)) = true
  ∧ dict_lookup [ (VStr "a", VInt 2) ] (VStr "b") = None
  ∧ ∃ message,
      _execute_request math_registry
        (request (VInt 1) "mathService.add" (VDict [ (VStr "a", VInt 2) ]))
      = Ok (Error_envelope (-32000) message (Some (VInt 1))).
Proof.
  assert (Hdec : Forall2 (decodes add_method)
                   [ (VStr "a", VInt 2) ] [ (VStr "a", VInt 2) ]).
  { constructor; [|constructor]. exists "a", (TScalar SInt). repeat split; run. }
  assert (Hin : param "b" (TScalar SInt) ∈ parameters (func add_method))
    by (right; left).
  assert (Hkey : _method_definitions math_registry !! "mathService.add"
                 = Some add_method) by run.
  split; [exact Hdec|]. split; [exact Hin|]. split; [reflexivity|]. split; [run|].
  apply (named_call_missing math_registry _ "mathService.add" add_method
           [ (VStr "a", VInt 2) ] [ (VStr "a", VInt 2) ]
           (param "b" (TScalar SInt)) (VInt 1));
    [members|run|exact Hkey|run|run|distinct|exact Hdec|exact Hin|reflexivity|run].
Defined.

(** add with a member c, which names no parameter. *)
Lemma named_params_rejected_witness :
  assoc (signature add_method) "c" = None
  ∧ ∃ message,
      _execute_request math_registry
        (request (VInt 1) "mathService.add"
           (VDict [ (VStr "a", VInt 2); (VStr "c", VInt 3) ]))
      = Ok (Error_envelope (-32602) message (Some (VInt 1))).
Proof.
  assert (Hkey : _method_definitions math_registry !! "mathService.add"
                 = Some add_method) by run.
  split; [reflexivity|].
  apply (named_params_rejected math_registry _ "mathService.add" add_method
           [ (VStr "a", VInt 2); (VStr "c", VInt 3) ] (VInt 1) (VStr "c") (VInt 3));
    [members|run|exact Hkey|run|run|right; left|].
  intros n Hn. injection Hn as <-. left. reflexivity.
Defined.

(** The str of the two characters a and é, on three bytes, for a parameter
    of type [list[str]]. *)
Lemma sequence_of_iterable_witness :
  unchecked (TScalar SStr) = true
  ∧ String.length ("a" ++ e_acute) = 3%nat
  ∧ convert_arg (VStr ("a" ++ e_acute)) (TSeq OList (TScalar SStr))
    = Ok (VList [ VStr "a"; VStr e_acute ]).
Proof.
  split; [reflexivity|]. split; [reflexivity|].
  exact (proj1 (proj1 (proj2 (sequence_of_iterable OList (TScalar SStr) eq_refl))
                  ("a" ++ e_acute))).
Defined.

(** A mapping with a member beyond the fields of UserData. *)
Lemma record_decoding_witness :
  convert_arg (VDict [ (VStr "username", VStr "Alice");
                       (VStr "lastlogin", VStr "2024-01-01T00:00:00");
                       (VStr "admin", VBool true) ]) UserData
  = Ok (VData "UserData" [ ("username", VStr "Alice");
                           ("lastlogin", VDatetime "2024-01-01T00:00:00") ])
  ∧ ∃ values,
      VData "UserData" [ ("username", VStr "Alice");
                         ("lastlogin", VDatetime "2024-01-01T00:00:00") ]
      = VData "UserData" values
      ∧ fst <$> values = [ "username"; "lastlogin" ].
Proof.
  assert (Hdec : convert_arg (VDict [ (VStr "username", VStr "Alice");
                                      (VStr "lastlogin", VStr "2024-01-01T00:00:00");
                                      (VStr "admin", VBool true) ]) UserData
                 = Ok (VData "UserData"
                         [ ("username", VStr "Alice");
                           ("lastlogin", VDatetime "2024-01-01T00:00:00") ]))
    by run.
  split; [exact Hdec|].
  exact (proj1 record_decoding _ "UserData"
           [ ("username", TScalar SStr); ("lastlogin", TDatetime) ] _ Hdec).
Defined.

(** The batch posted as NDJSON. *)
Lemma wsgi_post_witness :
  mimetype_of post_batch = "application/x-ndjson"
  ∧ wsgi_func math_registry post_batch
    = (StartResponse "200 OK" [("Content-Type", "application/x-ndjson")]
         :: (Yield <$> fst (generate_response math_registry batch)),
       snd (generate_response math_registry batch)).
Proof.
  split; [reflexivity|].
  apply (proj1 (proj2 (wsgi_post math_registry post_batch batch
                         eq_refl eq_refl eq_refl))).
  reflexivity.
Defined.

(** A GET of /jsonrpc. *)
Lemma wsgi_routes_witness :
  endswith "/jsonrpc" ".js" = false
  ∧ wsgi_func math_registry get_endpoint
    = ([], Some (Exn TypeError "cannot unpack non-iterable NoneType object")).
Proof.
  assert (Hroute : ¬ ("/jsonrpc" = "/jsonrpc" ∧ "GET" = "POST"))
    by (intros [_ Hpost]; discriminate).
  split; [reflexivity|].
  apply (proj1 (proj2 (wsgi_routes math_registry get_endpoint "GET" "/jsonrpc"
                         eq_refl eq_refl Hroute)));
    reflexivity.
Defined.

End MoreScenarios.
